(** * Speech Analysis Assistant: schemas, capture state machines, report text
      and WAV encoding

    A shallow embedding of the TypeScript sources:
    - [src/ai/flows/schemas.ts], [src/ai/flows/analyze.ts] and
      [src/ai/flows/analyze-speech.ts] (the two analysis contracts),
    - [src/app/page.tsx] (component [Home]) and
      [src/components/speech-analysis-client.tsx] (component
      [SpeechAnalysisClient]), the two capture-and-analyze front ends,
    - [src/lib/pdf.ts] ([generatePdfReport], [encodeWAV]) and the
      [TranscriptionDisplay] component.

    JavaScript strings are Rocq strings (one character per code unit below
    256), JSON numbers are rationals, React state is a record and every
    handler is a function from the state (and the outcome of the browser or
    network operation it awaits) to the new state and the effects it
    performed. *)

From Stdlib Require Import ZArith QArith Qround List String Ascii Bool Lia.
Import ListNotations.
Local Open Scope string_scope.
Set Warnings "-register-all".
Local Open Scope Z_scope.

(* ================================================================== *)
(** ** JavaScript values *)
(* ================================================================== *)

Module Js.

(** A JSON value as produced by [JSON.parse]: the model output before any
    schema has looked at it.  An object keeps one binding per key, in source
    order. *)
Inductive json : Type :=
| JNull
| JBool (b : bool)
| JNum (q : Q)
| JStr (s : string)
| JArr (items : list json)
| JObj (fields : list (string * json)).

(** Property access [o[k]]; [None] is [undefined]. *)
Fixpoint get (k : string) (fields : list (string * json)) : option json :=
  match fields with
  | [] => None
  | (k', v) :: rest => if String.eqb k k' then Some v else get k rest
  end.

Definition prop (k : string) (v : json) : option json :=
  match v with
  | JObj fields => get k fields
  | _ => None
  end.

(** [!s] for a string: only the empty string is falsy. *)
Definition falsy (s : string) : bool :=
  match s with
  | EmptyString => true
  | String _ _ => false
  end.

Definition truthy (s : string) : bool := negb (falsy s).

(** [Number.isInteger] on a finite number. *)
Definition isInteger (q : Q) : bool := Qeq_bool (inject_Z (Qfloor q)) q.

(** White space and line terminators of ECMAScript that fit in one byte:
    TAB, LF, VT, FF, CR, SP and NBSP. *)
Definition isWhiteSpace (c : ascii) : bool :=
  let n := nat_of_ascii c in
  existsb (Nat.eqb n) [9; 10; 11; 12; 13; 32; 160]%nat.

Fixpoint trimStart (s : string) : string :=
  match s with
  | EmptyString => EmptyString
  | String c rest => if isWhiteSpace c then trimStart rest else s
  end.

(** [trimEnd] keeps a character when it is not white space or when something
    that is kept follows it. *)
Fixpoint trimEnd (s : string) : string :=
  match s with
  | EmptyString => EmptyString
  | String c rest =>
      match trimEnd rest with
      | EmptyString => if isWhiteSpace c then EmptyString else String c EmptyString
      | kept => String c kept
      end
  end.

(** [String.prototype.trim]. *)
Definition trim (s : string) : string := trimEnd (trimStart s).

(** [String.prototype.startsWith]. *)
Definition startsWith (s p : string) : bool := String.prefix p s.

(** [Array.prototype.join] on an array of strings: the separator goes in
    front of every element but the first. *)
Fixpoint join_from (k : nat) (sep : string) (xs : list string) (R : string) : string :=
  match xs with
  | [] => R
  | x :: rest =>
      let R' := if Nat.eqb k 0 then R else R ++ sep in
      join_from (S k) sep rest (R' ++ x)
  end.

Definition join (sep : string) (xs : list string) : string :=
  join_from 0 sep xs "".

End Js.

(* ================================================================== *)
(** ** A small model of the zod schema combinators *)
(* ================================================================== *)

Module Zod.
Import Js.

(** The combinators the two flows use.  [.describe(...)] has no effect on
    validation and is dropped. *)
Inductive schema : Type :=
| ZString
| ZNumber (min max : option Q)
| ZEnum (values : list string)
| ZArray (item : schema)
| ZObject (shape : list (string * schema))
| ZOptional (inner : schema).

Definition number : schema := ZNumber None None.

(** [.min(m)] and [.max(m)] on a number schema. *)
Definition min (m : Q) (s : schema) : schema :=
  match s with
  | ZNumber _ hi => ZNumber (Some m) hi
  | other => other
  end.

Definition max (m : Q) (s : schema) : schema :=
  match s with
  | ZNumber lo _ => ZNumber lo (Some m)
  | other => other
  end.

(** [base.extend(more)]: keys of [more] are added to the shape. *)
Definition extend (base : schema) (more : list (string * schema)) : schema :=
  match base with
  | ZObject shape => ZObject (shape ++ more)
  | other => other
  end.

Definition within (lo hi : option Q) (q : Q) : bool :=
  match lo with Some m => Qle_bool m q | None => true end
  && match hi with Some m => Qle_bool q m | None => true end.

(** Validation.  The value is [None] for [undefined], which is what a
    missing key of an object gives to the schema of that key. *)
Fixpoint accepts (s : schema) (v : option json) {struct s} : bool :=
  match s, v with
  | ZOptional _, None => true
  | ZOptional inner, Some _ => accepts inner v
  | ZString, Some (JStr _) => true
  | ZNumber lo hi, Some (JNum q) => within lo hi q
  | ZEnum values, Some (JStr x) => existsb (String.eqb x) values
  | ZArray item, Some (JArr items) =>
      forallb (fun x => accepts item (Some x)) items
  | ZObject shape, Some (JObj fields) =>
      (fix keys (sh : list (string * schema)) : bool :=
         match sh with
         | [] => true
         | (k, ks) :: rest => accepts ks (get k fields) && keys rest
         end) shape
  | _, _ => false
  end.

End Zod.

(* ================================================================== *)
(** ** src/ai/flows/schemas.ts *)
(* ================================================================== *)

Module Schemas.
Import Js Zod.

Definition EvaluationCriterionSchema : schema :=
  ZObject
    [ ("score", max 10 (min 0 number));
      ("evaluation", ZString);
      ("feedback", ZString) ].

Definition DeliveryCriteriaSchema : schema :=
  ZObject
    [ ("fluency", EvaluationCriterionSchema);
      ("pacing", EvaluationCriterionSchema);
      ("clarity", EvaluationCriterionSchema);
      ("confidence", EvaluationCriterionSchema);
      ("emotionalTone", EvaluationCriterionSchema) ].

Definition LanguageCriteriaSchema : schema :=
  ZObject
    [ ("grammar", EvaluationCriterionSchema);
      ("vocabulary", EvaluationCriterionSchema);
      ("wordChoice", EvaluationCriterionSchema);
      ("conciseness", EvaluationCriterionSchema);
      ("fillerWords", EvaluationCriterionSchema) ].

Definition ContentCriteriaSchema : schema :=
  ZObject
    [ ("relevance", EvaluationCriterionSchema);
      ("organization", EvaluationCriterionSchema);
      ("accuracy", EvaluationCriterionSchema);
      ("depth", EvaluationCriterionSchema);
      ("persuasiveness", EvaluationCriterionSchema) ].

Definition MetadataSchema : schema :=
  ZObject
    [ ("wordCount", number);
      ("fillerWordCount", number);
      ("speechRateWPM", number);
      ("averagePauseDurationMs", number);
      ("pitchVariance", number);
      ("audioDurationSeconds", number) ].

Definition AnalyzeSpeechOutputSchema : schema :=
  extend MetadataSchema
    [ ("totalScore", EvaluationCriterionSchema);
      ("delivery", DeliveryCriteriaSchema);
      ("language", LanguageCriteriaSchema);
      ("content", ContentCriteriaSchema);
      ("transcription", ZOptional ZString) ].

Definition AnalyzeInputSchema : schema :=
  ZObject
    [ ("audioDataUri", ZOptional ZString);
      ("transcription", ZOptional ZString);
      ("mode", ZEnum ["interview"; "presentation"; "practice"]);
      ("question", ZOptional ZString);
      ("perfectAnswer", ZOptional ZString) ].

(** The sixteen places of an output where an evaluation criterion sits:
    the holistic total and five criteria in each of the three groups. *)
Definition criterionPaths : list (list string) :=
  [ ["totalScore"];
    ["delivery"; "fluency"]; ["delivery"; "pacing"]; ["delivery"; "clarity"];
    ["delivery"; "confidence"]; ["delivery"; "emotionalTone"];
    ["language"; "grammar"]; ["language"; "vocabulary"];
    ["language"; "wordChoice"]; ["language"; "conciseness"];
    ["language"; "fillerWords"];
    ["content"; "relevance"]; ["content"; "organization"];
    ["content"; "accuracy"]; ["content"; "depth"];
    ["content"; "persuasiveness"] ].

Fixpoint at_path (p : list string) (v : json) : option json :=
  match p with
  | [] => Some v
  | k :: rest =>
      match prop k v with
      | Some w => at_path rest w
      | None => None
      end
  end.

End Schemas.

(* ================================================================== *)
(** ** What the flows and the components share *)
(* ================================================================== *)

Module Runtime.
Import Js.

(** A thrown [Error]. *)
Record Error : Type := { message : string }.

(** The result of awaiting a promise. *)
Inductive outcome (A : Type) : Type :=
| Resolved (a : A)
| Rejected (e : Error).
Arguments Resolved {A} a.
Arguments Rejected {A} e.

(** One part of the prompt given to [ai.generate]. *)
Inductive PromptPart : Type :=
| Media (url : string)
| Text (text : string).

(** What [ai.generate] does: it throws (network, quota, ...) or it answers,
    and the answer carries a parsed [output] or none. *)
Inductive Generated : Type :=
| GenerateThrew (e : Error)
| Response (output : option json).

(** The argument of [toast(...)]. *)
Record Toast : Type :=
  { variant : option string; title : string; description : option string }.

(** A [Blob] or [File]: its MIME type, its name, and what
    [FileReader.readAsDataURL] yields for it ([None] when the read fails and
    the reader fires [onerror]). *)
Record Blob : Type :=
  { type : string; name : string; dataUrl : option string }.

(** [URL.createObjectURL]. *)
Definition createObjectURL (b : Blob) : string := "blob:" ++ name b.

(** Effects a handler performs, in order. *)
Inductive Effect (Request : Type) : Type :=
| Notify (t : Toast)
| Invoke (r : Request)
| RecognitionStart
| RecognitionStop
| RecorderStart
| RecorderStop.
Arguments Notify {Request} t.
Arguments Invoke {Request} r.
Arguments RecognitionStart {Request}.
Arguments RecognitionStop {Request}.
Arguments RecorderStart {Request}.
Arguments RecorderStop {Request}.

Definition notices {R} (es : list (Effect R)) : list Toast :=
  flat_map (fun e => match e with Notify t => [t] | _ => [] end) es.

Definition invoked {R} (es : list (Effect R)) : list R :=
  flat_map (fun e => match e with Invoke r => [r] | _ => [] end) es.

(** What a submission can be missing. *)
Inductive Missing : Type :=
| Question
| PerfectAnswer
| Transcript
| Audio.

(** One speech-recognition result of an [onresult] event. *)
Record RecognitionResult : Type := { isFinal : bool; alternative : string }.

Definition quote : string := String (ascii_of_nat 34) EmptyString.
Definition newline : string := String (ascii_of_nat 10) EmptyString.

(** A field that is written only when it has a value. *)
Definition field (k : string) (o : option string) : list (string * json) :=
  match o with
  | Some s => [(k, JStr s)]
  | None => []
  end.

End Runtime.

(* ================================================================== *)
(** ** src/ai/flows/analyze.ts *)
(* ================================================================== *)

Module Analyze.
Import Js Zod Runtime Schemas.

Inductive AnalysisMode : Type := interview | presentation | practice.

Definition modeName (m : AnalysisMode) : string :=
  match m with
  | interview => "interview"
  | presentation => "presentation"
  | practice => "practice"
  end.

Record AnalyzeInput : Type :=
  { audioDataUri : option string;
    transcription : option string;
    mode : AnalysisMode;
    question : option string;
    perfectAnswer : option string }.

(** The object that crosses the server-action boundary. *)
Definition toJson (i : AnalyzeInput) : json :=
  JObj (field "audioDataUri" (audioDataUri i)
        ++ field "transcription" (transcription i)
        ++ [("mode", JStr (modeName (mode i)))]
        ++ field "question" (question i)
        ++ field "perfectAnswer" (perfectAnswer i)).

Definition whenTruthy (o : option string) (part : string -> PromptPart) : list PromptPart :=
  match o with
  | Some s => if truthy s then [part s] else []
  | None => []
  end.

Definition promptParts (input : AnalyzeInput) : list PromptPart :=
  whenTruthy (audioDataUri input) Media
  ++ whenTruthy (transcription input)
       (fun t => Text ("Transcription: " ++ quote ++ t ++ quote)).

Definition validationError : Error := {| message := "Schema validation failed." |}.
Definition noOutput : Error := {| message := "Analysis failed: no output from model." |}.

(** [analysisFlow]: the flow checks its input against [inputSchema], calls
    the model, throws when there is no output, and checks what it returns
    against [outputSchema]. *)
Definition analysisFlow (generate : AnalyzeInput -> list PromptPart -> Generated)
    (input : AnalyzeInput) : outcome json :=
  if negb (accepts AnalyzeInputSchema (Some (toJson input))) then Rejected validationError
  else
    match generate input (promptParts input) with
    | GenerateThrew e => Rejected e
    | Response None => Rejected noOutput
    | Response (Some output) =>
        if accepts AnalyzeSpeechOutputSchema (Some output) then Resolved output
        else Rejected validationError
    end.

Definition analyze := analysisFlow.

(** The model call went wrong: it threw, it gave no output, or its output
    does not fit the output schema. *)
Definition failed (generate : AnalyzeInput -> list PromptPart -> Generated)
    (input : AnalyzeInput) : bool :=
  match generate input (promptParts input) with
  | GenerateThrew _ => true
  | Response None => true
  | Response (Some output) => negb (accepts AnalyzeSpeechOutputSchema (Some output))
  end.

End Analyze.

(* ================================================================== *)
(** ** src/ai/flows/analyze-speech.ts *)
(* ================================================================== *)

Module AnalyzeSpeech.
Import Js Zod Runtime.

Definition evaluationCriteriaEnum : schema :=
  ZEnum [ "Fluency"; "Pacing"; "Clarity"; "Confidence"; "Emotional Tone";
          "Grammar"; "Vocabulary"; "Word Choice"; "Conciseness"; "Filler Words";
          "Relevance"; "Organization"; "Accuracy"; "Depth"; "Persuasiveness" ].

Definition evaluationCategoryEnum : schema :=
  ZEnum [ "Delivery"; "Language"; "Content" ].

Definition HighlightedSegmentSchema : schema :=
  ZObject [ ("text", ZString); ("type", ZEnum ["default"; "filler"; "pause"]) ].

Definition AnalyzeSpeechInputSchema : schema :=
  ZObject
    [ ("speechSample", ZString);
      ("mode", ZEnum ["Presentation Mode"; "Interview Mode"; "Practice Mode"]);
      ("question", ZOptional ZString);
      ("perfectAnswer", ZOptional ZString) ].

Definition CriterionItemSchema : schema :=
  ZObject
    [ ("category", evaluationCategoryEnum);
      ("criteria", evaluationCriteriaEnum);
      ("score", max 10 (min 0 number));
      ("evaluation", ZString);
      ("comparison", ZOptional ZString);
      ("feedback", ZString) ].

Definition AnalyzeSpeechOutputSchema : schema :=
  ZObject
    [ ("metadata",
       ZObject
         [ ("wordCount", number);
           ("fillerWordCount", number);
           ("speechRateWPM", number);
           ("averagePauseDurationMs", number);
           ("pitchVariance", number);
           ("audioDurationSeconds", ZOptional number);
           ("paceScore", max 100 (min 0 number));
           ("clarityScore", max 100 (min 0 number));
           ("pausePercentage", max 100 (min 0 number)) ]);
      ("highlightedTranscription", ZOptional (ZArray HighlightedSegmentSchema));
      ("evaluationCriteria", ZArray CriterionItemSchema);
      ("totalScore", max 100 (min 0 number));
      ("overallAssessment", ZString);
      ("suggestedSpeech", ZOptional ZString) ].

Inductive AnalysisMode : Type := PresentationMode | InterviewMode | PracticeMode.

Definition modeName (m : AnalysisMode) : string :=
  match m with
  | PresentationMode => "Presentation Mode"
  | InterviewMode => "Interview Mode"
  | PracticeMode => "Practice Mode"
  end.

Record AnalyzeSpeechInput : Type :=
  { speechSample : string;
    mode : AnalysisMode;
    question : option string;
    perfectAnswer : option string }.

Definition toJson (i : AnalyzeSpeechInput) : json :=
  JObj ([("speechSample", JStr (speechSample i)); ("mode", JStr (modeName (mode i)))]
        ++ field "question" (question i)
        ++ field "perfectAnswer" (perfectAnswer i)).

Definition labelled (label : string) (o : option string) : string :=
  match o with
  | Some s => if truthy s then newline ++ label ++ s else ""
  | None => ""
  end.

Definition contextText (input : AnalyzeSpeechInput) : string :=
  "Context: " ++ modeName (mode input)
  ++ labelled "Question: " (question input)
  ++ labelled "Perfect Answer: " (perfectAnswer input).

(** The sample goes in as media when it starts with [data:], as text
    otherwise. *)
Definition samplePart (sample : string) : PromptPart :=
  if startsWith sample "data:" then Media sample
  else Text ("Speech Sample (Candidate's Answer): " ++ sample).

Definition promptParts (input : AnalyzeSpeechInput) : list PromptPart :=
  [Text (contextText input); samplePart (speechSample input)].

Definition validationError : Error := {| message := "Schema validation failed." |}.
Definition noOutput : Error := {| message := "Analysis failed: no output from model." |}.

Definition analyzeSpeechFlow
    (generate : AnalyzeSpeechInput -> list PromptPart -> Generated)
    (input : AnalyzeSpeechInput) : outcome json :=
  if negb (accepts AnalyzeSpeechInputSchema (Some (toJson input))) then Rejected validationError
  else
    match generate input (promptParts input) with
    | GenerateThrew e => Rejected e
    | Response None => Rejected noOutput
    | Response (Some output) =>
        if accepts AnalyzeSpeechOutputSchema (Some output) then Resolved output
        else Rejected validationError
    end.

Definition analyzeSpeech := analyzeSpeechFlow.

Definition failed (generate : AnalyzeSpeechInput -> list PromptPart -> Generated)
    (input : AnalyzeSpeechInput) : bool :=
  match generate input (promptParts input) with
  | GenerateThrew _ => true
  | Response None => true
  | Response (Some output) => negb (accepts AnalyzeSpeechOutputSchema (Some output))
  end.

End AnalyzeSpeech.

(* ================================================================== *)
(** ** src/app/page.tsx: component [Home] *)
(* ================================================================== *)

Module Home.
Import Js Runtime Analyze.

Inductive InputMode : Type := live | audio | upload.

Definition InputMode_eqb (a b : InputMode) : bool :=
  match a, b with
  | live, live | audio, audio | upload, upload => true
  | _, _ => false
  end.

Definition AnalysisMode_eqb (a b : AnalysisMode) : bool :=
  match a, b with
  | interview, interview | presentation, presentation | practice, practice => true
  | _, _ => false
  end.

Definition Eff : Type := Effect AnalyzeInput.

(** The [useState] cells of the component, and the number of
    [getUserMedia] promises that have not settled yet. *)
Record State : Type := mkState
  { isLiveRecording : bool;
    isAudioRecording : bool;
    isAnalyzing : bool;
    transcript : string;
    analysisResult : option json;
    isSupported : bool;
    analysisMode : AnalysisMode;
    inputMode : InputMode;
    question : string;
    perfectAnswer : string;
    audioUrl : option string;
    audioBlob : option Blob;
    audioFile : option Blob;
    micRequests : nat }.

Definition set_isLiveRecording (v : bool) (st : State) : State :=
  let '(mkState _ b c d e f g h i j k l m n) := st in
  mkState v b c d e f g h i j k l m n.

Definition set_isAudioRecording (v : bool) (st : State) : State :=
  let '(mkState a _ c d e f g h i j k l m n) := st in
  mkState a v c d e f g h i j k l m n.

Definition set_isAnalyzing (v : bool) (st : State) : State :=
  let '(mkState a b _ d e f g h i j k l m n) := st in
  mkState a b v d e f g h i j k l m n.

Definition set_transcript (v : string) (st : State) : State :=
  let '(mkState a b c _ e f g h i j k l m n) := st in
  mkState a b c v e f g h i j k l m n.

Definition set_analysisResult (v : option json) (st : State) : State :=
  let '(mkState a b c d _ f g h i j k l m n) := st in
  mkState a b c d v f g h i j k l m n.

Definition set_analysisMode (v : AnalysisMode) (st : State) : State :=
  let '(mkState a b c d e f _ h i j k l m n) := st in
  mkState a b c d e f v h i j k l m n.

Definition set_inputMode (v : InputMode) (st : State) : State :=
  let '(mkState a b c d e f g _ i j k l m n) := st in
  mkState a b c d e f g v i j k l m n.

Definition set_question (v : string) (st : State) : State :=
  let '(mkState a b c d e f g h _ j k l m n) := st in
  mkState a b c d e f g h v j k l m n.

Definition set_perfectAnswer (v : string) (st : State) : State :=
  let '(mkState a b c d e f g h i _ k l m n) := st in
  mkState a b c d e f g h i v k l m n.

Definition set_audioUrl (v : option string) (st : State) : State :=
  let '(mkState a b c d e f g h i j _ l m n) := st in
  mkState a b c d e f g h i j v l m n.

Definition set_audioBlob (v : option Blob) (st : State) : State :=
  let '(mkState a b c d e f g h i j k _ m n) := st in
  mkState a b c d e f g h i j k v m n.

Definition set_audioFile (v : option Blob) (st : State) : State :=
  let '(mkState a b c d e f g h i j k l _ n) := st in
  mkState a b c d e f g h i j k l v n.

Definition set_micRequests (v : nat) (st : State) : State :=
  let '(mkState a b c d e f g h i j k l m _) := st in
  mkState a b c d e f g h i j k l m v.

(** The state once the mounting effect has run. *)
Definition init (supported : bool) : State :=
  mkState false false false "" None supported presentation live "" "" None None None 0.

(** *** Speech recognition callbacks *)

Definition finals (results : list RecognitionResult) : string :=
  fold_left (fun acc r => if isFinal r then acc ++ alternative r else acc) results "".

Definition onresult (results : list RecognitionResult) (st : State) : State :=
  let final_transcript := finals results in
  if truthy final_transcript then set_transcript (transcript st ++ final_transcript) st
  else st.

Definition recoverable (error : string) : bool :=
  String.eqb error "network" || String.eqb error "no-speech"
  || String.eqb error "audio-capture".

Definition recognitionErrorToast (error : string) : Toast :=
  {| variant := Some "destructive";
     title := "Speech Recognition Error";
     description := Some ("An error occurred: " ++ error) |}.

Definition onerror (error : string) (st : State) : State * list Eff :=
  if recoverable error then (st, [])
  else (set_isLiveRecording false st, [Notify (recognitionErrorToast error)]).

Definition onend (st : State) : State := set_isLiveRecording false st.

(** *** Capture handlers *)

(** The mounting effect sets [recognitionRef.current] and [isSupported]
    together, so the [null] test on the ref reads [isSupported]. *)
Definition handleToggleLiveRecording (st : State) : State * list Eff :=
  if negb (isSupported st) then (st, [])
  else if isLiveRecording st then (set_isLiveRecording false st, [RecognitionStop])
  else (set_isLiveRecording true (set_analysisResult None (set_transcript "" st)),
        [RecognitionStart]).

(** [handleToggleAudioRecording] up to its [await]: stopping is immediate,
    starting asks for the microphone and suspends. *)
Definition handleToggleAudioRecording (st : State) : State * list Eff :=
  if isAudioRecording st then (set_isAudioRecording false st, [RecorderStop])
  else (set_micRequests (S (micRequests st)) st, []).

Definition microphoneDeniedToast : Toast :=
  {| variant := Some "destructive";
     title := "Microphone Access Denied";
     description := Some "Please allow microphone access to record audio." |}.

(** The rest of [handleToggleAudioRecording], run when [getUserMedia]
    resolves ... *)
Definition microphoneGranted (st : State) : State * list Eff :=
  match micRequests st with
  | O => (st, [])
  | S n =>
      (set_isAudioRecording true
         (set_transcript ""
            (set_analysisResult None
               (set_audioFile None
                  (set_audioBlob None (set_audioUrl None (set_micRequests n st)))))),
       [RecorderStart])
  end.

(** ... and its [catch] branch, run when it rejects. *)
Definition microphoneDenied (st : State) : State * list Eff :=
  match micRequests st with
  | O => (st, [])
  | S n => (set_micRequests n st, [Notify microphoneDeniedToast])
  end.

(** [mediaRecorder.onstop]: the chunks become one blob. *)
Definition onstop (recording : Blob) (st : State) : State :=
  set_audioBlob (Some recording) (set_audioUrl (Some (createObjectURL recording)) st).

Definition invalidFileToast : Toast :=
  {| variant := Some "destructive";
     title := "Invalid File Type";
     description := Some "Please select a valid audio file." |}.

Definition handleFileSelect (file : option Blob) (st : State) : State * list Eff :=
  match file with
  | None => (st, [])
  | Some f =>
      if startsWith (type f) "audio/" then
        (set_analysisResult None
           (set_transcript ""
              (set_audioBlob None
                 (set_audioUrl (Some (createObjectURL f)) (set_audioFile (Some f) st)))),
         [])
      else (st, [Notify invalidFileToast])
  end.

Definition resetStateForMode (mode : InputMode) (st : State) : State :=
  set_analysisResult None
    (set_transcript ""
       (set_audioFile None (set_audioBlob None (set_audioUrl None (set_inputMode mode st))))).

(** *** [handleAnalyze] *)

Definition plain (t d : string) : Toast :=
  {| variant := None; title := t; description := Some d |}.

Definition questionEmptyInterview : Toast :=
  plain "Question is empty." "Please provide the question for interview mode.".
Definition questionEmptyPractice : Toast :=
  plain "Question is empty." "Please provide the question for practice mode.".
Definition perfectAnswerEmpty : Toast :=
  plain "Perfect Answer is empty." "Please provide the perfect answer for practice mode.".
Definition speechEmpty : Toast :=
  plain "Your speech is empty." "Please record your speech before analyzing.".
Definition noAudioRecorded : Toast :=
  plain "No audio recorded." "Please record an audio file before analyzing.".
Definition noFileSelected : Toast :=
  plain "No file selected." "Please select an audio file before analyzing.".

Definition analysisFailedToast (error : Error) : Toast :=
  {| variant := Some "destructive";
     title := "Analysis Failed";
     description :=
       Some (if truthy (message error) then message error
             else "Could not analyze the speech. Please try again.") |}.

(** What one run of the handler did: the state it leaves, its effects in
    order, the state while the request was outstanding (if one was sent),
    and whether the handler's own promise rejected. *)
Record Run : Type :=
  { after : State;
    effects : list Eff;
    inFlight : option State;
    unhandled : bool }.

Definition refused (st : State) (t : Toast) : Run :=
  {| after := st; effects := [Notify t]; inFlight := None; unhandled := false |}.

Definition inputData (st : State) : AnalyzeInput :=
  {| audioDataUri := None;
     transcription := None;
     mode := analysisMode st;
     Analyze.question :=
       match analysisMode st with
       | interview | practice => Some (Home.question st)
       | presentation => None
       end;
     Analyze.perfectAnswer :=
       match analysisMode st with
       | practice => Some (Home.perfectAnswer st)
       | _ => None
       end |}.

Definition withTranscription (t : string) (i : AnalyzeInput) : AnalyzeInput :=
  {| audioDataUri := audioDataUri i; transcription := Some t; mode := mode i;
     Analyze.question := Analyze.question i;
     Analyze.perfectAnswer := Analyze.perfectAnswer i |}.

Definition withAudioDataUri (u : string) (i : AnalyzeInput) : AnalyzeInput :=
  {| audioDataUri := Some u; transcription := transcription i; mode := mode i;
     Analyze.question := Analyze.question i;
     Analyze.perfectAnswer := Analyze.perfectAnswer i |}.

(** From [setIsAnalyzing(true)] to the [finally] block. *)
Definition submit (analyze : AnalyzeInput -> outcome json) (st : State)
    (input : AnalyzeInput) : Run :=
  let pending := set_analysisResult None (set_isAnalyzing true st) in
  match analyze input with
  | Resolved result =>
      let shown := set_analysisResult (Some result) pending in
      let shown :=
        match prop "transcription" result with
        | Some (JStr t) =>
            if truthy t && falsy (transcript st) then set_transcript t shown else shown
        | _ => shown
        end in
      {| after := set_isAnalyzing false shown;
         effects := [Invoke input];
         inFlight := Some pending;
         unhandled := false |}
  | Rejected error =>
      {| after := set_isAnalyzing false (set_analysisResult None pending);
         effects := [Invoke input; Notify (analysisFailedToast error)];
         inFlight := Some pending;
         unhandled := false |}
  end.

(** The [FileReader] step: a failed read rejects the awaited promise, and
    nothing catches it. *)
Definition readThenSubmit (analyze : AnalyzeInput -> outcome json) (st : State)
    (input : AnalyzeInput) (audioSource : Blob) : Run :=
  match dataUrl audioSource with
  | Some uri => submit analyze st (withAudioDataUri uri input)
  | None => {| after := st; effects := []; inFlight := None; unhandled := true |}
  end.

Definition handleAnalyze (analyze : AnalyzeInput -> outcome json) (st : State) : Run :=
  if AnalysisMode_eqb (analysisMode st) interview && falsy (trim (question st)) then
    refused st questionEmptyInterview
  else if AnalysisMode_eqb (analysisMode st) practice && falsy (trim (question st)) then
    refused st questionEmptyPractice
  else if AnalysisMode_eqb (analysisMode st) practice && falsy (trim (perfectAnswer st)) then
    refused st perfectAnswerEmpty
  else
    match inputMode st with
    | live =>
        if falsy (trim (transcript st)) then refused st speechEmpty
        else submit analyze st (withTranscription (transcript st) (inputData st))
    | audio =>
        match audioBlob st with
        | None => refused st noAudioRecorded
        | Some audioSource => readThenSubmit analyze st (inputData st) audioSource
        end
    | upload =>
        match audioFile st with
        | None => refused st noFileSelected
        | Some audioSource => readThenSubmit analyze st (inputData st) audioSource
        end
    end.

(** *** The controls and the events of the page *)

Definition liveDisabled (st : State) : bool :=
  negb (isSupported st) || isAnalyzing st || isAudioRecording st.

Definition recordDisabled (st : State) : bool :=
  isAnalyzing st || isLiveRecording st.

Definition selectDisabled (st : State) : bool :=
  isAnalyzing st || isLiveRecording st || isAudioRecording st.

Definition analyzeDisabled (st : State) : bool :=
  isAnalyzing st || isLiveRecording st || isAudioRecording st.

Inductive Event : Type :=
| ClickLive
| ClickRecord
| MicrophoneGranted
| MicrophoneDenied
| RecorderStopped (recording : Blob)
| FileChosen (file : option Blob)
| TabChanged (mode : InputMode)
| ModeChosen (mode : AnalysisMode)
| QuestionTyped (text : string)
| PerfectAnswerTyped (text : string)
| TranscriptTyped (text : string)
| RecognitionResults (results : list RecognitionResult)
| RecognitionError (error : string)
| RecognitionEnded
| ClickAnalyze.

(** A control reacts only when its tab panel is shown and it is not
    disabled.  A file can also be chosen through the drop zone of the upload
    panel, which is never disabled. *)
Definition step (analyze : AnalyzeInput -> outcome json) (st : State) (e : Event)
  : State * list Eff :=
  match e with
  | ClickLive =>
      if InputMode_eqb (inputMode st) live && negb (liveDisabled st)
      then handleToggleLiveRecording st else (st, [])
  | ClickRecord =>
      if InputMode_eqb (inputMode st) audio && negb (recordDisabled st)
      then handleToggleAudioRecording st else (st, [])
  | MicrophoneGranted => microphoneGranted st
  | MicrophoneDenied => microphoneDenied st
  | RecorderStopped recording => (onstop recording st, [])
  | FileChosen file =>
      if InputMode_eqb (inputMode st) upload then handleFileSelect file st else (st, [])
  | TabChanged mode => (resetStateForMode mode st, [])
  | ModeChosen mode => (set_analysisMode mode st, [])
  | QuestionTyped text =>
      match analysisMode st with
      | presentation => (st, [])
      | _ => (set_question text st, [])
      end
  | PerfectAnswerTyped text =>
      match analysisMode st with
      | practice => (set_perfectAnswer text st, [])
      | _ => (st, [])
      end
  | TranscriptTyped text =>
      if InputMode_eqb (inputMode st) live && negb (isLiveRecording st)
      then (set_transcript text st, []) else (st, [])
  | RecognitionResults results => (onresult results st, [])
  | RecognitionError error => onerror error st
  | RecognitionEnded => (onend st, [])
  | ClickAnalyze =>
      if analyzeDisabled st then (st, [])
      else let r := handleAnalyze analyze st in (after r, effects r)
  end.

Fixpoint run (analyze : AnalyzeInput -> outcome json) (st : State) (es : list Event)
  : State :=
  match es with
  | [] => st
  | e :: rest => run analyze (fst (step analyze st e)) rest
  end.

Definition settles (e : Event) : bool :=
  match e with
  | MicrophoneGranted | MicrophoneDenied => true
  | _ => false
  end.

(** A trace in which every microphone request is answered before anything
    else happens. *)
Fixpoint prompt (analyze : AnalyzeInput -> outcome json) (st : State) (es : list Event)
  : bool :=
  match es with
  | [] => true
  | e :: rest =>
      (match micRequests st with O => true | S _ => settles e end)
      && prompt analyze (fst (step analyze st e)) rest
  end.

(** What the submission in state [st] is missing: a question (interview and
    practice), a perfect answer (practice), the transcript (live tab) or the
    audio (record and upload tabs). *)
Definition lacks (st : State) (k : Missing) : bool :=
  match k with
  | Question =>
      match analysisMode st with
      | presentation => false
      | _ => falsy (trim (question st))
      end
  | PerfectAnswer =>
      match analysisMode st with
      | practice => falsy (trim (perfectAnswer st))
      | _ => false
      end
  | Transcript =>
      match inputMode st with
      | live => falsy (trim (transcript st))
      | _ => false
      end
  | Audio =>
      match inputMode st with
      | live => false
      | audio => match audioBlob st with None => true | Some _ => false end
      | upload => match audioFile st with None => true | Some _ => false end
      end
  end.

Definition lacksOnly (st : State) (k : Missing) : Prop :=
  forall k', lacks st k' = true <-> k' = k.

End Home.

(* ================================================================== *)
(** ** src/components/speech-analysis-client.tsx:
       component [SpeechAnalysisClient] *)
(* ================================================================== *)

Module Client.
Import Js Runtime AnalyzeSpeech.

(** The values the three [TabsTrigger]s give to [currentTab]. *)
Inductive Tab : Type := live | record | upload.

Definition Tab_eqb (a b : Tab) : bool :=
  match a, b with
  | live, live | record, record | upload, upload => true
  | _, _ => false
  end.

Definition AnalysisMode_eqb (a b : AnalysisMode) : bool :=
  match a, b with
  | PresentationMode, PresentationMode
  | InterviewMode, InterviewMode
  | PracticeMode, PracticeMode => true
  | _, _ => false
  end.

Definition Eff : Type := Effect AnalyzeSpeechInput.

(** The [useState] cells, the [final_transcript] variable the recognition
    callbacks close over, whether [mediaRecorderRef.current] is set, and the
    number of [getUserMedia] promises that have not settled yet. *)
Record State : Type := mkState
  { mode : AnalysisMode;
    question : string;
    perfectAnswer : string;
    transcript : string;
    isListening : bool;
    isRecording : bool;
    audioURL : option string;
    audioBlob : option Blob;
    currentTab : Tab;
    isLoading : bool;
    analysisResult : option json;
    isSpeechRecognitionSupported : bool;
    final_transcript : string;
    mediaRecorder : bool;
    micRequests : nat }.

Definition set_mode (v : AnalysisMode) (st : State) : State :=
  let '(mkState _ b c d e f g h i j k l m n o) := st in
  mkState v b c d e f g h i j k l m n o.

Definition set_question (v : string) (st : State) : State :=
  let '(mkState a _ c d e f g h i j k l m n o) := st in
  mkState a v c d e f g h i j k l m n o.

Definition set_perfectAnswer (v : string) (st : State) : State :=
  let '(mkState a b _ d e f g h i j k l m n o) := st in
  mkState a b v d e f g h i j k l m n o.

Definition set_transcript (v : string) (st : State) : State :=
  let '(mkState a b c _ e f g h i j k l m n o) := st in
  mkState a b c v e f g h i j k l m n o.

Definition set_isListening (v : bool) (st : State) : State :=
  let '(mkState a b c d _ f g h i j k l m n o) := st in
  mkState a b c d v f g h i j k l m n o.

Definition set_isRecording (v : bool) (st : State) : State :=
  let '(mkState a b c d e _ g h i j k l m n o) := st in
  mkState a b c d e v g h i j k l m n o.

Definition set_audioURL (v : option string) (st : State) : State :=
  let '(mkState a b c d e f _ h i j k l m n o) := st in
  mkState a b c d e f v h i j k l m n o.

Definition set_audioBlob (v : option Blob) (st : State) : State :=
  let '(mkState a b c d e f g _ i j k l m n o) := st in
  mkState a b c d e f g v i j k l m n o.

Definition set_currentTab (v : Tab) (st : State) : State :=
  let '(mkState a b c d e f g h _ j k l m n o) := st in
  mkState a b c d e f g h v j k l m n o.

Definition set_isLoading (v : bool) (st : State) : State :=
  let '(mkState a b c d e f g h i _ k l m n o) := st in
  mkState a b c d e f g h i v k l m n o.

Definition set_analysisResult (v : option json) (st : State) : State :=
  let '(mkState a b c d e f g h i j _ l m n o) := st in
  mkState a b c d e f g h i j v l m n o.

Definition set_final_transcript (v : string) (st : State) : State :=
  let '(mkState a b c d e f g h i j k l _ n o) := st in
  mkState a b c d e f g h i j k l v n o.

Definition set_mediaRecorder (v : bool) (st : State) : State :=
  let '(mkState a b c d e f g h i j k l m _ o) := st in
  mkState a b c d e f g h i j k l m v o.

Definition set_micRequests (v : nat) (st : State) : State :=
  let '(mkState a b c d e f g h i j k l m n _) := st in
  mkState a b c d e f g h i j k l m n v.

Definition init (supported : bool) : State :=
  mkState PresentationMode "" "" "" false false None None live false None supported
    "" false 0.

(** *** Speech recognition callbacks *)

Definition onresult (results : list RecognitionResult) (st : State) : State :=
  let final :=
    fold_left (fun acc r => if isFinal r then acc ++ alternative r else acc)
      results (final_transcript st) in
  let interim_transcript :=
    fold_left (fun acc r => if isFinal r then acc else acc ++ alternative r)
      results "" in
  set_transcript (final ++ interim_transcript) (set_final_transcript final st).

Definition onend (st : State) : State := set_isListening false st.

Definition recognitionErrorToast (error : string) : Toast :=
  {| variant := Some "destructive";
     title := "Speech Recognition Error";
     description := Some ("Error: " ++ error) |}.

Definition onerror (error : string) (st : State) : State * list Eff :=
  (set_isListening false st, [Notify (recognitionErrorToast error)]).

(** *** Capture handlers *)

Definition handleToggleListening (st : State) : State * list Eff :=
  if negb (isSpeechRecognitionSupported st) then (st, [])
  else if isListening st then
    (set_isListening (negb (isListening st)) st, [RecognitionStop])
  else
    (set_isListening (negb (isListening st)) (set_transcript "" st), [RecognitionStart]).

Definition stopRecording (st : State) : State * list Eff :=
  if mediaRecorder st then (set_isRecording false st, [RecorderStop]) else (st, []).

Definition clearAudio (st : State) : State * list Eff :=
  let cleared := set_audioURL None (set_audioBlob None st) in
  if isRecording st then stopRecording cleared else (cleared, []).

(** [handleToggleRecording]; starting runs [startRecording] up to its
    [await]. *)
Definition handleToggleRecording (st : State) : State * list Eff :=
  if isRecording st then stopRecording st
  else
    let (cleared, es) := clearAudio st in
    (set_micRequests (S (micRequests cleared)) cleared, es).

Definition microphoneErrorToast : Toast :=
  {| variant := Some "destructive";
     title := "Microphone Error";
     description := Some "Could not access microphone. Please check permissions." |}.

Definition microphoneGranted (st : State) : State * list Eff :=
  match micRequests st with
  | O => (st, [])
  | S n =>
      (set_isRecording true (set_mediaRecorder true (set_micRequests n st)),
       [RecorderStart])
  end.

Definition microphoneDenied (st : State) : State * list Eff :=
  match micRequests st with
  | O => (st, [])
  | S n => (set_micRequests n st, [Notify microphoneErrorToast])
  end.

Definition onstop (recording : Blob) (st : State) : State :=
  set_audioURL (Some (createObjectURL recording)) (set_audioBlob (Some recording) st).

Definition handleFileChange (file : option Blob) (st : State) : State * list Eff :=
  match file with
  | None => (st, [])
  | Some f =>
      let (cleared, es) := clearAudio st in
      (set_currentTab upload
         (set_audioURL (Some (createObjectURL f)) (set_audioBlob (Some f) cleared)),
       es)
  end.

(** [onValueChange] of the tabs. *)
Definition onValueChange (v : Tab) (st : State) : State * list Eff :=
  let (cleared, es) := clearAudio st in
  (set_currentTab v (set_transcript "" cleared), es).

(** *** [handleAnalyze] *)

Definition destructive (t : string) : Toast :=
  {| variant := Some "destructive"; title := t; description := None |}.

Definition noTranscription : Toast := destructive "No transcription provided.".
Definition noAudio : Toast := destructive "No audio provided.".
Definition enterQuestion : Toast := destructive "Please enter an interview question.".
Definition enterBoth : Toast :=
  destructive "Please enter both question and perfect answer.".

Definition analysisFailedToast : Toast :=
  {| variant := Some "destructive";
     title := "Analysis Failed";
     description := Some "Something went wrong. Please try again." |}.

Record Run : Type :=
  { after : State;
    effects : list Eff;
    inFlight : option State;
    unhandled : bool }.

Definition refused (st : State) (t : Toast) : Run :=
  {| after := st; effects := [Notify t]; inFlight := None; unhandled := false |}.

Definition input (st : State) (sample : string) : AnalyzeSpeechInput :=
  {| speechSample := sample;
     AnalyzeSpeech.mode := mode st;
     AnalyzeSpeech.question :=
       if truthy (question st) then Some (question st) else None;
     AnalyzeSpeech.perfectAnswer :=
       if truthy (perfectAnswer st) && AnalysisMode_eqb (mode st) PracticeMode
       then Some (perfectAnswer st) else None |}.

(** From [setIsLoading(true)] to the [finally] block. *)
Definition submit (analyzeSpeech : AnalyzeSpeechInput -> outcome json) (st : State)
    (sample : string) : Run :=
  let pending := set_analysisResult None (set_isLoading true st) in
  match analyzeSpeech (input st sample) with
  | Resolved result =>
      {| after := set_isLoading false (set_analysisResult (Some result) pending);
         effects := [Invoke (input st sample)];
         inFlight := Some pending;
         unhandled := false |}
  | Rejected _ =>
      {| after := set_isLoading false pending;
         effects := [Invoke (input st sample); Notify analysisFailedToast];
         inFlight := Some pending;
         unhandled := false |}
  end.

(** The checks on the context fields, made once the sample is at hand. *)
Definition checkContext (analyzeSpeech : AnalyzeSpeechInput -> outcome json)
    (st : State) (sample : string) : Run :=
  if AnalysisMode_eqb (mode st) InterviewMode && falsy (question st) then
    refused st enterQuestion
  else if AnalysisMode_eqb (mode st) PracticeMode
          && (falsy (question st) || falsy (perfectAnswer st)) then
    refused st enterBoth
  else submit analyzeSpeech st sample.

(** One run of [handleAnalyze] taken as a whole, from the click to the
    [finally] block, as it goes when nothing happens between its awaits.
    The awaits themselves, and runs that overlap, are in [ClientAsync]
    below. *)
Definition handleAnalyze (analyzeSpeech : AnalyzeSpeechInput -> outcome json)
    (st : State) : Run :=
  match currentTab st with
  | live =>
      if falsy (transcript st) then refused st noTranscription
      else checkContext analyzeSpeech st (transcript st)
  | record | upload =>
      match audioBlob st with
      | None => refused st noAudio
      | Some blob =>
          match dataUrl blob with
          | Some uri => checkContext analyzeSpeech st uri
          | None => {| after := st; effects := []; inFlight := None; unhandled := true |}
          end
      end
  end.

(** *** The controls and the events of the component *)

Definition hasAudio (st : State) : bool :=
  match audioURL st with Some _ => true | None => false end.

Inductive Event : Type :=
| ClickListen
| ClickRecord
| ClickClear
| MicrophoneGranted
| MicrophoneDenied
| RecorderStopped (recording : Blob)
| FileChosen (file : option Blob)
| TabChanged (v : Tab)
| ModeChosen (m : AnalysisMode)
| QuestionTyped (text : string)
| PerfectAnswerTyped (text : string)
| TranscriptTyped (text : string)
| RecognitionResults (results : list RecognitionResult)
| RecognitionError (error : string)
| RecognitionEnded
| ClickAnalyze.

(** A control reacts only when it is rendered and not disabled: the listen
    button is disabled without browser support, the analyze button while
    loading; no other control of this component is ever disabled. *)
Definition step (analyzeSpeech : AnalyzeSpeechInput -> outcome json) (st : State)
    (e : Event) : State * list Eff :=
  match e with
  | ClickListen =>
      if Tab_eqb (currentTab st) live && isSpeechRecognitionSupported st
      then handleToggleListening st else (st, [])
  | ClickRecord =>
      if Tab_eqb (currentTab st) record && negb (hasAudio st)
      then handleToggleRecording st else (st, [])
  | ClickClear =>
      if negb (Tab_eqb (currentTab st) live) && hasAudio st
      then clearAudio st else (st, [])
  | MicrophoneGranted => microphoneGranted st
  | MicrophoneDenied => microphoneDenied st
  | RecorderStopped recording => (onstop recording st, [])
  | FileChosen file =>
      if Tab_eqb (currentTab st) upload && negb (hasAudio st)
      then handleFileChange file st else (st, [])
  | TabChanged v => onValueChange v st
  | ModeChosen m => (set_mode m st, [])
  | QuestionTyped text =>
      match mode st with
      | PresentationMode => (st, [])
      | _ => (set_question text st, [])
      end
  | PerfectAnswerTyped text =>
      match mode st with
      | PracticeMode => (set_perfectAnswer text st, [])
      | _ => (st, [])
      end
  | TranscriptTyped text =>
      if Tab_eqb (currentTab st) live && negb (isListening st)
      then (set_transcript text st, []) else (st, [])
  | RecognitionResults results => (onresult results st, [])
  | RecognitionError error => onerror error st
  | RecognitionEnded => (onend st, [])
  | ClickAnalyze =>
      if isLoading st then (st, [])
      else let r := handleAnalyze analyzeSpeech st in (after r, effects r)
  end.

Fixpoint run (analyzeSpeech : AnalyzeSpeechInput -> outcome json) (st : State)
    (es : list Event) : State :=
  match es with
  | [] => st
  | e :: rest => run analyzeSpeech (fst (step analyzeSpeech st e)) rest
  end.

Definition settles (e : Event) : bool :=
  match e with
  | MicrophoneGranted | MicrophoneDenied => true
  | _ => false
  end.

Fixpoint prompt (analyzeSpeech : AnalyzeSpeechInput -> outcome json) (st : State)
    (es : list Event) : bool :=
  match es with
  | [] => true
  | e :: rest =>
      (match micRequests st with O => true | S _ => settles e end)
      && prompt analyzeSpeech (fst (step analyzeSpeech st e)) rest
  end.

(** What the submission in state [st] is missing; here a field is missing
    when it is the empty string. *)
Definition lacks (st : State) (k : Missing) : bool :=
  match k with
  | Question =>
      match mode st with
      | PresentationMode => false
      | _ => falsy (question st)
      end
  | PerfectAnswer =>
      match mode st with
      | PracticeMode => falsy (perfectAnswer st)
      | _ => false
      end
  | Transcript =>
      match currentTab st with
      | live => falsy (transcript st)
      | _ => false
      end
  | Audio =>
      match currentTab st with
      | live => false
      | _ => match audioBlob st with None => true | Some _ => false end
      end
  end.

Definition lacksOnly (st : State) (k : Missing) : Prop :=
  forall k', lacks st k' = true <-> k' = k.

(** The recorded or chosen audio, if any, can be read. *)
Definition readable (st : State) : bool :=
  match audioBlob st with
  | Some blob => match dataUrl blob with Some _ => true | None => false end
  | None => true
  end.

End Client.

(* ================================================================== *)
(** ** src/components/speech-analysis-client.tsx: [handleAnalyze] across
       its awaits *)
(* ================================================================== *)

Module ClientAsync.
Import Js Runtime AnalyzeSpeech.

(** A run of [handleAnalyze] that is suspended at one of its two [await]s:
    at [fileToDataUri(audioBlob)], or at [analyzeSpeech(input)].  The
    handler is a closure over the render in which the button was clicked:
    [mode], [question], [perfectAnswer] and [audioBlob] are read from there,
    whereas the setters act on the cells as they are when the run goes on. *)
Inductive Suspended : Type :=
| Reading (closure : Client.State) (blob : Blob)
| Requesting (input : AnalyzeSpeechInput).

(** The cells of the component and the runs of the handler that have not
    ended, oldest first. *)
Record World : Type :=
  { cells : Client.State;
    runs : list Suspended }.

Definition Eff : Type := Client.Eff.

Definition update (f : Client.State -> Client.State) (w : World) : World :=
  {| cells := f (cells w); runs := runs w |}.

Definition suspend (r : Suspended) (w : World) : World :=
  {| cells := cells w; runs := (runs w ++ [r])%list |}.

(** The [n]-th suspended run goes on. *)
Definition resume (n : nat) (w : World) : World :=
  {| cells := cells w; runs := (firstn n (runs w) ++ skipn (S n) (runs w))%list |}.

(** From the checks on the context fields to [await analyzeSpeech(input)]. *)
Definition send (closure : Client.State) (sample : string) (w : World)
  : World * list Eff :=
  if Client.AnalysisMode_eqb (Client.mode closure) InterviewMode
     && falsy (Client.question closure) then
    (w, [Notify Client.enterQuestion])
  else if Client.AnalysisMode_eqb (Client.mode closure) PracticeMode
          && (falsy (Client.question closure) || falsy (Client.perfectAnswer closure)) then
    (w, [Notify Client.enterBoth])
  else
    let input := Client.input closure sample in
    (suspend (Requesting input)
       (update (fun st => Client.set_analysisResult None (Client.set_isLoading true st)) w),
     [Invoke input]).

(** [handleAnalyze] from the click to its first [await]: in the live tab
    that is the request, in the other two the reading of the audio. *)
Definition handleAnalyze (w : World) : World * list Eff :=
  let closure := cells w in
  match Client.currentTab closure with
  | Client.live =>
      if falsy (Client.transcript closure) then (w, [Notify Client.noTranscription])
      else send closure (Client.transcript closure) w
  | Client.record | Client.upload =>
      match Client.audioBlob closure with
      | None => (w, [Notify Client.noAudio])
      | Some blob => (suspend (Reading closure blob) w, [])
      end
  end.

(** [fileToDataUri] settles: with the data URL the run goes on to the
    checks; a failed read rejects the [await], nothing catches it, and the
    run ends there. *)
Definition fileRead (n : nat) (w : World) : World * list Eff :=
  match nth_error (runs w) n with
  | Some (Reading closure blob) =>
      match dataUrl blob with
      | Some uri => send closure uri (resume n w)
      | None => (resume n w, [])
      end
  | _ => (w, [])
  end.

(** [analyzeSpeech(input)] settles: the rest of the [try] block, or the
    [catch] block, and then [finally]. *)
Definition settled (n : nat) (answer : outcome json) (w : World) : World * list Eff :=
  match nth_error (runs w) n with
  | Some (Requesting input) =>
      match answer with
      | Resolved result =>
          (update (fun st =>
                     Client.set_isLoading false (Client.set_analysisResult (Some result) st))
             (resume n w),
           [])
      | Rejected _ =>
          (update (Client.set_isLoading false) (resume n w),
           [Notify Client.analysisFailedToast])
      end
  | _ => (w, [])
  end.

(** What happens to the component: an event of the page, the end of a
    file read, or the answer to a request. *)
Inductive Event : Type :=
| Ui (e : Client.Event)
| FileRead (n : nat)
| Settled (n : nat) (answer : outcome json).

(** [Client.step] consults the remote call for [ClickAnalyze] only, which
    is taken apart here; for every other event it is given this one. *)
Definition notCalled (input : AnalyzeSpeechInput) : outcome json :=
  Rejected {| message := "not called" |}.

Definition step (w : World) (ev : Event) : World * list Eff :=
  match ev with
  | Ui Client.ClickAnalyze =>
      if Client.isLoading (cells w) then (w, []) else handleAnalyze w
  | Ui e =>
      let (st, es) := Client.step notCalled (cells w) e in
      ({| cells := st; runs := runs w |}, es)
  | FileRead n => fileRead n w
  | Settled n answer => settled n answer w
  end.

Fixpoint run (w : World) (evs : list Event) : World :=
  match evs with
  | [] => w
  | ev :: rest => run (fst (step w ev)) rest
  end.


(** One run with nothing in between: the click, the end of the read if
    there is one, and the answer of [analyzeSpeech]. *)
Definition alone (analyzeSpeech : AnalyzeSpeechInput -> outcome json) (st : Client.State)
  : World * list Eff :=
  let (w1, es1) := handleAnalyze {| cells := st; runs := [] |} in
  let (w2, es2) := fileRead 0 w1 in
  match runs w2 with
  | Requesting input :: _ =>
      let (w3, es3) := settled 0 (analyzeSpeech input) w2 in
      (w3, (es1 ++ es2 ++ es3)%list)
  | _ => (w2, (es1 ++ es2)%list)
  end.

End ClientAsync.

(* ================================================================== *)
(** ** The transcription in the dashboard and in the PDF report *)
(* ================================================================== *)

Module Report.
Import Js.

Inductive SegmentType : Type := default | filler | pause.

Record Segment : Type := { text : string; type : SegmentType }.

(** [generatePdfReport], the "Full Transcription" section: the text that is
    wrapped and printed; the section is left out without segments. *)
Definition fullText (highlightedTranscription : list Segment) : string :=
  join " " (map text highlightedTranscription).

Definition transcriptionSection (highlightedTranscription : option (list Segment))
  : option string :=
  match highlightedTranscription with
  | Some ((_ :: _) as segments) => Some (fullText segments)
  | _ => None
  end.

(** [TranscriptionDisplay]: one [span] per segment, holding the text and a
    space. *)
Record Span : Type := { className : string; children : list string }.

Definition TranscriptionDisplay (segments : list Segment) : list Span :=
  map (fun segment =>
         {| className :=
              match type segment with
              | filler | pause => "text-red-500 font-medium"
              | default => ""
              end;
            children := [text segment; " "] |})
      segments.

(** The text of the rendered paragraph. *)
Definition textContent (spans : list Span) : string :=
  fold_right (fun span acc => fold_right append acc (children span)) "" spans.

(** [AnalysisDashboard] shows the card only for a non-empty array. *)
Definition transcriptionCard (highlightedTranscription : option (list Segment))
  : option string :=
  match highlightedTranscription with
  | Some ((_ :: _) as segments) => Some (textContent (TranscriptionDisplay segments))
  | _ => None
  end.

(** The segment texts put one after the other with nothing in between. *)
Definition concatenation (segments : list Segment) : string :=
  fold_right (fun segment acc => text segment ++ acc) "" segments.

End Report.

(* ================================================================== *)
(** ** src/lib/pdf.ts: [encodeWAV] *)
(* ================================================================== *)

Module Wav.
Local Open Scope list_scope.

Inductive Exception : Type := TypeError | RangeError.

Inductive result (A : Type) : Type :=
| Ok (a : A)
| Throw (e : Exception).
Arguments Ok {A} a.
Arguments Throw {A} e.

Definition bind {A B} (c : result A) (k : A -> result B) : result B :=
  match c with
  | Ok a => k a
  | Throw e => Throw e
  end.

Notation "x <- c ;; k" := (bind c (fun x => k))
  (at level 61, c at next level, right associativity).

(** An element of a [Float32Array]. *)
Inductive float : Type :=
| Finite (q : Q)
| NaN
| PosInfinity
| NegInfinity.

(** The bytes of an [ArrayBuffer], each in [0, 256). *)
Definition bytes : Type := list Z.

Definition byteLength (b : bytes) : Z := Z.of_nat (List.length b).

(** Little-endian bytes of the [n]-byte two's complement form of [v]. *)
Fixpoint littleEndian (n : nat) (v : Z) : list Z :=
  match n with
  | O => []
  | S k => (v mod 256) :: littleEndian k (v / 256)
  end.

Fixpoint fromLittleEndian (bs : list Z) : Z :=
  match bs with
  | [] => 0
  | b :: rest => b + 256 * fromLittleEndian rest
  end.

(** A [DataView] write of consecutive bytes: a [RangeError] unless they all
    fit. *)
Definition store (view : bytes) (offset : Z) (bs : list Z) : result bytes :=
  if (0 <=? offset) && (offset + Z.of_nat (List.length bs) <=? byteLength view) then
    Ok (firstn (Z.to_nat offset) view ++ bs
        ++ skipn (Z.to_nat offset + List.length bs)%nat view)
  else Throw RangeError.

Definition setUint8 (view : bytes) (offset v : Z) : result bytes :=
  store view offset (littleEndian 1 v).

(** [setUint16(offset, v, true)] and [setUint32(offset, v, true)]. *)
Definition setUint16 (view : bytes) (offset v : Z) : result bytes :=
  store view offset (littleEndian 2 v).

Definition setUint32 (view : bytes) (offset v : Z) : result bytes :=
  store view offset (littleEndian 4 v).

(** The integer a [DataView] setter makes of a number: truncation, and zero
    for [NaN] and the infinities. *)
Definition toInteger (x : float) : Z :=
  match x with
  | Finite q => if Qle_bool 0 q then Qfloor q else Qceiling q
  | _ => 0
  end.

(** [setInt16(offset, x, true)]. *)
Definition setInt16 (view : bytes) (offset : Z) (x : float) : result bytes :=
  store view offset (littleEndian 2 (toInteger x)).

Definition getUint32 (view : bytes) (offset : Z) : Z :=
  fromLittleEndian (firstn 4 (skipn (Z.to_nat offset) view)).

(** [Math.min(1, x)] and [Math.max(-1, x)]. *)
Definition min1 (x : float) : float :=
  match x with
  | Finite q => if Qle_bool 1 q then Finite 1 else Finite q
  | PosInfinity => Finite 1
  | other => other
  end.

Definition maxNeg1 (x : float) : float :=
  match x with
  | Finite q => if Qle_bool q (-1) then Finite (-1) else Finite q
  | NegInfinity => Finite (-1)
  | other => other
  end.

(** [s < 0 ? s * 0x8000 : s * 0x7FFF]. *)
Definition scale (s : float) : float :=
  match s with
  | Finite q => if Qle_bool 0 q then Finite (q * 32767) else Finite (q * 32768)
  | other => other
  end.

Definition pcm (x : float) : float := scale (maxNeg1 (min1 x)).

Fixpoint writeString (view : bytes) (offset : Z) (s : string) : result bytes :=
  match s with
  | EmptyString => Ok view
  | String c rest =>
      view <- setUint8 view offset (Z.of_nat (nat_of_ascii c)) ;;
      writeString view (offset + 1) rest
  end.

(** The inner loop of [floatTo16BitPCM], over one chunk; it hands back the
    advanced [offset]. *)
Fixpoint writeChunk (output : bytes) (offset : Z) (chunk : list float)
  : result (bytes * Z) :=
  match chunk with
  | [] => Ok (output, offset)
  | x :: rest =>
      output <- setInt16 output offset (pcm x) ;;
      writeChunk output (offset + 2) rest
  end.

Fixpoint writeChunks (output : bytes) (offset : Z) (input : list (list float))
  : result (bytes * Z) :=
  match input with
  | [] => Ok (output, offset)
  | chunk :: rest =>
      r <- writeChunk output offset chunk ;;
      writeChunks (fst r) (snd r) rest
  end.

Definition floatTo16BitPCM (output : bytes) (offset : Z) (input : list (list float))
  : result bytes :=
  r <- writeChunks output offset input ;; Ok (fst r).

Record Blob : Type := { content : bytes; type : string }.

Definition size (b : Blob) : Z := byteLength (content b).

(** [samples.reduce((acc, val) => acc + val.length, 0)]. *)
Definition totalSamples (samples : list (list float)) : Z :=
  fold_left (fun acc val => acc + Z.of_nat (List.length val)) samples 0.

(** [encodeWAV].  Reading [samples[0].length] of an empty array throws a
    [TypeError].  The sample rate is taken to be an integer; sizes are exact
    integers (they stay far below 2^53), and no limit is put on the size of
    an [ArrayBuffer]. *)
Definition encodeWAV (samples : list (list float)) (sampleRate : Z) : result Blob :=
  match samples with
  | [] => Throw TypeError
  | first :: _ =>
      let buffer :=
        repeat 0 (Z.to_nat (44 + Z.of_nat (List.length samples) * 2 * Z.of_nat (List.length first))) in
      let totalSamples := totalSamples samples in
      view <- writeString buffer 0 "RIFF" ;;
      view <- setUint32 view 4 (36 + totalSamples * 2) ;;
      view <- writeString view 8 "WAVE" ;;
      view <- writeString view 12 "fmt " ;;
      view <- setUint32 view 16 16 ;;
      view <- setUint16 view 20 1 ;;
      view <- setUint16 view 22 1 ;;
      view <- setUint32 view 24 sampleRate ;;
      view <- setUint32 view 28 (sampleRate * 2) ;;
      view <- setUint16 view 32 2 ;;
      view <- setUint16 view 34 16 ;;
      view <- writeString view 36 "data" ;;
      view <- setUint32 view 40 (totalSamples * 2) ;;
      view <- floatTo16BitPCM view 44 samples ;;
      Ok {| content := view; type := "audio/wav" |}
  end.

(** The layout the writes amount to: the 44 header bytes, then two bytes
    per sample. *)
Definition codes (s : string) : list Z :=
  map (fun c => Z.of_nat (nat_of_ascii c) mod 256) (list_ascii_of_string s).

Definition headerBytes (totalSamples sampleRate : Z) : list Z :=
  codes "RIFF" ++ littleEndian 4 (36 + totalSamples * 2)
  ++ codes "WAVE" ++ codes "fmt "
  ++ littleEndian 4 16 ++ littleEndian 2 1 ++ littleEndian 2 1
  ++ littleEndian 4 sampleRate ++ littleEndian 4 (sampleRate * 2)
  ++ littleEndian 2 2 ++ littleEndian 2 16
  ++ codes "data" ++ littleEndian 4 (totalSamples * 2).

Definition chunkBytes (chunk : list float) : list Z :=
  flat_map (fun x => littleEndian 2 (toInteger (pcm x))) chunk.

Definition dataBytes (samples : list (list float)) : list Z :=
  flat_map chunkBytes samples.

(** All chunks have the length of the first. *)
Definition uniform (samples : list (list float)) : Prop :=
  match samples with
  | [] => True
  | first :: _ => Forall (fun chunk => List.length chunk = List.length first) samples
  end.

End Wav.

(* ================================================================== *)
(** ** Sample values *)
(* ================================================================== *)

Module Samples.
Import Js Runtime.

Definition criterion (score : Q) : json :=
  JObj [ ("score", JNum score);
         ("evaluation", JStr "Clear and steady.");
         ("feedback", JStr "Vary the pace.") ].

Definition group (keys : list string) : json :=
  JObj (map (fun k => (k, criterion 7)) keys).

(** A model answer in the shape of [schemas.ts]. *)
Definition output : json :=
  JObj [ ("wordCount", JNum 120);
         ("fillerWordCount", JNum 3);
         ("speechRateWPM", JNum 140);
         ("averagePauseDurationMs", JNum 350);
         ("pitchVariance", JNum (3 # 2));
         ("audioDurationSeconds", JNum 51);
         ("totalScore", criterion 8);
         ("delivery",
          group ["fluency"; "pacing"; "clarity"; "confidence"; "emotionalTone"]);
         ("language",
          group ["grammar"; "vocabulary"; "wordChoice"; "conciseness"; "fillerWords"]);
         ("content",
          group ["relevance"; "organization"; "accuracy"; "depth"; "persuasiveness"]) ].

(** A model answer in the shape of [analyze-speech.ts]. *)
Definition legacyOutput : json :=
  JObj [ ("metadata",
          JObj [ ("wordCount", JNum 120);
                 ("fillerWordCount", JNum 3);
                 ("speechRateWPM", JNum 140);
                 ("averagePauseDurationMs", JNum 350);
                 ("pitchVariance", JNum (3 # 2));
                 ("paceScore", JNum 80);
                 ("clarityScore", JNum 75);
                 ("pausePercentage", JNum 12) ]);
         ("highlightedTranscription",
          JArr [ JObj [("text", JStr "Hello"); ("type", JStr "default")];
                 JObj [("text", JStr "um"); ("type", JStr "filler")] ]);
         ("evaluationCriteria",
          JArr [ JObj [ ("category", JStr "Delivery");
                        ("criteria", JStr "Fluency");
                        ("score", JNum 6);
                        ("evaluation", JStr "Mostly fluent.");
                        ("feedback", JStr "Drop the fillers.") ] ]);
         ("totalScore", JNum 72);
         ("overallAssessment", JStr "A solid start.") ].

(** A criterion scored seven and a half. *)
Definition halfPoint : json := criterion (15 # 2).

Definition recording : Blob :=
  {| type := "audio/wav"; name := "recording.wav";
     dataUrl := Some "data:audio/wav;base64,UklGRg==" |}.

Definition notes : Blob :=
  {| type := "text/plain"; name := "notes.txt";
     dataUrl := Some "data:text/plain;base64,aGk=" |}.

Definition song : Blob :=
  {| type := "audio/mpeg"; name := "song.mp3";
     dataUrl := Some "data:audio/mpeg;base64,SUQz" |}.

Definition offline : Error := {| message := "fetch failed" |}.

(** [n] samples of silence, and 32768 chunks of 65536 samples: a little
    over twelve hours of mono audio at 48 kHz. *)
Definition silence (n : Z) : list Wav.float := repeat (Wav.Finite 0) (Z.to_nat n).

Definition halfDay : list (list Wav.float) := repeat (silence 65536) (Z.to_nat 32768).

Definition fourSamples : list (list Wav.float) :=
  [ [Wav.Finite 1; Wav.Finite (-1)]; [Wav.Finite (1 # 2); Wav.NaN] ].

End Samples.

From Stdlib Require Import Lqa Permutation.

(* ================================================================== *)
(** ** Reading a WAV buffer back *)
(* ================================================================== *)

Module WavRead.
Import Wav.
Local Open Scope list_scope.

(** [getUint16(offset, true)] and [getInt16(offset, true)] of a
    [DataView]. *)
Definition getUint16 (view : bytes) (offset : Z) : Z :=
  fromLittleEndian (firstn 2 (skipn (Z.to_nat offset) view)).

Definition getInt16 (view : bytes) (offset : Z) : Z :=
  let u := getUint16 view offset in
  if u <? 32768 then u else u - 65536.

(** The four bytes of a chunk tag. *)
Definition tag (view : bytes) (offset : Z) : list Z :=
  firstn 4 (skipn (Z.to_nat offset) view).

End WavRead.

(* ================================================================== *)
(** ** The criteria cards of the two dashboards *)
(* ================================================================== *)

(** The part of [Home] (src/app/page.tsx) that renders the criteria. *)
Module HomeDashboard.
Import Js.

(** [analysisCriteriaGroups]: group key, label, and the key and label of each
    criterion. *)
Definition analysisCriteriaGroups : list (string * string * list (string * string)) :=
  [ ("delivery", "Delivery",
     [ ("fluency", "Fluency"); ("pacing", "Pacing"); ("clarity", "Clarity");
       ("confidence", "Confidence"); ("emotionalTone", "Emotional Tone") ]);
    ("language", "Language",
     [ ("grammar", "Grammar"); ("vocabulary", "Vocabulary");
       ("wordChoice", "Word Choice"); ("conciseness", "Conciseness");
       ("fillerWords", "Filler Words") ]);
    ("content", "Content",
     [ ("relevance", "Relevance"); ("organization", "Organization");
       ("accuracy", "Accuracy"); ("depth", "Depth");
       ("persuasiveness", "Persuasiveness") ]) ].

(** Truthiness of a JSON value. *)
Definition isTruthy (v : json) : bool :=
  match v with
  | JNull => false
  | JBool b => b
  | JNum q => negb (Qeq_bool q 0)
  | JStr s => truthy s
  | JArr _ | JObj _ => true
  end.

(** [o[k]] when it is truthy (the code returns [null] for the card
    otherwise). *)
Definition member (k : string) (o : json) : option json :=
  match prop k o with
  | Some v => if isTruthy v then Some v else None
  | None => None
  end.

(** The cards of one group: label and criterion, for the criteria that are
    there. *)
Definition criterionCards (analysisResult : json) (groupKey : string)
    (criteria : list (string * string)) : list (string * json) :=
  flat_map
    (fun criterionInfo =>
       match member groupKey analysisResult with
       | None => []
       | Some category =>
           match member (fst criterionInfo) category with
           | None => []
           | Some criterion => [(snd criterionInfo, criterion)]
           end
       end)
    criteria.

(** One card per group, each holding its criterion cards. *)
Definition groupCards (analysisResult : json) : list (string * list (string * json)) :=
  map (fun group =>
         match group with
         | (groupKey, label, criteria) =>
             (label, criterionCards analysisResult groupKey criteria)
         end)
      analysisCriteriaGroups.

(** The "Overall Assessment" card is there when [totalScore] is truthy. *)
Definition overallCard (analysisResult : json) : option json :=
  member "totalScore" analysisResult.

(** [CriterionDisplay]: the width of the bar, in percent. *)
Definition barWidth (criterion : json) : option Q :=
  match prop "score" criterion with
  | Some (JNum score) => Some (score * 10)%Q
  | _ => None
  end.

End HomeDashboard.

(** [AnalysisDashboard] and [generatePdfReport]: criteria grouped by
    category. *)
Module Grouping.
Import Js.

Inductive Category : Type := Delivery | Language | Content.

Definition categoryName (c : Category) : string :=
  match c with
  | Delivery => "Delivery"
  | Language => "Language"
  | Content => "Content"
  end.

(** One element of [evaluationCriteria].  The dashboard guards against a
    missing [category] and a missing [score], hence the options. *)
Record Criterion : Type :=
  { category : option Category;
    criteria : string;
    score : option Q;
    evaluation : string;
    comparison : option string;
    feedback : string }.

(** The accumulator of the [reduce]: an object whose keys are category
    names (never array indices), so its entries come in insertion order.
    [acc[category].push(criterion)], creating the array first when the key
    is new. *)
Fixpoint push {A} (key : string) (x : A) (acc : list (string * list A))
  : list (string * list A) :=
  match acc with
  | [] => [(key, [x])]
  | (k, items) :: rest =>
      if String.eqb key k then (k, (items ++ [x])%list) :: rest
      else (k, items) :: push key x rest
  end.

Definition groupBy {A} (key : A -> string) (l : list A) : list (string * list A) :=
  fold_left (fun acc x => push (key x) x acc) l [].

(** What holds of the accumulator once the elements [seen] have gone in:
    distinct keys, each with the elements of that key in order, and no
    element left out. *)
Definition grouped {A} (key : A -> string) (acc : list (string * list A))
    (seen : list A) : Prop :=
  NoDup (map fst acc)
  /\ (forall k items, In (k, items) acc ->
        items <> [] /\ items = filter (fun c => String.eqb (key c) k) seen)
  /\ (forall c, In c seen -> In (key c) (map fst acc)).

(** The key in [AnalysisDashboard]: [criterion?.category ?? "General"]. *)
Definition dashboardKey (c : Criterion) : string :=
  match category c with
  | Some cat => categoryName cat
  | None => "General"
  end.

(** The key in [generatePdfReport]: [criterion.category]. *)
Definition reportKey (c : Criterion) : string :=
  match category c with
  | Some cat => categoryName cat
  | None => "undefined"
  end.

Definition dashboardGroups (evaluationCriteria : list Criterion) :=
  groupBy dashboardKey evaluationCriteria.

Definition reportGroups (evaluationCriteria : list Criterion) :=
  groupBy reportKey evaluationCriteria.

(** [ScoreCircle]: the number shown, [Math.max(0, Math.min(score ?? 0, 10))],
    and its colour class.  (The length of the arc, which involves
    [Math.PI], is not modelled.) *)
Definition normalized (score : option Q) : Q :=
  let s := match score with Some s => s | None => 0%Q end in
  let m := if Qle_bool 10 s then 10%Q else s in
  if Qle_bool m 0 then 0%Q else m.

Definition lessThan (a b : Q) : bool := negb (Qle_bool b a).

Definition colorClass (score : option Q) : string :=
  if lessThan (normalized score) 5 then "text-red-500"
  else if lessThan (normalized score) 8 then "text-amber-500"
  else "text-green-500".

End Grouping.

(* ================================================================== *)
(** ** src/components/theme-toggle.tsx: [ThemeToggle] *)
(* ================================================================== *)

Module Theme.

(** The [theme] state, the [theme] entry of [localStorage] ([None] when the
    key is absent), whether the root element carries the class [dark], and
    whether the system prefers a dark colour scheme. *)
Record World : Type :=
  { theme : string;
    stored : option string;
    rootDark : bool;
    prefersDark : bool }.

Definition storedIs (value : string) (w : World) : bool :=
  match stored w with
  | Some s => String.eqb s value
  | None => false
  end.

Definition hasKey (w : World) : bool :=
  match stored w with Some _ => true | None => false end.

(** The mounting effect. *)
Definition mount (w : World) : World :=
  if storedIs "dark" w || (negb (hasKey w) && prefersDark w) then
    {| theme := "dark"; stored := stored w; rootDark := true;
       prefersDark := prefersDark w |}
  else
    {| theme := "light"; stored := stored w; rootDark := false;
       prefersDark := prefersDark w |}.

Definition toggleTheme (w : World) : World :=
  if String.eqb (theme w) "dark" then
    {| theme := "light"; stored := Some "light"; rootDark := false;
       prefersDark := prefersDark w |}
  else
    {| theme := "dark"; stored := Some "dark"; rootDark := true;
       prefersDark := prefersDark w |}.

(** A page load: the storage is what it was, the state starts as ['dark'],
    the root class and the system preference are whatever they are, and the
    effect runs. *)
Definition reload (w : World) (root prefers : bool) : World :=
  mount {| theme := "dark"; stored := stored w; rootDark := root;
           prefersDark := prefers |}.

(** State, storage and root class say the same. *)
Definition settled (w : World) : Prop :=
  (theme w = "dark" \/ theme w = "light")
  /\ stored w = Some (theme w)
  /\ rootDark w = String.eqb (theme w) "dark".

End Theme.

(* ================================================================== *)
(** ** src/lib/pdf.ts: [generatePdfReport] *)
(* ================================================================== *)

Module Pdf.
Import Js.
Local Open Scope Q_scope.

Record Metadata : Type :=
  { wordCount : Q;
    fillerWordCount : Q;
    speechRateWPM : Q;
    averagePauseDurationMs : Q;
    pitchVariance : Q;
    audioDurationSeconds : option Q;
    paceScore : Q;
    clarityScore : Q;
    pausePercentage : Q }.

Record AnalyzeSpeechOutput : Type :=
  { metadata : Metadata;
    highlightedTranscription : option (list Report.Segment);
    evaluationCriteria : list Grouping.Criterion;
    totalScore : Q;
    overallAssessment : string;
    suggestedSpeech : option string }.

(** The first argument of [doc.text]: a string or an array of lines. *)
Inductive Content : Type :=
| Str (s : string)
| Lines (l : list string).

(** The calls made on the jsPDF document. *)
Inductive Call : Type :=
| setFont (fontName fontStyle : string)
| setFontSize (size : Z)
| setDrawColor (ch1 : Z)
| text (content : Content) (x y : Q) (align : option string)
| line (x1 y1 x2 y2 : Q)
| addPage
| save (filename : string).

(** The variable [y], the font the document is set to (which
    [splitTextToSize] measures with), and the calls made so far. *)
Record Doc : Type := mkDoc
  { y : Q;
    fontName : string;
    fontStyle : string;
    fontSize : Z;
    calls : list Call }.

Definition margin : Q := 15.
Definition line_height : Q := 7.

(** [array.length] as a number. *)
Definition count {A} (l : list A) : Q := inject_Z (Z.of_nat (List.length l)).

Definition call (c : Call) (d : Doc) : Doc :=
  mkDoc (y d) (fontName d) (fontStyle d) (fontSize d) (calls d ++ [c])%list.

Definition doSetFont (name style : string) (d : Doc) : Doc :=
  mkDoc (y d) name style (fontSize d) (calls d ++ [setFont name style])%list.

Definition doSetFontSize (size : Z) (d : Doc) : Doc :=
  mkDoc (y d) (fontName d) (fontStyle d) size (calls d ++ [setFontSize size])%list.

(** [y += dy]. *)
Definition advance (dy : Q) (d : Doc) : Doc :=
  mkDoc (y d + dy) (fontName d) (fontStyle d) (fontSize d) (calls d).

Section Report.

(** What jsPDF and the number formatting of JavaScript contribute:
    [doc.splitTextToSize] under the current font, a number inside a template
    literal, [Number.prototype.toFixed], and the size of the page. *)
Variable splitTextToSize : string * string * Z -> string -> Q -> list string.
Variable str : Q -> string.
Variable toFixed : Q -> nat -> string.
Variables pageHeight pageWidth : Q.

Definition split (s : string) (maxlen : Q) (d : Doc) : list string :=
  splitTextToSize (fontName d, fontStyle d, fontSize d) s maxlen.

Definition checkY (increment : Q) (d : Doc) : Doc :=
  if negb (Qle_bool (y d + increment) (pageHeight - margin)) then
    mkDoc margin (fontName d) (fontStyle d) (fontSize d) (calls d ++ [addPage])%list
  else d.

(** A section heading with the rule under it. *)
Definition heading (title : string) (d : Doc) : Doc :=
  let d := doSetFont "helvetica" "bold" d in
  let d := doSetFontSize 16 d in
  let d := call (text (Str title) margin (y d) None) d in
  let d := advance line_height d in
  let d := call (line margin (y d) (pageWidth - margin) (y d)) d in
  advance line_height d.

(** From the title to the overall assessment. *)
Definition overall (data : AnalyzeSpeechOutput) (d : Doc) : Doc :=
  let d := doSetFont "helvetica" "bold" d in
  let d := doSetFontSize 22 d in
  let d := call (text (Str "Verbal Insights: Speech Analysis Report")
                   (pageWidth / 2) (y d) (Some "center")) d in
  let d := advance (line_height * 2) d in
  let d := doSetFontSize 16 d in
  let d := call (text (Str "Overall Assessment") margin (y d) None) d in
  let d := advance line_height d in
  let d := call (setDrawColor 200) d in
  let d := call (line margin (y d) (pageWidth - margin) (y d)) d in
  let d := advance line_height d in
  let d := doSetFont "helvetica" "normal" d in
  let d := doSetFontSize 12 d in
  let d := call (text (Str ("Total Score: " ++ str (totalScore data) ++ "/100"))
                   margin (y d) None) d in
  let d := advance line_height d in
  let assessmentLines := split (overallAssessment data) (pageWidth - margin * 2) d in
  let d := call (text (Lines assessmentLines) margin (y d) None) d in
  advance (count assessmentLines * line_height + line_height) d.

Definition transcription (data : AnalyzeSpeechOutput) (d : Doc) : Doc :=
  match Report.transcriptionSection (highlightedTranscription data) with
  | Some fullText =>
      let d := checkY (line_height * 3) d in
      let d := heading "Full Transcription" d in
      let d := doSetFont "helvetica" "normal" d in
      let d := doSetFontSize 10 d in
      let transcriptionLines := split fullText (pageWidth - margin * 2) d in
      let d := call (text (Lines transcriptionLines) margin (y d) None) d in
      advance (count transcriptionLines * line_height + line_height) d
  | None => d
  end.

Definition metrics (m : Metadata) : list string :=
  List.app
  [ "Word Count: " ++ str (wordCount m);
    "Filler Words: " ++ str (fillerWordCount m);
    "Speech Rate (WPM): " ++ str (speechRateWPM m);
    "Pitch Variance: " ++ toFixed (pitchVariance m) 2;
    "Average Pause (ms): " ++ str (averagePauseDurationMs m);
    "Pace Score: " ++ str (paceScore m) ++ "/100";
    "Clarity Score: " ++ str (clarityScore m) ++ "/100";
    "Pause Time: " ++ toFixed (pausePercentage m) 1 ++ "%" ]
  match audioDurationSeconds m with
  | Some seconds =>
      if Qeq_bool seconds 0 then []
      else ["Audio Duration (s): " ++ toFixed seconds 2]
  | None => []
  end.

Definition metricLine (d : Doc) (metric : string) : Doc :=
  let d := checkY 0 d in
  let d := call (text (Str metric) margin (y d) None) d in
  advance line_height d.

Definition keyMetrics (data : AnalyzeSpeechOutput) (d : Doc) : Doc :=
  let d := checkY (line_height * 2) d in
  let d := heading "Key Metrics" d in
  let d := doSetFont "helvetica" "normal" d in
  let d := doSetFontSize 12 d in
  let d := fold_left metricLine (metrics (metadata data)) d in
  advance line_height d.

(** [${item.score}]: a missing score prints as [undefined]. *)
Definition scoreText (score : option Q) : string :=
  match score with
  | Some s => str s
  | None => "undefined"
  end.

Definition itemBlock (d : Doc) (item : Grouping.Criterion) : Doc :=
  let d := checkY (line_height * 5) d in
  let d := doSetFont "helvetica" "bold" d in
  let d := doSetFontSize 12 d in
  let d := call (text (Str (Grouping.criteria item ++ " - Score: "
                            ++ scoreText (Grouping.score item) ++ "/10"))
                   (margin + 5) (y d) None) d in
  let d := advance line_height d in
  let d := doSetFont "helvetica" "normal" d in
  let d := doSetFontSize 11 d in
  let evalLines :=
    split ("Evaluation: " ++ Grouping.evaluation item) (pageWidth - margin * 2 - 5) d in
  let d := checkY (count evalLines * line_height) d in
  let d := call (text (Lines evalLines) (margin + 5) (y d) None) d in
  let d := advance (count evalLines * line_height) d in
  let feedbackLines :=
    split ("Feedback: " ++ Grouping.feedback item) (pageWidth - margin * 2 - 5) d in
  let d := checkY (count feedbackLines * line_height) d in
  let d := call (text (Lines feedbackLines) (margin + 5) (y d) None) d in
  advance (count feedbackLines * line_height + line_height / 2) d.

Definition categoryBlock (d : Doc) (entry : string * list Grouping.Criterion) : Doc :=
  let (category, items) := entry in
  let d := checkY (line_height * 2) d in
  let d := doSetFont "helvetica" "bold" d in
  let d := doSetFontSize 14 d in
  let d := call (text (Str category) margin (y d) None) d in
  let d := advance line_height d in
  fold_left itemBlock items d.

Definition detailedFeedback (data : AnalyzeSpeechOutput) (d : Doc) : Doc :=
  let groupedCriteria := Grouping.reportGroups (evaluationCriteria data) in
  let d := checkY (line_height * 2) d in
  let d := heading "Detailed Feedback" d in
  fold_left categoryBlock groupedCriteria d.

Definition suggestion (data : AnalyzeSpeechOutput) (d : Doc) : Doc :=
  match suggestedSpeech data with
  | Some suggested =>
      if truthy suggested then
        let d := checkY (line_height * 3) d in
        let d := heading "Suggested Delivery Example" d in
        let d := doSetFont "helvetica" "italic" d in
        let d := doSetFontSize 12 d in
        let suggestedLines := split suggested (pageWidth - margin * 2) d in
        let d := checkY (count suggestedLines * line_height) d in
        let d := call (text (Lines suggestedLines) margin (y d) None) d in
        advance (count suggestedLines * line_height) d
      else d
  | None => d
  end.

(** A new document: [y = 20], and the font jsPDF starts with. *)
Definition blank : Doc := mkDoc 20 "helvetica" "normal" 16%Z [].

Definition generatePdfReport (data : AnalyzeSpeechOutput) : list Call :=
  let d := overall data blank in
  let d := transcription data d in
  let d := keyMetrics data d in
  let d := detailedFeedback data d in
  let d := suggestion data d in
  calls (call (save "verbal-insights-report.pdf") d).

(** Where a call draws: between the top margin and [pageHeight - margin]. *)
Definition between (v : Q) : bool :=
  Qle_bool margin v && Qle_bool v (pageHeight - margin).

Definition inside (c : Call) : bool :=
  match c with
  | text _ _ v _ => between v
  | line _ v1 _ v2 => between v1 && between v2
  | _ => true
  end.

(** The state of a document all of whose drawing calls so far are
    [inside], with [y] not above the top margin, and with [k] more units
    available before [pageHeight - margin]. *)
Definition room (k : Q) (d : Doc) : Prop :=
  margin <= y d /\ y d + k <= pageHeight - margin
  /\ forallb inside (calls d) = true.

(** The same without a promise about the room left. *)
Definition placed (d : Doc) : Prop :=
  margin <= y d /\ forallb inside (calls d) = true.

End Report.

End Pdf.

(* ================================================================== *)
(** ** More sample values *)
(* ================================================================== *)

Module Examples.

(** Chunks of unequal length: a short last chunk, and a long one. *)
Definition shortTail : list (list Wav.float) :=
  [ [Wav.Finite 1; Wav.Finite (-1)]; [Wav.Finite (1 # 2)] ].

Definition longTail : list (list Wav.float) :=
  [ [Wav.Finite 1]; [Wav.Finite (1 # 2); Wav.NaN] ].

(** Samples beyond full scale. *)
Definition loud : list (list Wav.float) :=
  [ [Wav.Finite 3; Wav.Finite (-1 # 4)]; [Wav.NegInfinity; Wav.Finite (-7)] ].

(** Criteria as the model lists them, one of them without a category. *)
Definition fluency : Grouping.Criterion :=
  {| Grouping.category := Some Grouping.Delivery; Grouping.criteria := "Fluency";
     Grouping.score := Some 8%Q; Grouping.evaluation := "Flows well.";
     Grouping.comparison := None; Grouping.feedback := "Keep the flow." |}.

Definition grammar : Grouping.Criterion :=
  {| Grouping.category := Some Grouping.Language; Grouping.criteria := "Grammar";
     Grouping.score := Some (13 # 2)%Q; Grouping.evaluation := "A few slips.";
     Grouping.comparison := None; Grouping.feedback := "Mind the tenses." |}.

Definition pacing : Grouping.Criterion :=
  {| Grouping.category := Some Grouping.Delivery; Grouping.criteria := "Pacing";
     Grouping.score := Some 4%Q; Grouping.evaluation := "Rushed.";
     Grouping.comparison := None; Grouping.feedback := "Pause between points." |}.

Definition untagged : Grouping.Criterion :=
  {| Grouping.category := None; Grouping.criteria := "Depth";
     Grouping.score := None; Grouping.evaluation := "Thin.";
     Grouping.comparison := None; Grouping.feedback := "Add an example." |}.

Definition criteria : list Grouping.Criterion := [fluency; grammar; pacing; untagged].

(** An analysis to print, and stand-ins for jsPDF's line breaking and for
    the printing of numbers. *)
Definition analysis : Pdf.AnalyzeSpeechOutput :=
  {| Pdf.metadata :=
       {| Pdf.wordCount := 120; Pdf.fillerWordCount := 4; Pdf.speechRateWPM := 140;
          Pdf.averagePauseDurationMs := 300; Pdf.pitchVariance := 12 # 5;
          Pdf.audioDurationSeconds := Some (103 # 2); Pdf.paceScore := 70;
          Pdf.clarityScore := 80; Pdf.pausePercentage := 10 |};
     Pdf.highlightedTranscription :=
       Some [ {| Report.text := "Good morning"; Report.type := Report.default |};
              {| Report.text := "um"; Report.type := Report.filler |} ];
     Pdf.evaluationCriteria := criteria;
     Pdf.totalScore := 72;
     Pdf.overallAssessment := "A clear talk with a hurried ending.";
     Pdf.suggestedSpeech := Some "Good morning, and thank you for coming." |}.

Definition oneLine (font : string * string * Z) (s : string) (maxlen : Q) : list string :=
  [s].

Definition digits (q : Q) : string := "0".

Definition fixed (q : Q) (places : nat) : string := "0.0".

End Examples.

(* ================================================================== *)
(** * Properties *)
(* ================================================================== *)

(** ** Schemas: what a validated criterion looks like *)

Section SchemaFacts.
Import Js Zod.

Lemma within_bounds (a b q : Q) :
  within (Some a) (Some b) q = true <-> (a <= q <= b)%Q.
Proof.
  unfold within. rewrite andb_true_iff, !Qle_bool_iff. tauto.
Qed.

Lemma accepts_object_inv (shape : list (string * schema)) (o : option json) :
  accepts (ZObject shape) o = true -> exists fields, o = Some (JObj fields).
Proof.
  destruct o as [[]|]; simpl; try discriminate. intros _. eauto.
Qed.

Lemma accepts_object_key (shape : list (string * schema)) fields k ks :
  accepts (ZObject shape) (Some (JObj fields)) = true ->
  In (k, ks) shape ->
  accepts ks (get k fields) = true.
Proof.
  simpl. induction shape as [|[k' ks'] rest IH]; intros Hacc Hin.
  - destruct Hin.
  - apply andb_true_iff in Hacc. destruct Hacc as [Hhere Hrest].
    destruct Hin as [Heq | Hin].
    + inversion Heq; subst. exact Hhere.
    + apply IH; assumption.
Qed.

Lemma accepts_string_inv (o : option json) :
  accepts ZString o = true -> exists s, o = Some (JStr s).
Proof.
  destruct o as [[]|]; simpl; try discriminate. eauto.
Qed.

Lemma accepts_number_inv lo hi (o : option json) :
  accepts (ZNumber lo hi) o = true ->
  exists q, o = Some (JNum q) /\ within lo hi q = true.
Proof.
  destruct o as [[]|]; simpl; try discriminate. eauto.
Qed.

Lemma accepts_array_inv item (o : option json) :
  accepts (ZArray item) o = true ->
  exists items, o = Some (JArr items)
    /\ forall x, In x items -> accepts item (Some x) = true.
Proof.
  destruct o as [[]|]; simpl; try discriminate.
  intros H. eexists. split; [reflexivity|].
  apply forallb_forall. exact H.
Qed.

(** A value passes [EvaluationCriterionSchema] exactly when it is an object
    with a numeric [score] between 0 and 10 and two strings. *)
Lemma criterion_accepted_iff (c : json) :
  accepts Schemas.EvaluationCriterionSchema (Some c) = true <->
  exists q e f,
    prop "score" c = Some (JNum q) /\ (0 <= q <= 10)%Q
    /\ prop "evaluation" c = Some (JStr e)
    /\ prop "feedback" c = Some (JStr f).
Proof.
  split.
  - intros H.
    destruct (accepts_object_inv _ _ H) as [fields Hc]. inversion Hc; subst c.
    pose proof (accepts_object_key _ _ "score" _ H (or_introl eq_refl)) as Hs.
    pose proof (accepts_object_key _ _ "evaluation" _ H
                  (or_intror (or_introl eq_refl))) as He.
    pose proof (accepts_object_key _ _ "feedback" _ H
                  (or_intror (or_intror (or_introl eq_refl)))) as Hf.
    apply accepts_number_inv in Hs. destruct Hs as (q & Hq & Hw).
    apply accepts_string_inv in He. destruct He as (e & He).
    apply accepts_string_inv in Hf. destruct Hf as (f & Hf).
    exists q, e, f. simpl. repeat split; try assumption;
      apply within_bounds in Hw; apply Hw.
  - intros (q & e & f & Hq & Hb & He & Hf).
    destruct c; simpl in Hq; try discriminate.
    simpl in He, Hf. simpl. rewrite Hq, He, Hf. simpl.
    rewrite !andb_true_r. apply within_bounds. exact Hb.
Qed.

Lemma criterion_score_bounds (o : option json) :
  accepts Schemas.EvaluationCriterionSchema o = true ->
  exists c q, o = Some c /\ prop "score" c = Some (JNum q) /\ (0 <= q <= 10)%Q.
Proof.
  intros H. destruct (accepts_object_inv _ _ H) as [fields ->].
  apply criterion_accepted_iff in H. destruct H as (q & _ & _ & Hq & Hb & _).
  eauto.
Qed.

End SchemaFacts.

Section OutputSchema.
Import Js Zod Schemas.

Lemma group_member (fields : list (string * json)) (groupKey k : string)
    (shape : list (string * schema)) :
  accepts (ZObject shape) (get groupKey fields) = true ->
  In (k, EvaluationCriterionSchema) shape ->
  exists c q,
    at_path [groupKey; k] (JObj fields) = Some c
    /\ prop "score" c = Some (JNum q) /\ (0 <= q <= 10)%Q.
Proof.
  intros Hgroup Hin.
  destruct (accepts_object_inv _ _ Hgroup) as [members Hget].
  rewrite Hget in Hgroup.
  pose proof (accepts_object_key _ _ _ _ Hgroup Hin) as Hk.
  apply criterion_score_bounds in Hk. destruct Hk as (c & q & Hc & Hq & Hb).
  exists c, q. simpl. rewrite Hget. simpl. rewrite Hc. auto.
Qed.

Ltac in_shape := simpl; repeat (first [left; reflexivity | right]).

Lemma output_criteria_bounds (out : json) :
  accepts AnalyzeSpeechOutputSchema (Some out) = true ->
  forall p, In p criterionPaths ->
  exists c q,
    at_path p out = Some c /\ prop "score" c = Some (JNum q) /\ (0 <= q <= 10)%Q.
Proof.
  intros H p Hp.
  unfold AnalyzeSpeechOutputSchema, MetadataSchema, extend in H. simpl app in H.
  destruct (accepts_object_inv _ _ H) as [fields Hout]. inversion Hout; subst out.
  assert (Ht : accepts EvaluationCriterionSchema (get "totalScore" fields) = true)
    by (eapply accepts_object_key; [exact H | in_shape]).
  assert (Hd : accepts DeliveryCriteriaSchema (get "delivery" fields) = true)
    by (eapply accepts_object_key; [exact H | in_shape]).
  assert (Hl : accepts LanguageCriteriaSchema (get "language" fields) = true)
    by (eapply accepts_object_key; [exact H | in_shape]).
  assert (Hc : accepts ContentCriteriaSchema (get "content" fields) = true)
    by (eapply accepts_object_key; [exact H | in_shape]).
  simpl in Hp.
  destruct Hp as [<- | Hp].
  { apply criterion_score_bounds in Ht. destruct Ht as (c & q & Hget & Hq & Hb).
    exists c, q. simpl. rewrite Hget. auto. }
  repeat (destruct Hp as [<- | Hp];
          [ first [ eapply group_member; [exact Hd | in_shape]
                  | eapply group_member; [exact Hl | in_shape]
                  | eapply group_member; [exact Hc | in_shape] ] | ]).
  destruct Hp.
Qed.

Lemma legacy_output_bounds (out : json) :
  accepts AnalyzeSpeech.AnalyzeSpeechOutputSchema (Some out) = true ->
  (exists items,
      prop "evaluationCriteria" out = Some (JArr items)
      /\ forall item, In item items ->
           exists q, prop "score" item = Some (JNum q) /\ (0 <= q <= 10)%Q)
  /\ exists t, prop "totalScore" out = Some (JNum t) /\ (0 <= t <= 100)%Q.
Proof.
  intros H.
  unfold AnalyzeSpeech.AnalyzeSpeechOutputSchema in H.
  destruct (accepts_object_inv _ _ H) as [fields Hout]. inversion Hout; subst out.
  assert (Hitems : accepts (ZArray AnalyzeSpeech.CriterionItemSchema)
                     (get "evaluationCriteria" fields) = true)
    by (eapply accepts_object_key; [exact H | in_shape]).
  assert (Htotal : accepts (max 100 (min 0 number)) (get "totalScore" fields) = true)
    by (eapply accepts_object_key; [exact H | in_shape]).
  split.
  - apply accepts_array_inv in Hitems. destruct Hitems as (items & Hget & Hall).
    exists items. split; [exact Hget|].
    intros item Hin. specialize (Hall item Hin).
    destruct (accepts_object_inv _ _ Hall) as [members Hitem].
    inversion Hitem; subst item.
    assert (Hs : accepts (max 10 (min 0 number)) (get "score" members) = true)
      by (eapply accepts_object_key; [exact Hall | in_shape]).
    apply accepts_number_inv in Hs. destruct Hs as (q & Hq & Hw).
    exists q. split; [exact Hq | apply within_bounds; exact Hw].
  - apply accepts_number_inv in Htotal. destruct Htotal as (t & Ht & Hw).
    exists t. split; [exact Ht | apply within_bounds; exact Hw].
Qed.

End OutputSchema.

(** ** C8: the score of an evaluation criterion *)

(** C8, as stated, fails: the schema asks for a number between 0 and 10, not
    for an integer.  A criterion scored 7.5 passes
    [EvaluationCriterionSchema] although 7.5 is not an integer. *)
Lemma half_point_score_is_accepted :
  Zod.accepts Schemas.EvaluationCriterionSchema (Some Samples.halfPoint) = true
  /\ Js.prop "score" Samples.halfPoint = Some (Js.JNum (15 # 2))
  /\ Js.isInteger (15 # 2) = false.
Proof.
  repeat split; reflexivity.
Qed.

(** C8 (amended): a value passes [EvaluationCriterionSchema] exactly when
    its [score] is a number with [0 <= score <= 10] (and its [evaluation] and
    [feedback] are strings), so any score outside that range fails
    validation; in an output that passes the output schema of [schemas.ts]
    the holistic total and each of the fifteen named criteria carry such a
    score; in an output that passes the schema of [analyze-speech.ts] every
    listed criterion has a score in that range and [totalScore] is a number
    between 0 and 100. *)
Theorem criterion_score_is_a_number_from_0_to_10 :
  (forall c : Js.json,
      Zod.accepts Schemas.EvaluationCriterionSchema (Some c) = true <->
      exists q e f,
        Js.prop "score" c = Some (Js.JNum q) /\ (0 <= q <= 10)%Q
        /\ Js.prop "evaluation" c = Some (Js.JStr e)
        /\ Js.prop "feedback" c = Some (Js.JStr f))
  /\ (forall out : Js.json,
        Zod.accepts Schemas.AnalyzeSpeechOutputSchema (Some out) = true ->
        forall p, In p Schemas.criterionPaths ->
        exists c q,
          Schemas.at_path p out = Some c
          /\ Js.prop "score" c = Some (Js.JNum q) /\ (0 <= q <= 10)%Q)
  /\ (forall out : Js.json,
        Zod.accepts AnalyzeSpeech.AnalyzeSpeechOutputSchema (Some out) = true ->
        (exists items,
            Js.prop "evaluationCriteria" out = Some (Js.JArr items)
            /\ forall item, In item items ->
                 exists q, Js.prop "score" item = Some (Js.JNum q)
                           /\ (0 <= q <= 10)%Q)
        /\ exists t, Js.prop "totalScore" out = Some (Js.JNum t)
                     /\ (0 <= t <= 100)%Q).
Proof.
  split; [exact criterion_accepted_iff|].
  split; [exact output_criteria_bounds | exact legacy_output_bounds].
Qed.

Lemma criterion_score_is_a_number_from_0_to_10_witness :
  (exists q e f,
      Js.prop "score" Samples.halfPoint = Some (Js.JNum q) /\ (0 <= q <= 10)%Q
      /\ Js.prop "evaluation" Samples.halfPoint = Some (Js.JStr e)
      /\ Js.prop "feedback" Samples.halfPoint = Some (Js.JStr f))
  /\ (exists c q,
        Schemas.at_path ["content"; "depth"] Samples.output = Some c
        /\ Js.prop "score" c = Some (Js.JNum q) /\ (0 <= q <= 10)%Q)
  /\ (exists t, Js.prop "totalScore" Samples.legacyOutput = Some (Js.JNum t)
                /\ (0 <= t <= 100)%Q).
Proof.
  destruct criterion_score_is_a_number_from_0_to_10 as (Hc & Hnew & Hold).
  split; [| split].
  - apply (proj1 (Hc Samples.halfPoint)). reflexivity.
  - apply (Hnew Samples.output eq_refl).
    simpl. do 14 right. left. reflexivity.
  - apply (Hold Samples.legacyOutput eq_refl).
Defined.

(** ** C9: the transcription text of the dashboard and of the report *)

Section ReportText.
Import Js Report.

Lemma append_assoc (a b c : string) : (a ++ b) ++ c = a ++ b ++ c.
Proof.
  induction a as [|ch a IH]; simpl; [reflexivity | now rewrite IH].
Qed.

Lemma append_empty_r (a : string) : a ++ "" = a.
Proof.
  induction a as [|ch a IH]; simpl; [reflexivity | now rewrite IH].
Qed.

Lemma length_append (a b : string) :
  String.length (a ++ b) = (String.length a + String.length b)%nat.
Proof.
  induction a as [|ch a IH]; simpl; [reflexivity | now rewrite IH].
Qed.

(** Past the first element, [join] puts the separator and the element. *)
Lemma join_from_later (k : nat) (sep : string) (xs : list string) (R : string) :
  join_from (S k) sep xs R = R ++ fold_right (fun x acc => sep ++ x ++ acc) "" xs.
Proof.
  revert k R. induction xs as [|x xs IH]; intros k R; simpl.
  - now rewrite append_empty_r.
  - rewrite IH. now rewrite !append_assoc.
Qed.

Lemma join_cons (sep x : string) (xs : list string) :
  join sep (x :: xs) = x ++ fold_right (fun y acc => sep ++ y ++ acc) "" xs.
Proof.
  unfold join. simpl. apply join_from_later.
Qed.

(** The loop of [join] computes the library's [String.concat]. *)
Lemma join_is_concat (sep : string) (xs : list string) :
  join sep xs = String.concat sep xs.
Proof.
  destruct xs as [|x xs]; [reflexivity|].
  rewrite join_cons. revert x.
  induction xs as [|y ys IH]; intros x.
  - simpl. apply append_empty_r.
  - change (String.concat sep (x :: y :: ys))
      with (x ++ sep ++ String.concat sep (y :: ys)).
    cbn [fold_right]. now rewrite <- (IH y).
Qed.

Lemma textContent_cons (s : Segment) (rest : list Segment) :
  textContent (TranscriptionDisplay (s :: rest))
  = text s ++ " " ++ textContent (TranscriptionDisplay rest).
Proof. reflexivity. Qed.

Lemma space_moves_to_the_end (rest : list Segment) :
  " " ++ textContent (TranscriptionDisplay rest)
  = fold_right (fun y acc => " " ++ y ++ acc) "" (map text rest) ++ " ".
Proof.
  induction rest as [|r rs IH].
  - reflexivity.
  - rewrite textContent_cons. cbn [map fold_right].
    rewrite !append_assoc. rewrite <- IH. reflexivity.
Qed.

Lemma displayed_is_joined_plus_space (s : Segment) (rest : list Segment) :
  textContent (TranscriptionDisplay (s :: rest)) = fullText (s :: rest) ++ " ".
Proof.
  rewrite textContent_cons. unfold fullText. cbn [map].
  rewrite join_cons, append_assoc. now rewrite space_moves_to_the_end.
Qed.

Lemma length_separated (xs : list Segment) :
  String.length (fold_right (fun y acc => " " ++ y ++ acc) "" (map text xs))
  = (String.length (concatenation xs) + List.length xs)%nat.
Proof.
  induction xs as [|x xs IH]; [reflexivity|].
  change (concatenation (x :: xs)) with (text x ++ concatenation xs).
  cbn [map fold_right List.length].
  rewrite !length_append, IH. simpl. lia.
Qed.

Lemma length_fullText (s : Segment) (rest : list Segment) :
  String.length (fullText (s :: rest))
  = (String.length (concatenation (s :: rest)) + List.length rest)%nat.
Proof.
  change (concatenation (s :: rest)) with (text s ++ concatenation rest).
  unfold fullText. cbn [map]. rewrite join_cons.
  rewrite !length_append, length_separated. lia.
Qed.

End ReportText.

(** C9, as stated, fails: with the two segments "Hello" and "world" the
    report prints "Hello world" and the dashboard shows "Hello world ",
    neither of which is the concatenation "Helloworld". *)
Lemma two_segments_are_not_just_concatenated :
  let segments :=
    [ {| Report.text := "Hello"; Report.type := Report.default |};
      {| Report.text := "world"; Report.type := Report.filler |} ] in
  Report.transcriptionSection (Some segments) = Some "Hello world"
  /\ Report.transcriptionCard (Some segments) = Some "Hello world "
  /\ Report.concatenation segments = "Helloworld"
  /\ Report.transcriptionSection (Some segments)
     <> Some (Report.concatenation segments)
  /\ Report.transcriptionCard (Some segments)
     <> Some (Report.concatenation segments).
Proof.
  cbv zeta. do 3 (split; [reflexivity|]).
  split; intro H; vm_compute in H; discriminate H.
Qed.

(** C9 (amended): for a non-empty sequence of highlighted segments, the
    report prints the segment texts in order with one space between
    consecutive texts, the dashboard shows every segment text followed by one
    space (the report's text plus a final space), and the report's text is
    the plain concatenation of the segment texts exactly when there is a
    single segment. *)
Theorem transcription_text_is_space_separated (segments : list Report.Segment) :
  segments <> [] ->
  Report.transcriptionSection (Some segments)
  = Some (String.concat " " (map Report.text segments))
  /\ Report.transcriptionCard (Some segments)
     = Some (String.concat " " (map Report.text segments) ++ " ")
  /\ String.length (Report.fullText segments)
     = (String.length (Report.concatenation segments) + (List.length segments - 1))%nat
  /\ (Report.fullText segments = Report.concatenation segments
      <-> List.length segments = 1%nat).
Proof.
  intros Hne. destruct segments as [|s rest]; [contradiction|].
  assert (Hfull : Report.fullText (s :: rest)
                  = String.concat " " (map Report.text (s :: rest)))
    by apply join_is_concat.
  split; [| split; [| split]].
  - cbn [Report.transcriptionSection]. now rewrite Hfull.
  - cbn [Report.transcriptionCard].
    now rewrite displayed_is_joined_plus_space, Hfull.
  - rewrite length_fullText. cbn [List.length]. lia.
  - split.
    + intros Heq. apply (f_equal String.length) in Heq.
      rewrite length_fullText in Heq. cbn [List.length]. lia.
    + intros Hone. destruct rest as [|r rs]; [|discriminate Hone].
      unfold Report.fullText. cbn. now rewrite append_empty_r.
Qed.

Lemma transcription_text_is_space_separated_witness :
  Report.transcriptionCard
    (Some [ {| Report.text := "so"; Report.type := Report.default |};
            {| Report.text := "um"; Report.type := Report.filler |};
            {| Report.text := "yes"; Report.type := Report.default |} ])
  = Some "so um yes ".
Proof.
  refine (proj1 (proj2 (transcription_text_is_space_separated _ _))).
  discriminate.
Defined.

(** ** C10: the layout [encodeWAV] writes *)

Section WavLayout.
Import Wav.
Local Open Scope list_scope.

Lemma length_littleEndian (n : nat) (v : Z) : List.length (littleEndian n v) = n.
Proof.
  revert v. induction n as [|n IH]; intros v; simpl; [reflexivity | now rewrite IH].
Qed.

Lemma fromLittleEndian_littleEndian (n : nat) (v : Z) :
  fromLittleEndian (littleEndian n v) = v mod 256 ^ Z.of_nat n.
Proof.
  revert v. induction n as [|n IH]; intros v.
  - simpl. now rewrite Z.mod_1_r.
  - cbn [littleEndian fromLittleEndian]. rewrite IH.
    rewrite Nat2Z.inj_succ, Z.pow_succ_r by lia.
    rewrite Z.rem_mul_r by lia. reflexivity.
Qed.

Lemma firstn_exact {A} (l1 l2 : list A) (n : nat) :
  List.length l1 = n -> firstn n (l1 ++ l2) = l1.
Proof.
  intros <-. rewrite firstn_app, Nat.sub_diag, firstn_all. simpl.
  apply app_nil_r.
Qed.

Lemma skipn_past {A} (l1 l2 : list A) (n m : nat) :
  List.length l1 = n -> skipn (n + m) (l1 ++ l2) = skipn m l2.
Proof.
  intros <-. rewrite skipn_app.
  rewrite skipn_all2 by lia. simpl. f_equal. lia.
Qed.

Lemma store_ok (view : bytes) (a : Z) (xs : list Z) :
  0 <= a -> a + Z.of_nat (List.length xs) <= byteLength view ->
  store view a xs
  = Ok (firstn (Z.to_nat a) view ++ xs
        ++ skipn (Z.to_nat a + List.length xs) view).
Proof.
  intros Ha Hfit. unfold store.
  destruct (Z.leb_spec 0 a); [|lia].
  destruct (Z.leb_spec (a + Z.of_nat (List.length xs)) (byteLength view)); [|lia].
  reflexivity.
Qed.

Lemma store_throws (view : bytes) (a : Z) (xs : list Z) :
  a < 0 \/ byteLength view < a + Z.of_nat (List.length xs) ->
  store view a xs = Throw RangeError.
Proof.
  intros H. unfold store.
  destruct (Z.leb_spec 0 a); simpl; [|reflexivity].
  destruct (Z.leb_spec (a + Z.of_nat (List.length xs)) (byteLength view));
    [lia | reflexivity].
Qed.

Lemma store_cases (view : bytes) (a : Z) (xs : list Z) :
  (0 <= a /\ a + Z.of_nat (List.length xs) <= byteLength view)
  \/ (a < 0 \/ byteLength view < a + Z.of_nat (List.length xs)).
Proof. lia. Qed.

Lemma byteLength_stored (view : bytes) (a : Z) (xs : list Z) :
  0 <= a -> a + Z.of_nat (List.length xs) <= byteLength view ->
  byteLength (firstn (Z.to_nat a) view ++ xs
              ++ skipn (Z.to_nat a + List.length xs) view)
  = byteLength view.
Proof.
  unfold byteLength. intros Ha Hfit.
  rewrite !length_app, length_firstn, length_skipn. lia.
Qed.

(** Two writes, the second right behind the first, are one write. *)
Lemma store_seq (view : bytes) (a : Z) (xs ys : list Z) (g : bytes -> result bytes) :
  0 <= a ->
  (forall v, byteLength v = byteLength view ->
             a + Z.of_nat (List.length xs) <= byteLength v ->
             g v = store v (a + Z.of_nat (List.length xs)) ys) ->
  bind (store view a xs) g = store view a (xs ++ ys).
Proof.
  intros Ha Hg.
  destruct (store_cases view a xs) as [[_ Hfit] | Hout].
  - rewrite (store_ok view a xs Ha Hfit). cbn [bind].
    rewrite Hg by (rewrite ?byteLength_stored; lia).
    destruct (store_cases view a (xs ++ ys)) as [[_ Hfit2] | Hout2].
    + rewrite length_app, Nat2Z.inj_add in Hfit2.
      rewrite (store_ok view a (xs ++ ys)) by (rewrite ?length_app; lia).
      rewrite store_ok by (rewrite ?byteLength_stored; lia).
      f_equal.
      replace (Z.to_nat (a + Z.of_nat (List.length xs)))
        with (Z.to_nat a + List.length xs)%nat by lia.
      assert (Hpre : List.length (firstn (Z.to_nat a) view ++ xs)
                     = (Z.to_nat a + List.length xs)%nat).
      { rewrite length_app, length_firstn. unfold byteLength in Hfit. lia. }
      rewrite (app_assoc (firstn (Z.to_nat a) view) xs).
      rewrite (firstn_exact _ _ _ Hpre), (skipn_past _ _ _ _ Hpre).
      rewrite skipn_skipn, length_app, <- !app_assoc.
      replace (List.length ys + (Z.to_nat a + List.length xs))%nat
        with (Z.to_nat a + (List.length xs + List.length ys))%nat by lia.
      reflexivity.
    + rewrite length_app, Nat2Z.inj_add in Hout2.
      rewrite (store_throws view a (xs ++ ys)) by (rewrite ?length_app; lia).
      apply store_throws. rewrite byteLength_stored by lia. lia.
  - rewrite (store_throws view a xs Hout). cbn [bind].
    symmetry. apply store_throws. rewrite length_app. lia.
Qed.

Lemma bind_assoc {A B C} (c : result A) (f : A -> result B) (g : B -> result C) :
  bind (bind c f) g = bind c (fun a => bind (f a) g).
Proof. destruct c; reflexivity. Qed.

Lemma bind_ok {A} (c : result A) : bind c (fun a => Ok a) = c.
Proof. destruct c; reflexivity. Qed.

(** The same, in the middle of a longer sequence of writes. *)
Lemma fuse {B} (view : bytes) (a : Z) (xs : list Z) (b : Z) (ys : list Z)
    (g : bytes -> result bytes) (k : bytes -> result B) :
  0 <= a ->
  b = a + Z.of_nat (List.length xs) ->
  (forall v, b <= byteLength v -> g v = store v b ys) ->
  bind (store view a xs) (fun v => bind (g v) k) = bind (store view a (xs ++ ys)) k.
Proof.
  intros Ha -> Hg. rewrite <- bind_assoc. f_equal.
  apply store_seq; [exact Ha|]. intros v _ Hv. apply Hg. exact Hv.
Qed.

Lemma store_nothing (view : bytes) (a : Z) :
  0 <= a <= byteLength view -> store view a [] = Ok view.
Proof.
  intros H. rewrite store_ok by (simpl; lia). simpl.
  rewrite Nat.add_0_r. now rewrite firstn_skipn.
Qed.

Lemma writeString_store (s : string) (view : bytes) (offset : Z) :
  0 <= offset <= byteLength view ->
  writeString view offset s = store view offset (codes s).
Proof.
  revert view offset. induction s as [|c rest IH]; intros view offset H.
  - simpl. symmetry. apply store_nothing. exact H.
  - cbn [writeString]. unfold setUint8.
    change (codes (String c rest))
      with (littleEndian 1 (Z.of_nat (nat_of_ascii c)) ++ codes rest).
    apply store_seq; [lia|].
    intros v _ Hv. cbn [littleEndian List.length] in *.
    apply IH. lia.
Qed.

Lemma writeChunk_store (chunk : list float) (view : bytes) (offset : Z) :
  0 <= offset <= byteLength view ->
  writeChunk view offset chunk
  = bind (store view offset (chunkBytes chunk))
         (fun v => Ok (v, offset + Z.of_nat (List.length (chunkBytes chunk)))).
Proof.
  revert view offset. induction chunk as [|x rest IH]; intros view offset H.
  - cbn [writeChunk chunkBytes flat_map List.length].
    rewrite store_nothing by exact H. cbn [bind]. now rewrite Z.add_0_r.
  - cbn [writeChunk]. unfold setInt16.
    change (chunkBytes (x :: rest))
      with (littleEndian 2 (toInteger (pcm x)) ++ chunkBytes rest).
    rewrite <- (fuse view offset (littleEndian 2 (toInteger (pcm x))) (offset + 2)
                  (chunkBytes rest) (fun v => store v (offset + 2) (chunkBytes rest)));
      [ | lia | reflexivity | reflexivity ].
    destruct (store_cases view offset (littleEndian 2 (toInteger (pcm x))))
      as [[_ Hfit] | Hout].
    + rewrite store_ok by lia. cbn [bind].
      rewrite IH by (rewrite byteLength_stored by lia;
                     rewrite length_littleEndian in Hfit; lia).
      rewrite length_app, length_littleEndian, Nat2Z.inj_add.
      replace (offset + 2 + Z.of_nat (List.length (chunkBytes rest)))
        with (offset + (Z.of_nat 2 + Z.of_nat (List.length (chunkBytes rest)))) by lia.
      reflexivity.
    + rewrite store_throws by exact Hout. reflexivity.
Qed.

Lemma writeChunks_store (input : list (list float)) (view : bytes) (offset : Z) :
  0 <= offset <= byteLength view ->
  writeChunks view offset input
  = bind (store view offset (dataBytes input))
         (fun v => Ok (v, offset + Z.of_nat (List.length (dataBytes input)))).
Proof.
  revert view offset. induction input as [|chunk rest IH]; intros view offset H.
  - cbn [writeChunks dataBytes flat_map List.length].
    rewrite store_nothing by exact H. cbn [bind]. now rewrite Z.add_0_r.
  - cbn [writeChunks]. rewrite writeChunk_store by exact H.
    change (dataBytes (chunk :: rest)) with (chunkBytes chunk ++ dataBytes rest).
    rewrite bind_assoc.
    rewrite <- (fuse view offset (chunkBytes chunk)
                  (offset + Z.of_nat (List.length (chunkBytes chunk)))
                  (dataBytes rest)
                  (fun v => store v (offset + Z.of_nat (List.length (chunkBytes chunk)))
                              (dataBytes rest)));
      [ | lia | reflexivity | reflexivity ].
    destruct (store_cases view offset (chunkBytes chunk)) as [[_ Hfit] | Hout].
    + rewrite store_ok by lia. cbn [bind fst snd].
      rewrite IH by (rewrite byteLength_stored by lia; lia).
      rewrite length_app, Nat2Z.inj_add, Z.add_assoc. reflexivity.
    + rewrite store_throws by exact Hout. reflexivity.
Qed.

Lemma floatTo16BitPCM_store (input : list (list float)) (view : bytes) (offset : Z) :
  0 <= offset <= byteLength view ->
  floatTo16BitPCM view offset input = store view offset (dataBytes input).
Proof.
  intros H. unfold floatTo16BitPCM. rewrite writeChunks_store by exact H.
  rewrite bind_assoc. cbn [bind fst]. apply bind_ok.
Qed.

End WavLayout.

Section WavSizes.
Import Wav.
Local Open Scope list_scope.

Lemma fuse_store {B} (view : bytes) (a : Z) (xs : list Z) (b : Z) (ys : list Z)
    (k : bytes -> result B) :
  0 <= a -> b = a + Z.of_nat (List.length xs) ->
  bind (store view a xs) (fun v => bind (store v b ys) k)
  = bind (store view a (xs ++ ys)) k.
Proof.
  intros Ha Hb. apply (fuse view a xs b ys (fun v => store v b ys) k Ha Hb).
  reflexivity.
Qed.

Lemma fuse_string {B} (view : bytes) (a : Z) (xs : list Z) (b : Z) (s : string)
    (k : bytes -> result B) :
  0 <= a -> b = a + Z.of_nat (List.length xs) ->
  bind (store view a xs) (fun v => bind (writeString v b s) k)
  = bind (store view a (xs ++ codes s)) k.
Proof.
  intros Ha Hb. apply (fuse view a xs b (codes s) (fun v => writeString v b s) k Ha Hb).
  intros v Hv. apply writeString_store. lia.
Qed.

Lemma fuse_pcm {B} (view : bytes) (a : Z) (xs : list Z) (b : Z)
    (input : list (list float)) (k : bytes -> result B) :
  0 <= a -> b = a + Z.of_nat (List.length xs) ->
  bind (store view a xs) (fun v => bind (floatTo16BitPCM v b input) k)
  = bind (store view a (xs ++ dataBytes input)) k.
Proof.
  intros Ha Hb.
  apply (fuse view a xs b (dataBytes input) (fun v => floatTo16BitPCM v b input) k Ha Hb).
  intros v Hv. apply floatTo16BitPCM_store. lia.
Qed.

(** [encodeWAV] is one write of the header followed by the samples into the
    zeroed buffer it allocated. *)
Lemma encodeWAV_layout (first : list float) (rest : list (list float)) (sampleRate : Z) :
  encodeWAV (first :: rest) sampleRate
  = bind (store
            (repeat 0 (Z.to_nat (44 + Z.of_nat (List.length (first :: rest)) * 2
                                      * Z.of_nat (List.length first))))
            0
            (headerBytes (totalSamples (first :: rest)) sampleRate
             ++ dataBytes (first :: rest)))
         (fun view => Ok {| content := view; type := "audio/wav" |}).
Proof.
  unfold encodeWAV. cbv zeta.
  set (buffer := repeat 0 _). set (total := totalSamples (first :: rest)).
  set (samples := first :: rest).
  rewrite writeString_store by (unfold byteLength; lia).
  unfold setUint32, setUint16.
  rewrite fuse_store by first [lia | reflexivity].
  rewrite fuse_string by first [lia | reflexivity].
  rewrite fuse_string by first [lia | reflexivity].
  do 5 rewrite fuse_store by first [lia | reflexivity].
  do 2 rewrite fuse_store by first [lia | reflexivity].
  rewrite fuse_string by first [lia | reflexivity].
  rewrite fuse_store by first [lia | reflexivity].
  rewrite fuse_pcm by first [lia | reflexivity].
  unfold headerBytes. rewrite <- !app_assoc. reflexivity.
Qed.

Lemma totalSamples_from (l : list (list float)) (acc : Z) :
  fold_left (fun acc val => acc + Z.of_nat (List.length val)) l acc
  = acc + Z.of_nat (List.length (List.concat l)).
Proof.
  revert acc. induction l as [|c l IH]; intros acc; simpl.
  - lia.
  - rewrite IH, length_app. lia.
Qed.

Lemma totalSamples_concat (samples : list (list float)) :
  totalSamples samples = Z.of_nat (List.length (List.concat samples)).
Proof. unfold totalSamples. now rewrite totalSamples_from. Qed.

Lemma length_chunkBytes (chunk : list float) :
  List.length (chunkBytes chunk) = (2 * List.length chunk)%nat.
Proof.
  induction chunk as [|x rest IH]; [reflexivity|].
  change (chunkBytes (x :: rest))
    with (littleEndian 2 (toInteger (pcm x)) ++ chunkBytes rest).
  rewrite length_app, length_littleEndian, IH. simpl. lia.
Qed.

Lemma length_dataBytes (samples : list (list float)) :
  Z.of_nat (List.length (dataBytes samples)) = 2 * totalSamples samples.
Proof.
  rewrite totalSamples_concat.
  induction samples as [|c rest IH]; [reflexivity|].
  change (dataBytes (c :: rest)) with (chunkBytes c ++ dataBytes rest).
  cbn [List.concat]. rewrite !length_app, length_chunkBytes. lia.
Qed.

Lemma uniform_count (L : nat) (l : list (list float)) :
  Forall (fun chunk => List.length chunk = L) l ->
  totalSamples l = Z.of_nat (List.length l) * Z.of_nat L.
Proof.
  rewrite totalSamples_concat.
  induction 1 as [|c l Hc _ IH]; [reflexivity|].
  cbn [List.concat List.length]. rewrite length_app, Hc. lia.
Qed.

Lemma store_whole (view bs : bytes) :
  List.length bs = List.length view -> store view 0 bs = Ok bs.
Proof.
  intros H. rewrite store_ok by (unfold byteLength; lia).
  cbn [Z.to_nat firstn Nat.add app]. rewrite skipn_all2 by lia.
  now rewrite app_nil_r.
Qed.

Lemma getUint32_field (pre post : list Z) (v offset : Z) :
  Z.of_nat (List.length pre) = offset ->
  getUint32 (pre ++ littleEndian 4 v ++ post) offset = v mod 2 ^ 32.
Proof.
  intros <-. unfold getUint32. rewrite Nat2Z.id.
  rewrite skipn_app, skipn_all, Nat.sub_diag. cbn [skipn app].
  rewrite firstn_exact by apply length_littleEndian.
  apply fromLittleEndian_littleEndian.
Qed.

Lemma length_headerBytes (t r : Z) : List.length (headerBytes t r) = 44%nat.
Proof. reflexivity. Qed.

(** For chunks of one length the buffer is filled exactly. *)
Lemma encodeWAV_uniform (first : list float) (rest : list (list float)) (sampleRate : Z) :
  uniform (first :: rest) ->
  exists blob,
    encodeWAV (first :: rest) sampleRate = Ok blob
    /\ content blob
       = headerBytes (totalSamples (first :: rest)) sampleRate
         ++ dataBytes (first :: rest)
    /\ type blob = "audio/wav"
    /\ size blob = 44 + 2 * totalSamples (first :: rest)
    /\ getUint32 (content blob) 4 = (36 + 2 * totalSamples (first :: rest)) mod 2 ^ 32
    /\ getUint32 (content blob) 40 = (2 * totalSamples (first :: rest)) mod 2 ^ 32.
Proof.
  intros Hu. unfold uniform in Hu.
  pose proof (uniform_count _ _ Hu) as Hcount.
  pose proof (length_dataBytes (first :: rest)) as Hdata.
  set (samples := first :: rest) in *. set (t := totalSamples samples) in *.
  assert (Hlen : List.length (headerBytes t sampleRate ++ dataBytes samples)
                 = Z.to_nat (44 + Z.of_nat (List.length samples) * 2
                                  * Z.of_nat (List.length first))).
  { rewrite length_app, length_headerBytes. lia. }
  exists {| content := headerBytes t sampleRate ++ dataBytes samples;
            type := "audio/wav" |}.
  split.
  { subst samples. rewrite encodeWAV_layout. fold t.
    rewrite store_whole by (rewrite repeat_length; exact Hlen).
    reflexivity. }
  cbn [content type]. split; [reflexivity|]. split; [reflexivity|].
  split.
  { unfold size, byteLength. cbn [content].
    rewrite length_app, length_headerBytes. lia. }
  split.
  - replace (36 + 2 * t) with (36 + t * 2) by lia.
    unfold headerBytes. rewrite <- !app_assoc.
    apply (getUint32_field (codes "RIFF")). reflexivity.
  - replace (2 * t) with (t * 2) by lia.
    unfold headerBytes.
    set (tail := littleEndian 4 (t * 2)).
    rewrite <- !app_assoc.
    repeat rewrite (app_assoc _ _ (tail ++ dataBytes samples)).
    subst tail. apply getUint32_field. reflexivity.
Qed.

Lemma encodeWAV_repeat (chunk : list float) (n : nat) (sampleRate : Z) :
  exists blob,
    encodeWAV (repeat chunk (S n)) sampleRate = Ok blob
    /\ getUint32 (content blob) 4
       = (36 + 2 * (Z.of_nat (S n) * Z.of_nat (List.length chunk))) mod 2 ^ 32
    /\ totalSamples (repeat chunk (S n)) = Z.of_nat (S n) * Z.of_nat (List.length chunk).
Proof.
  assert (Hall : Forall (fun c => List.length c = List.length chunk) (repeat chunk (S n))).
  { apply Forall_forall. intros c Hc. apply repeat_spec in Hc. now subst c. }
  pose proof (uniform_count _ _ Hall) as Hcount. rewrite repeat_length in Hcount.
  change (repeat chunk (S n)) with (chunk :: repeat chunk n) in *.
  destruct (encodeWAV_uniform chunk (repeat chunk n) sampleRate Hall)
    as (blob & Hok & _ & _ & _ & Hriff & _).
  exists blob. rewrite Hcount in Hriff. auto.
Qed.

End WavSizes.

(** C10, as stated, fails for long recordings: the two size fields are
    32-bit.  For 32768 chunks of 65536 samples [encodeWAV] returns a blob
    whose RIFF size field holds 36, while 36 + 2 * total is 4294967332. *)
Lemma half_day_recording_wraps_the_size_field :
  exists blob,
    Wav.encodeWAV Samples.halfDay 48000 = Wav.Ok blob
    /\ Wav.uniform Samples.halfDay
    /\ Wav.totalSamples Samples.halfDay = 2147483648
    /\ Wav.getUint32 (Wav.content blob) 4 = 36
    /\ 36 + 2 * Wav.totalSamples Samples.halfDay = 4294967332.
Proof.
  unfold Samples.halfDay.
  assert (E : Z.to_nat 32768 = S (Z.to_nat 32767)) by lia.
  assert (Hn : Z.of_nat (S (Z.to_nat 32767)) = 32768) by lia.
  assert (Hl : Z.of_nat (List.length (Samples.silence 65536)) = 65536).
  { unfold Samples.silence. rewrite repeat_length. lia. }
  rewrite E.
  destruct (encodeWAV_repeat (Samples.silence 65536) (Z.to_nat 32767) 48000)
    as (blob & Hok & Hriff & Htotal).
  rewrite Hn, Hl in Hriff, Htotal.
  exists blob. split; [exact Hok|]. split.
  { change (repeat (Samples.silence 65536) (S (Z.to_nat 32767)))
      with (Samples.silence 65536 :: repeat (Samples.silence 65536) (Z.to_nat 32767)).
    unfold Wav.uniform. apply Forall_forall. intros c Hc.
    change (In c (repeat (Samples.silence 65536) (S (Z.to_nat 32767)))) in Hc.
    apply repeat_spec in Hc. now subst c. }
  split; [rewrite Htotal; reflexivity|].
  split; [rewrite Hriff; reflexivity|].
  rewrite Htotal. reflexivity.
Qed.

(** C10 (amended): for every non-empty list of chunks of equal length,
    [encodeWAV] returns an [audio/wav] blob of 44 + 2 * total bytes whose
    RIFF size field holds 36 + 2 * total and whose data size field holds
    2 * total, both modulo 2^32, hence exactly those values whenever
    36 + 2 * total is below 2^32; for the empty list it throws a
    [TypeError] on reading the first chunk. *)
Theorem encodeWAV_sizes_are_consistent :
  (forall (samples : list (list Wav.float)) (sampleRate : Z),
      samples <> [] -> Wav.uniform samples ->
      exists blob,
        Wav.encodeWAV samples sampleRate = Wav.Ok blob
        /\ Wav.type blob = "audio/wav"
        /\ Wav.size blob = 44 + 2 * Wav.totalSamples samples
        /\ Wav.getUint32 (Wav.content blob) 4
           = (36 + 2 * Wav.totalSamples samples) mod 2 ^ 32
        /\ Wav.getUint32 (Wav.content blob) 40
           = (2 * Wav.totalSamples samples) mod 2 ^ 32
        /\ (36 + 2 * Wav.totalSamples samples < 2 ^ 32 ->
            Wav.getUint32 (Wav.content blob) 4 = 36 + 2 * Wav.totalSamples samples
            /\ Wav.getUint32 (Wav.content blob) 40 = 2 * Wav.totalSamples samples))
  /\ (forall sampleRate : Z, Wav.encodeWAV [] sampleRate = Wav.Throw Wav.TypeError).
Proof.
  split; [| reflexivity].
  intros samples sampleRate Hne Hu.
  destruct samples as [|first rest]; [contradiction|].
  destruct (encodeWAV_uniform first rest sampleRate Hu)
    as (blob & Hok & _ & Htype & Hsize & Hriff & Hdata).
  exists blob. repeat (split; [assumption|]).
  intros Hsmall.
  assert (0 <= Wav.totalSamples (first :: rest))
    by (rewrite totalSamples_concat; lia).
  rewrite Hriff, Hdata. split; apply Z.mod_small; lia.
Qed.

Lemma encodeWAV_sizes_are_consistent_witness :
  exists blob,
    Wav.encodeWAV Samples.fourSamples 44100 = Wav.Ok blob
    /\ Wav.size blob = 52
    /\ Wav.getUint32 (Wav.content blob) 4 = 44
    /\ Wav.getUint32 (Wav.content blob) 40 = 8.
Proof.
  destruct (proj1 encodeWAV_sizes_are_consistent Samples.fourSamples 44100)
    as (blob & Hok & _ & Hsize & _ & _ & Hsmall).
  - discriminate.
  - repeat constructor.
  - exists blob. destruct (Hsmall eq_refl) as [Hriff Hdata].
    split; [exact Hok|]. split; [exact Hsize|]. split; [exact Hriff | exact Hdata].
Defined.

(** ** C5: switching the acquisition tab *)

(** C5: whatever the state before, right after a tab switch the selected
    tab is the new one, the transcript is empty and no audio blob, file or
    URL is held, in [Home] ([resetStateForMode]) and in
    [SpeechAnalysisClient] (the [onValueChange] handler of the tabs). *)
Theorem tab_switch_clears_transcript_and_audio :
  (forall analyze (mode : Home.InputMode) (st : Home.State),
      let st' := fst (Home.step analyze st (Home.TabChanged mode)) in
      st' = Home.resetStateForMode mode st
      /\ Home.inputMode st' = mode
      /\ Home.transcript st' = ""
      /\ Home.audioBlob st' = None
      /\ Home.audioFile st' = None
      /\ Home.audioUrl st' = None)
  /\ (forall analyzeSpeech (v : Client.Tab) (st : Client.State),
        let st' := fst (Client.step analyzeSpeech st (Client.TabChanged v)) in
        st' = fst (Client.onValueChange v st)
        /\ Client.currentTab st' = v
        /\ Client.transcript st' = ""
        /\ Client.audioBlob st' = None
        /\ Client.audioURL st' = None).
Proof.
  split.
  - intros analyze mode st. destruct st. cbv zeta. simpl. repeat split.
  - intros analyzeSpeech v st. destruct st as [m q p t l r u b c ld res sup ft mr mic].
    cbv zeta. destruct r, mr; simpl; repeat split.
Qed.

(** ** C6: choosing a file *)

(** C6, as stated, fails in [SpeechAnalysisClient]: [handleFileChange] does
    not look at the MIME type, so a [text/plain] file chosen in the upload
    tab becomes the audio blob and no notice is raised. *)
Lemma client_takes_a_text_file_as_audio :
  let st := Client.set_currentTab Client.upload (Client.init true) in
  let r := Client.step (fun _ => Runtime.Rejected Samples.offline) st
             (Client.FileChosen (Some Samples.notes)) in
  Js.startsWith (Runtime.type Samples.notes) "audio/" = false
  /\ Client.audioBlob (fst r) = Some Samples.notes
  /\ Client.audioURL (fst r) = Some (Runtime.createObjectURL Samples.notes)
  /\ Runtime.notices (snd r) = [].
Proof.
  cbv zeta. repeat split; reflexivity.
Qed.

(** C6 (amended): in [Home], a chosen file becomes the audio file exactly
    when its MIME type starts with [audio/]; any other file raises the
    "Invalid File Type" notice and leaves the whole state as it was.  In
    [SpeechAnalysisClient] every chosen file becomes the audio blob and no
    notice is raised (the filter is the [accept] attribute of the input). *)
Theorem home_accepts_exactly_audio_files :
  (forall (file : Runtime.Blob) (st : Home.State),
      Js.startsWith (Runtime.type file) "audio/" = true ->
      let r := Home.handleFileSelect (Some file) st in
      Home.audioFile (fst r) = Some file
      /\ Home.audioUrl (fst r) = Some (Runtime.createObjectURL file)
      /\ snd r = [])
  /\ (forall (file : Runtime.Blob) (st : Home.State),
        Js.startsWith (Runtime.type file) "audio/" = false ->
        Home.handleFileSelect (Some file) st
        = (st, [Runtime.Notify Home.invalidFileToast]))
  /\ (forall (file : Runtime.Blob) (st : Client.State),
        let r := Client.handleFileChange (Some file) st in
        Client.audioBlob (fst r) = Some file
        /\ Client.audioURL (fst r) = Some (Runtime.createObjectURL file)
        /\ Runtime.notices (snd r) = []).
Proof.
  split; [| split].
  - intros file st Haudio. unfold Home.handleFileSelect. rewrite Haudio.
    destruct st. cbv zeta. simpl. repeat split.
  - intros file st Hother. unfold Home.handleFileSelect. now rewrite Hother.
  - intros file st. destruct st as [m q p t l r u b c ld res sup ft mr mic].
    cbv zeta. destruct r, mr; simpl; repeat split.
Qed.

Lemma home_accepts_exactly_audio_files_witness :
  Home.audioFile
    (fst (Home.handleFileSelect (Some Samples.song) (Home.init true)))
  = Some Samples.song
  /\ Home.handleFileSelect (Some Samples.notes) (Home.init true)
     = (Home.init true, [Runtime.Notify Home.invalidFileToast]).
Proof.
  destruct home_accepts_exactly_audio_files as (Haudio & Hother & _).
  split.
  - apply (Haudio Samples.song (Home.init true)). reflexivity.
  - apply (Hother Samples.notes (Home.init true)). reflexivity.
Defined.

(** ** C7: speech-recognition errors *)

(** C7, as stated, fails in [SpeechAnalysisClient]: its [onerror] treats
    every error alike, so [no-speech] raises a notice and ends listening. *)
Lemma client_reports_no_speech :
  let st := Client.set_isListening true (Client.init true) in
  let r := Client.step (fun _ => Runtime.Rejected Samples.offline) st
             (Client.RecognitionError "no-speech") in
  Client.isListening st = true
  /\ Client.isListening (fst r) = false
  /\ Runtime.notices (snd r) = [Client.recognitionErrorToast "no-speech"].
Proof.
  cbv zeta. repeat split; reflexivity.
Qed.

(** C7 (amended): in [Home], the errors [no-speech], [network] and
    [audio-capture] change nothing and raise no notice; any other error
    raises the "Speech Recognition Error" notice and ends the live session.
    In [SpeechAnalysisClient] every error, these three included, raises the
    notice and ends listening. *)
Theorem home_ignores_transient_recognition_errors :
  (forall (error : string) (st : Home.State),
      In error ["no-speech"; "network"; "audio-capture"] ->
      Home.onerror error st = (st, []))
  /\ (forall (error : string) (st : Home.State),
        ~ In error ["no-speech"; "network"; "audio-capture"] ->
        Home.onerror error st
        = (Home.set_isLiveRecording false st,
           [Runtime.Notify (Home.recognitionErrorToast error)])
        /\ Home.isLiveRecording (fst (Home.onerror error st)) = false)
  /\ (forall (error : string) (st : Client.State),
        Client.onerror error st
        = (Client.set_isListening false st,
           [Runtime.Notify (Client.recognitionErrorToast error)])
        /\ Client.isListening (fst (Client.onerror error st)) = false).
Proof.
  split; [| split].
  - intros error st Hin. simpl in Hin.
    destruct Hin as [<- | [<- | [<- | []]]]; reflexivity.
  - intros error st Hout. unfold Home.onerror, Home.recoverable.
    destruct (String.eqb_spec error "network") as [-> | _];
      [exfalso; apply Hout; simpl; tauto|].
    destruct (String.eqb_spec error "no-speech") as [-> | _];
      [exfalso; apply Hout; simpl; tauto|].
    destruct (String.eqb_spec error "audio-capture") as [-> | _];
      [exfalso; apply Hout; simpl; tauto|].
    simpl. destruct st. split; reflexivity.
  - intros error st. destruct st. split; reflexivity.
Qed.

Lemma home_ignores_transient_recognition_errors_witness :
  Home.onerror "network" (Home.set_isLiveRecording true (Home.init true))
  = (Home.set_isLiveRecording true (Home.init true), [])
  /\ Home.isLiveRecording
       (fst (Home.onerror "not-allowed" (Home.set_isLiveRecording true (Home.init true))))
     = false.
Proof.
  destruct home_ignores_transient_recognition_errors as (Hquiet & Hfatal & _).
  split.
  - apply Hquiet. simpl. tauto.
  - apply Hfatal. simpl. intros [H | [H | [H | []]]]; discriminate H.
Defined.

(** ** The submission handlers *)

Section HomeSubmission.
Import Js Runtime Analyze Home.

Variable analyze : AnalyzeInput -> outcome json.

Lemma submit_effects (st : State) (input : AnalyzeInput) :
  effects (submit analyze st input) = [Invoke input]
  \/ exists error,
       analyze input = Rejected error
       /\ effects (submit analyze st input)
          = [Invoke input; Notify (analysisFailedToast error)].
Proof.
  unfold submit. destruct (analyze input) as [result | error]; simpl; eauto.
Qed.

Lemma submit_invoked (st : State) (input input' : AnalyzeInput) :
  In (Invoke input') (effects (submit analyze st input)) -> input' = input.
Proof.
  intros Hin.
  destruct (submit_effects st input) as [E | (error & _ & E)];
    rewrite E in Hin; simpl in Hin; decompose [or] Hin;
    try discriminate; try contradiction; congruence.
Qed.

(** A request leaves [handleAnalyze] only through [submit], carrying either
    the transcript of the live tab or the data URI of the recorded or chosen
    audio. *)
Lemma home_invoked (st : State) (input : AnalyzeInput) :
  In (Invoke input) (effects (handleAnalyze analyze st)) ->
  handleAnalyze analyze st = submit analyze st input
  /\ (input = withTranscription (transcript st) (inputData st)
      \/ exists uri, input = withAudioDataUri uri (inputData st)).
Proof.
  unfold handleAnalyze, readThenSubmit, refused.
  repeat match goal with
         | |- context [if ?c then _ else _] => destruct c
         | |- context [match inputMode st with _ => _ end] => destruct (inputMode st)
         | |- context [match audioBlob st with _ => _ end] => destruct (audioBlob st)
         | |- context [match audioFile st with _ => _ end] => destruct (audioFile st)
         | |- context [match dataUrl ?b with _ => _ end] => destruct (dataUrl b)
         end;
    cbn [effects In]; intros Hin;
    try (decompose [or] Hin; try discriminate; contradiction);
    apply submit_invoked in Hin; subst input; eauto.
Qed.

Lemma home_missing_refused (st : State) (k : Missing) :
  lacks st k = true ->
  exists t, handleAnalyze analyze st = refused st t.
Proof.
  unfold lacks, handleAnalyze.
  destruct k, (analysisMode st), (inputMode st); cbn [AnalysisMode_eqb andb];
    try discriminate;
    repeat match goal with
           | |- context [falsy ?s] => destruct (falsy s)
           | |- context [match audioBlob st with _ => _ end] => destruct (audioBlob st)
           | |- context [match audioFile st with _ => _ end] => destruct (audioFile st)
           end;
    cbn [andb]; intros H; try discriminate H; eauto.
Qed.

Lemma home_notice_of_only (st : State) (k : Missing) :
  lacksOnly st k ->
  exists t,
    notices (effects (handleAnalyze analyze st)) = [t]
    /\ In t match k with
            | Question => [questionEmptyInterview; questionEmptyPractice]
            | PerfectAnswer => [perfectAnswerEmpty]
            | Transcript => [speechEmpty]
            | Audio => [noAudioRecorded; noFileSelected]
            end.
Proof.
  intros Honly.
  assert (Hq : lacks st Question = true -> Question = k) by apply Honly.
  assert (Hp : lacks st PerfectAnswer = true -> PerfectAnswer = k) by apply Honly.
  assert (Ht : lacks st Transcript = true -> Transcript = k) by apply Honly.
  assert (Ha : lacks st Audio = true -> Audio = k) by apply Honly.
  assert (Hk : lacks st k = true) by (now apply Honly).
  revert Hq Hp Ht Ha Hk. unfold lacks, handleAnalyze, refused.
  destruct (analysisMode st), (inputMode st); cbn [AnalysisMode_eqb andb];
    repeat match goal with
           | |- context [falsy ?s] => destruct (falsy s)
           | |- context [match audioBlob st with _ => _ end] => destruct (audioBlob st)
           | |- context [match audioFile st with _ => _ end] => destruct (audioFile st)
           end;
    cbn [andb]; intros Hq Hp Ht Ha Hk;
    try (specialize (Hq eq_refl)); try (specialize (Hp eq_refl));
    try (specialize (Ht eq_refl)); try (specialize (Ha eq_refl));
    subst; try discriminate;
    try (destruct k; discriminate);
    eexists; (split; [reflexivity | simpl; tauto]).
Qed.

End HomeSubmission.

Section ClientSubmission.
Import Js Runtime AnalyzeSpeech Client.

Variable analyzeSpeech : AnalyzeSpeechInput -> outcome json.

Lemma client_submit_effects (st : State) (sample : string) :
  effects (submit analyzeSpeech st sample) = [Invoke (input st sample)]
  \/ exists error,
       analyzeSpeech (input st sample) = Rejected error
       /\ effects (submit analyzeSpeech st sample)
          = [Invoke (input st sample); Notify analysisFailedToast].
Proof.
  unfold submit. destruct (analyzeSpeech (input st sample)) as [result | error];
    simpl; eauto.
Qed.

Lemma client_submit_invoked (st : State) (sample : string) (i : AnalyzeSpeechInput) :
  In (Invoke i) (effects (submit analyzeSpeech st sample)) -> i = input st sample.
Proof.
  intros Hin.
  destruct (client_submit_effects st sample) as [E | (error & _ & E)];
    rewrite E in Hin; simpl in Hin; decompose [or] Hin;
    try discriminate; try contradiction; congruence.
Qed.

Lemma checkContext_invoked (st : State) (sample : string) (i : AnalyzeSpeechInput) :
  In (Invoke i) (effects (checkContext analyzeSpeech st sample)) ->
  checkContext analyzeSpeech st sample = submit analyzeSpeech st sample
  /\ i = input st sample.
Proof.
  unfold checkContext, refused.
  repeat match goal with
         | |- context [if ?c then _ else _] => destruct c
         end;
    cbn [effects In]; intros Hin;
    try (decompose [or] Hin; try discriminate; contradiction).
  split; [reflexivity | now apply client_submit_invoked].
Qed.

(** A request leaves [handleAnalyze] only through [submit]; its sample is
    the transcript in the live tab and the data URI of the audio blob in the
    other two. *)
Lemma client_invoked (st : State) (i : AnalyzeSpeechInput) :
  In (Invoke i) (effects (handleAnalyze analyzeSpeech st)) ->
  exists sample,
    handleAnalyze analyzeSpeech st = submit analyzeSpeech st sample
    /\ i = input st sample
    /\ (currentTab st = live /\ sample = transcript st
        \/ currentTab st <> live
           /\ exists blob, audioBlob st = Some blob /\ dataUrl blob = Some sample).
Proof.
  unfold handleAnalyze, refused.
  destruct (currentTab st) eqn:Htab.
  - destruct (falsy (transcript st)); cbn [effects In]; intros Hin;
      [decompose [or] Hin; try discriminate; contradiction|].
    apply checkContext_invoked in Hin. destruct Hin as [Hrun Hi].
    exists (transcript st). auto.
  - destruct (audioBlob st) as [blob|];
      [destruct (dataUrl blob) as [uri|] eqn:Huri|]; cbn [effects In]; intros Hin;
      try (decompose [or] Hin; try discriminate; contradiction).
    apply checkContext_invoked in Hin. destruct Hin as [Hrun Hi].
    exists uri. repeat split; auto. right. split; [discriminate | eauto].
  - destruct (audioBlob st) as [blob|];
      [destruct (dataUrl blob) as [uri|] eqn:Huri|]; cbn [effects In]; intros Hin;
      try (decompose [or] Hin; try discriminate; contradiction).
    apply checkContext_invoked in Hin. destruct Hin as [Hrun Hi].
    exists uri. repeat split; auto. right. split; [discriminate | eauto].
Qed.

Lemma client_missing_refused (st : State) (k : Missing) :
  lacks st k = true ->
  invoked (effects (handleAnalyze analyzeSpeech st)) = []
  /\ after (handleAnalyze analyzeSpeech st) = st
  /\ (readable st = true ->
      exists t, effects (handleAnalyze analyzeSpeech st) = [Notify t]).
Proof.
  unfold lacks, readable, handleAnalyze, checkContext, refused.
  destruct k, (mode st), (currentTab st); cbn [AnalysisMode_eqb andb orb];
    try discriminate;
    repeat match goal with
           | |- context [falsy ?s] => destruct (falsy s)
           | |- context [match audioBlob st with _ => _ end] => destruct (audioBlob st)
           | |- context [match dataUrl ?b with _ => _ end] => destruct (dataUrl b)
           end;
    cbn [andb orb effects after invoked flat_map app]; intros H;
    try discriminate H;
    (split; [reflexivity | split; [reflexivity | intros Hr; try discriminate Hr; eauto]]).
Qed.

Lemma client_notice_of_only (st : State) (k : Missing) :
  lacksOnly st k -> readable st = true ->
  exists t,
    notices (effects (handleAnalyze analyzeSpeech st)) = [t]
    /\ In t match k with
            | Question => [enterQuestion; enterBoth]
            | PerfectAnswer => [enterBoth]
            | Transcript => [noTranscription]
            | Audio => [noAudio]
            end
    /\ (t = enterBoth -> mode st = PracticeMode).
Proof.
  intros Honly.
  assert (Hq : lacks st Question = true -> Question = k) by apply Honly.
  assert (Hp : lacks st PerfectAnswer = true -> PerfectAnswer = k) by apply Honly.
  assert (Ht : lacks st Transcript = true -> Transcript = k) by apply Honly.
  assert (Ha : lacks st Audio = true -> Audio = k) by apply Honly.
  assert (Hk : lacks st k = true) by (now apply Honly).
  revert Hq Hp Ht Ha Hk.
  unfold lacks, readable, handleAnalyze, checkContext, refused.
  destruct (mode st), (currentTab st); cbn [AnalysisMode_eqb andb orb];
    repeat match goal with
           | |- context [falsy ?s] => destruct (falsy s)
           | |- context [match audioBlob st with _ => _ end] => destruct (audioBlob st)
           | |- context [match dataUrl ?b with _ => _ end] => destruct (dataUrl b)
           end;
    cbn [andb orb]; intros Hq Hp Ht Ha Hk Hr;
    try discriminate Hr;
    try (specialize (Hq eq_refl)); try (specialize (Hp eq_refl));
    try (specialize (Ht eq_refl)); try (specialize (Ha eq_refl));
    subst; try discriminate;
    try (destruct k; discriminate);
    eexists;
    (split; [reflexivity
            | split; [simpl; tauto
                     | intros E; first [reflexivity | discriminate E]]]).
Qed.

End ClientSubmission.

(** ** C1: validation before the remote call *)

(** C1, as stated, fails in [SpeechAnalysisClient]: in practice mode a
    submission that lacks only the question and one that lacks only the
    perfect answer raise the same notice, "Please enter both question and
    perfect answer.", so the notice does not tell the two apart. *)
Lemma client_practice_notice_is_shared :
  let base :=
    Client.set_transcript "I led the team."
      (Client.set_mode AnalyzeSpeech.PracticeMode (Client.init true)) in
  let noQuestion := Client.set_perfectAnswer "By listening first." base in
  let noAnswer := Client.set_question "How do you lead?" base in
  let analyzeSpeech := fun _ => Runtime.Rejected Samples.offline in
  Client.lacksOnly noQuestion Runtime.Question
  /\ Client.lacksOnly noAnswer Runtime.PerfectAnswer
  /\ Client.effects (Client.handleAnalyze analyzeSpeech noQuestion)
     = [Runtime.Notify Client.enterBoth]
  /\ Client.effects (Client.handleAnalyze analyzeSpeech noAnswer)
     = [Runtime.Notify Client.enterBoth].
Proof.
  cbv zeta. repeat split; try reflexivity;
    try (destruct k'; simpl; intros H; (discriminate H || reflexivity)).
Qed.

(** C1 (amended): in both front ends a submission that lacks a
    mode-required field (question for interview and practice, perfect answer
    for practice) or the captured input (transcript in the live tab, audio in
    the record and upload tabs) leaves the state as it was and never invokes
    the remote call.  [Home] then raises exactly one notice, and submissions
    lacking different single items get different notices.
    [SpeechAnalysisClient] raises exactly one notice provided the audio, if
    any, could be read, and its notices differ for different single missing
    items except that, in practice mode, a missing question and a missing
    perfect answer share one notice. *)
Theorem missing_input_is_refused_before_the_call :
  (forall analyze (st : Home.State) (k : Runtime.Missing),
      Home.lacks st k = true ->
      let r := Home.handleAnalyze analyze st in
      Runtime.invoked (Home.effects r) = []
      /\ Home.after r = st
      /\ exists t, Home.effects r = [Runtime.Notify t])
  /\ (forall analyze (st1 st2 : Home.State) (k1 k2 : Runtime.Missing),
        Home.lacksOnly st1 k1 -> Home.lacksOnly st2 k2 -> k1 <> k2 ->
        Runtime.notices (Home.effects (Home.handleAnalyze analyze st1))
        <> Runtime.notices (Home.effects (Home.handleAnalyze analyze st2)))
  /\ (forall analyzeSpeech (st : Client.State) (k : Runtime.Missing),
        Client.lacks st k = true ->
        let r := Client.handleAnalyze analyzeSpeech st in
        Runtime.invoked (Client.effects r) = []
        /\ Client.after r = st
        /\ (Client.readable st = true ->
            exists t, Client.effects r = [Runtime.Notify t]))
  /\ (forall analyzeSpeech (st1 st2 : Client.State) (k1 k2 : Runtime.Missing),
        Client.lacksOnly st1 k1 -> Client.lacksOnly st2 k2 -> k1 <> k2 ->
        Client.readable st1 = true -> Client.readable st2 = true ->
        Runtime.notices (Client.effects (Client.handleAnalyze analyzeSpeech st1))
        <> Runtime.notices (Client.effects (Client.handleAnalyze analyzeSpeech st2))
        \/ (Client.mode st1 = AnalyzeSpeech.PracticeMode
            /\ Client.mode st2 = AnalyzeSpeech.PracticeMode
            /\ (k1 = Runtime.Question /\ k2 = Runtime.PerfectAnswer
                \/ k1 = Runtime.PerfectAnswer /\ k2 = Runtime.Question))).
Proof.
  split; [| split; [| split]].
  - intros analyze st k Hk. cbv zeta.
    destruct (home_missing_refused analyze st k Hk) as [t ->].
    simpl. eauto.
  - intros analyze st1 st2 k1 k2 H1 H2 Hne Heq.
    destruct (home_notice_of_only analyze st1 k1 H1) as (t1 & E1 & In1).
    destruct (home_notice_of_only analyze st2 k2 H2) as (t2 & E2 & In2).
    rewrite E1, E2 in Heq. inversion Heq; subst t2. clear Heq E1 E2.
    destruct k1, k2; try (now apply Hne); simpl in In1, In2;
      decompose [or] In1; decompose [or] In2; subst;
      try contradiction; discriminate.
  - intros analyzeSpeech st k Hk. cbv zeta.
    apply client_missing_refused with (k := k). exact Hk.
  - intros analyzeSpeech st1 st2 k1 k2 H1 H2 Hne Hr1 Hr2.
    destruct (client_notice_of_only analyzeSpeech st1 k1 H1 Hr1)
      as (t1 & E1 & In1 & P1).
    destruct (client_notice_of_only analyzeSpeech st2 k2 H2 Hr2)
      as (t2 & E2 & In2 & P2).
    rewrite E1, E2.
    destruct k1, k2; try (exfalso; now apply Hne); simpl in In1, In2;
      decompose [or] In1; decompose [or] In2; subst;
      try contradiction;
      try (left; intros Heq; inversion Heq; discriminate);
      right; repeat split; auto.
Qed.

Lemma missing_input_is_refused_before_the_call_witness :
  let noQuestion := Home.set_transcript "I led the team."
                      (Home.set_analysisMode Analyze.interview (Home.init true)) in
  let noSpeech := Home.init true in
  let legacy := Client.set_mode AnalyzeSpeech.InterviewMode
                  (Client.set_transcript "I led the team." (Client.init true)) in
  let analyze := fun _ => Runtime.Rejected Samples.offline in
  let analyzeSpeech := fun _ => Runtime.Rejected Samples.offline in
  Runtime.invoked (Home.effects (Home.handleAnalyze analyze noQuestion)) = []
  /\ Runtime.notices (Home.effects (Home.handleAnalyze analyze noQuestion))
     <> Runtime.notices (Home.effects (Home.handleAnalyze analyze noSpeech))
  /\ Runtime.invoked (Client.effects (Client.handleAnalyze analyzeSpeech legacy)) = []
  /\ (Runtime.notices (Client.effects (Client.handleAnalyze analyzeSpeech legacy))
      <> Runtime.notices
           (Client.effects (Client.handleAnalyze analyzeSpeech (Client.init true)))
      \/ Client.mode legacy = AnalyzeSpeech.PracticeMode).
Proof.
  cbv zeta.
  destruct missing_input_is_refused_before_the_call as (Hh & Hhd & Hc & Hcd).
  split; [| split; [| split]].
  - apply (Hh _ _ Runtime.Question). reflexivity.
  - apply (Hhd _ _ _ Runtime.Question Runtime.Transcript).
    + intros k'; destruct k'; simpl; split; intros H;
        first [reflexivity | discriminate H].
    + intros k'; destruct k'; simpl; split; intros H;
        first [reflexivity | discriminate H].
    + discriminate.
  - apply (Hc _ _ Runtime.Question). reflexivity.
  - destruct (Hcd (fun _ => Runtime.Rejected Samples.offline)
                (Client.set_mode AnalyzeSpeech.InterviewMode
                   (Client.set_transcript "I led the team." (Client.init true)))
                (Client.init true) Runtime.Question Runtime.Transcript)
      as [Hdiff | (Hmode & _)].
    + intros k'; destruct k'; simpl; split; intros H;
        first [reflexivity | discriminate H].
    + intros k'; destruct k'; simpl; split; intros H;
        first [reflexivity | discriminate H].
    + discriminate.
    + reflexivity.
    + reflexivity.
    + left. exact Hdiff.
    + right. exact Hmode.
Defined.

(** ** C2: a failed analysis *)

Section FlowFailure.
Import Js Zod Runtime.



End FlowFailure.

Section ClientOverlap.
Import Js Runtime AnalyzeSpeech ClientAsync.









(** A run with nothing in between is [Client.handleAnalyze]. *)
Lemma alone_is_handleAnalyze analyzeSpeech (st : Client.State) :
  cells (fst (alone analyzeSpeech st))
  = Client.after (Client.handleAnalyze analyzeSpeech st)
  /\ snd (alone analyzeSpeech st) = Client.effects (Client.handleAnalyze analyzeSpeech st)
  /\ runs (fst (alone analyzeSpeech st)) = [].
Proof.
  destruct st as [m q pa tr li re url blob tab ld res sup ft mr mic].
  unfold alone, handleAnalyze, fileRead, send, settled, Client.handleAnalyze,
    Client.checkContext, Client.submit, Client.refused.
  cbn.
  destruct tab; [destruct tr | destruct blob as [[ty nm [uri|]]|] ..]; cbn;
    try (repeat split; reflexivity);
    destruct m, q, pa; cbn; try (repeat split; reflexivity);
    match goal with
    | |- context [analyzeSpeech ?i] => destruct (analyzeSpeech i)
    end;
    cbn; repeat split; reflexivity.
Qed.

End ClientOverlap.




(** ** C3: what a request carries *)

(** The input schema on its own lets a request carry both a transcription
    and an audio data URI, or neither. *)
Lemma input_schema_allows_both_and_neither :
  Zod.accepts Schemas.AnalyzeInputSchema
    (Some (Analyze.toJson
             {| Analyze.audioDataUri := Some "data:audio/wav;base64,UklGRg==";
                Analyze.transcription := Some "I led the team.";
                Analyze.mode := Analyze.presentation;
                Analyze.question := None;
                Analyze.perfectAnswer := None |})) = true
  /\ Zod.accepts Schemas.AnalyzeInputSchema
       (Some (Analyze.toJson
                {| Analyze.audioDataUri := None;
                   Analyze.transcription := None;
                   Analyze.mode := Analyze.presentation;
                   Analyze.question := None;
                   Analyze.perfectAnswer := None |})) = true.
Proof. split; reflexivity. Qed.

(** C3: every request [handleAnalyze] of [Home] hands to the analysis flow
    passes [AnalyzeInputSchema] and carries exactly one of [transcription]
    and [audioDataUri].  (The requests of [SpeechAnalysisClient] pass
    [AnalyzeSpeechInputSchema] and carry one [speechSample], which is the
    transcript in the live tab and the data URI of the audio otherwise.) *)
Theorem request_carries_exactly_one_sample :
  (forall analyze (st : Home.State) (input : Analyze.AnalyzeInput),
      In (Runtime.Invoke input) (Home.effects (Home.handleAnalyze analyze st)) ->
      Zod.accepts Schemas.AnalyzeInputSchema (Some (Analyze.toJson input)) = true
      /\ ((exists t, Analyze.transcription input = Some t)
          /\ Analyze.audioDataUri input = None
          \/ Analyze.transcription input = None
             /\ exists uri, Analyze.audioDataUri input = Some uri))
  /\ (forall analyzeSpeech (st : Client.State)
             (input : AnalyzeSpeech.AnalyzeSpeechInput),
        In (Runtime.Invoke input)
           (Client.effects (Client.handleAnalyze analyzeSpeech st)) ->
        Zod.accepts AnalyzeSpeech.AnalyzeSpeechInputSchema
          (Some (AnalyzeSpeech.toJson input)) = true
        /\ (Client.currentTab st = Client.live
            /\ AnalyzeSpeech.speechSample input = Client.transcript st
            \/ Client.currentTab st <> Client.live
               /\ exists blob,
                    Client.audioBlob st = Some blob
                    /\ Runtime.dataUrl blob
                       = Some (AnalyzeSpeech.speechSample input))).
Proof.
  split.
  - intros analyze st input Hin.
    destruct (home_invoked analyze st input Hin) as [_ Hshape]. split.
    + destruct input as [a t m q p]. destruct a, t, m, q, p; reflexivity.
    + destruct Hshape as [-> | [uri ->]]; simpl; eauto.
  - intros analyzeSpeech st input Hin.
    destruct (client_invoked analyzeSpeech st input Hin) as (sample & _ & -> & Hs).
    split.
    + unfold Client.input.
      destruct (Js.truthy (Client.question st)),
        (Js.truthy (Client.perfectAnswer st) && _), (Client.mode st); reflexivity.
    + exact Hs.
Qed.

Lemma request_carries_exactly_one_sample_witness :
  let st := Home.set_audioBlob (Some Samples.recording)
              (Home.set_inputMode Home.audio (Home.init true)) in
  let input := Home.withAudioDataUri "data:audio/wav;base64,UklGRg==" (Home.inputData st) in
  Zod.accepts Schemas.AnalyzeInputSchema (Some (Analyze.toJson input)) = true
  /\ ((exists t, Analyze.transcription input = Some t)
      /\ Analyze.audioDataUri input = None
      \/ Analyze.transcription input = None
         /\ exists uri, Analyze.audioDataUri input = Some uri).
Proof.
  cbv zeta.
  apply (proj1 request_carries_exactly_one_sample
           (fun _ => Runtime.Resolved Samples.output)
           (Home.set_audioBlob (Some Samples.recording)
              (Home.set_inputMode Home.audio (Home.init true)))).
  simpl. left. reflexivity.
Defined.

(** ** C4: one capture path at a time *)

Section HomeCapture.
Import Js Runtime Analyze Home.

Variable analyze : AnalyzeInput -> outcome json.

Ltac split_matches :=
  repeat match goal with
         | |- context [match ?x with _ => _ end] => destruct x
         end.

Lemma handleAnalyze_keeps_capture_flags (st : State) :
  isLiveRecording (after (handleAnalyze analyze st)) = isLiveRecording st
  /\ isAudioRecording (after (handleAnalyze analyze st)) = isAudioRecording st
  /\ micRequests (after (handleAnalyze analyze st)) = micRequests st.
Proof.
  unfold handleAnalyze, readThenSubmit, submit, refused.
  destruct st. cbn -[trim prop AnalysisMode_eqb].
  split_matches; cbn; auto.
Qed.

(** The invariant: the two capture flags are never both set, and live
    transcription is off while a microphone request is outstanding. *)
Lemma home_step_invariant (st : State) (e : Event) :
  isLiveRecording st && isAudioRecording st = false ->
  (micRequests st <> 0%nat -> isLiveRecording st = false) ->
  (micRequests st <> 0%nat -> settles e = true) ->
  let st' := fst (step analyze st e) in
  isLiveRecording st' && isAudioRecording st' = false
  /\ (micRequests st' <> 0%nat -> isLiveRecording st' = false).
Proof.
  intros Hx Hp Hs. cbv zeta.
  destruct e;
    try (destruct (handleAnalyze_keeps_capture_flags st) as (Kl & Ka & Km);
         unfold step; destruct (analyzeDisabled st); cbn [fst];
         rewrite ?Kl, ?Ka, ?Km; auto; fail);
    unfold step, handleToggleLiveRecording, handleToggleAudioRecording,
      microphoneGranted, microphoneDenied, onstop, handleFileSelect,
      resetStateForMode, onresult, onerror, onend, liveDisabled, recordDisabled;
    destruct st as [lv au an tr res sup am im q pa url blob fl mic];
    cbn -[trim finals recoverable startsWith] in *;
    destruct lv, au, mic; cbn -[trim finals recoverable startsWith] in *;
    try discriminate;
    try (specialize (Hp ltac:(discriminate)); discriminate);
    try (specialize (Hs ltac:(discriminate)); discriminate);
    try destruct sup; try destruct an; try destruct im; try destruct am;
    try destruct file;
    cbn -[trim finals recoverable startsWith];
    repeat match goal with
           | |- context [if truthy ?s then _ else _] => destruct (truthy s)
           | |- context [if recoverable ?s then _ else _] => destruct (recoverable s)
           | |- context [if startsWith ?a ?b then _ else _] => destruct (startsWith a b)
           end;
    cbn; split; auto; try discriminate; try congruence.
Qed.

Lemma home_run_invariant (es : list Event) (st : State) :
  isLiveRecording st && isAudioRecording st = false ->
  (micRequests st <> 0%nat -> isLiveRecording st = false) ->
  prompt analyze st es = true ->
  isLiveRecording (run analyze st es) && isAudioRecording (run analyze st es) = false.
Proof.
  revert st. induction es as [|e rest IH]; intros st Hx Hp Hprompt.
  - exact Hx.
  - cbn [prompt] in Hprompt. apply andb_true_iff in Hprompt.
    destruct Hprompt as [Hnow Hlater].
    destruct (home_step_invariant st e Hx Hp) as [Hx' Hp'].
    { intros Hmic. destruct (micRequests st); [contradiction | exact Hnow]. }
    cbn [run]. apply IH; assumption.
Qed.

End HomeCapture.

(** C4, as stated, fails in [SpeechAnalysisClient], whose capture buttons
    are never disabled on account of the other path: start live
    transcription, switch to the record tab (which leaves recognition
    running), start recording and grant the microphone; the component is
    then listening and recording at once. *)
Lemma client_listens_and_records_at_once :
  let analyzeSpeech := fun _ => Runtime.Rejected Samples.offline in
  let trace := [ Client.ClickListen; Client.TabChanged Client.record;
                 Client.ClickRecord; Client.MicrophoneGranted ] in
  let st := Client.run analyzeSpeech (Client.init true) trace in
  Client.prompt analyzeSpeech (Client.init true) trace = true
  /\ Client.isListening st = true
  /\ Client.isRecording st = true.
Proof.
  cbv zeta. repeat split; reflexivity.
Qed.

(** In [Home] the guard is read when the button is clicked; a microphone
    permission that arrives after the user has gone on to start live
    transcription still starts the recorder. *)
Lemma home_late_permission_overlaps :
  let analyze := fun _ => Runtime.Rejected Samples.offline in
  let trace := [ Home.TabChanged Home.audio; Home.ClickRecord;
                 Home.TabChanged Home.live; Home.ClickLive;
                 Home.MicrophoneGranted ] in
  let st := Home.run analyze (Home.init true) trace in
  Home.prompt analyze (Home.init true) trace = false
  /\ Home.isLiveRecording st = true
  /\ Home.isAudioRecording st = true.
Proof.
  cbv zeta. repeat split; reflexivity.
Qed.

(** C4 (amended): in [Home], along every sequence of events in which each
    microphone permission request is settled before the next event, live
    transcription and audio recording are never active together; the live
    button is disabled while recording and the record button while live
    transcription runs, so a click on either then changes nothing.
    [SpeechAnalysisClient] has no such guard. *)
Theorem home_capture_paths_exclude_each_other :
  (forall analyze (supported : bool) (es : list Home.Event),
      Home.prompt analyze (Home.init supported) es = true ->
      let st := Home.run analyze (Home.init supported) es in
      Home.isLiveRecording st && Home.isAudioRecording st = false)
  /\ (forall analyze (st : Home.State),
        Home.isAudioRecording st = true ->
        Home.liveDisabled st = true
        /\ Home.step analyze st Home.ClickLive = (st, []))
  /\ (forall analyze (st : Home.State),
        Home.isLiveRecording st = true ->
        Home.recordDisabled st = true
        /\ Home.step analyze st Home.ClickRecord = (st, [])).
Proof.
  split; [| split].
  - intros analyze supported es Hprompt. cbv zeta.
    apply home_run_invariant; [reflexivity | | exact Hprompt].
    intros Hmic. exfalso. apply Hmic. reflexivity.
  - intros analyze st Hrec.
    assert (Hd : Home.liveDisabled st = true).
    { unfold Home.liveDisabled. rewrite Hrec. apply orb_true_r. }
    split; [exact Hd|]. cbn [Home.step]. rewrite Hd.
    now rewrite andb_false_r.
  - intros analyze st Hlive.
    assert (Hd : Home.recordDisabled st = true).
    { unfold Home.recordDisabled. rewrite Hlive. apply orb_true_r. }
    split; [exact Hd|]. cbn [Home.step]. rewrite Hd.
    now rewrite andb_false_r.
Qed.

Lemma home_capture_paths_exclude_each_other_witness :
  let analyze := fun _ => Runtime.Rejected Samples.offline in
  let trace := [ Home.TabChanged Home.audio; Home.ClickRecord;
                 Home.MicrophoneGranted; Home.TabChanged Home.live;
                 Home.ClickLive ] in
  let st := Home.run analyze (Home.init true) trace in
  Home.isLiveRecording st && Home.isAudioRecording st = false
  /\ Home.step analyze st Home.ClickLive = (st, []).
Proof.
  cbv zeta.
  destruct home_capture_paths_exclude_each_other as (Hinv & Hlive & _).
  split.
  - apply (Hinv (fun _ => Runtime.Rejected Samples.offline) true). reflexivity.
  - apply Hlive. reflexivity.
Defined.

(* ================================================================== *)
(** * Further properties *)
(* ================================================================== *)

(** ** [encodeWAV]: when it succeeds, and what the blob holds *)

Section WavBlob.
Import Wav WavRead.
Local Open Scope list_scope.

Lemma skipn_repeat {A} (x : A) (n m : nat) :
  skipn n (repeat x m) = repeat x (m - n).
Proof.
  revert m. induction n as [|n IH]; intros m.
  - now rewrite Nat.sub_0_r.
  - destruct m as [|m]; [reflexivity|]. simpl. apply IH.
Qed.

(** The result of [encodeWAV] for any non-empty list of chunks. *)
Lemma encodeWAV_cases (first : list float) (rest : list (list float)) (sampleRate : Z) :
  let samples := first :: rest in
  let room := Z.of_nat (List.length samples) * Z.of_nat (List.length first) in
  (totalSamples samples <= room ->
   encodeWAV samples sampleRate
   = Ok {| content := headerBytes (totalSamples samples) sampleRate
                      ++ dataBytes samples
                      ++ repeat 0 (Z.to_nat (2 * (room - totalSamples samples)));
           type := "audio/wav" |})
  /\ (room < totalSamples samples ->
      encodeWAV samples sampleRate = Throw RangeError).
Proof.
  cbv zeta. set (samples := first :: rest).
  pose proof (length_dataBytes samples) as Hdata.
  assert (Htotal : 0 <= totalSamples samples)
    by (rewrite totalSamples_concat; lia).
  assert (Hlen : Z.of_nat (List.length (headerBytes (totalSamples samples) sampleRate
                                        ++ dataBytes samples))
                 = 44 + 2 * totalSamples samples).
  { rewrite length_app, length_headerBytes. lia. }
  split; intros Hroom; subst samples; rewrite encodeWAV_layout.
  - rewrite store_ok by (unfold byteLength; rewrite ?repeat_length; lia).
    cbn [bind Z.to_nat firstn Nat.add app]. do 2 f_equal.
    rewrite <- app_assoc. do 2 f_equal.
    rewrite skipn_repeat. f_equal. lia.
  - rewrite store_throws by (unfold byteLength; rewrite ?repeat_length; lia).
    reflexivity.
Qed.

End WavBlob.

Section WavFields.
Import Wav WavRead.
Local Open Scope list_scope.

(** What [encodeWAV] returns is the header, the samples and zero padding. *)
Lemma encodeWAV_content (samples : list (list float)) (sampleRate : Z) (blob : Blob) :
  encodeWAV samples sampleRate = Ok blob ->
  exists padding : nat,
    content blob
    = headerBytes (totalSamples samples) sampleRate
      ++ dataBytes samples ++ repeat 0 padding
    /\ type blob = "audio/wav"%string.
Proof.
  destruct samples as [|first rest]; [discriminate|].
  destruct (encodeWAV_cases first rest sampleRate) as [Hfit Hover].
  destruct (Z.le_gt_cases (totalSamples (first :: rest))
              (Z.of_nat (List.length (first :: rest)) * Z.of_nat (List.length first)))
    as [Hle | Hgt].
  - rewrite (Hfit Hle). intros Hok. inversion Hok. cbn [content type].
    eexists. split; reflexivity.
  - rewrite (Hover Hgt). discriminate.
Qed.

Lemma window_in_prefix {A} (l tail : list A) (offset k : nat) :
  (offset + k <= List.length l)%nat ->
  firstn k (skipn offset (l ++ tail)) = firstn k (skipn offset l).
Proof.
  intros H. rewrite skipn_app, firstn_app, length_skipn.
  replace (offset - List.length l)%nat with 0%nat by lia.
  replace (k - (List.length l - offset))%nat with 0%nat by lia.
  cbn [firstn]. now rewrite app_nil_r.
Qed.

Lemma header_window (t r : Z) (tail : list Z) (offset : Z) (k : nat) :
  0 <= offset -> offset + Z.of_nat k <= 44 ->
  firstn k (skipn (Z.to_nat offset) (headerBytes t r ++ tail))
  = firstn k (skipn (Z.to_nat offset) (headerBytes t r)).
Proof.
  intros H0 H1. apply window_in_prefix. rewrite length_headerBytes. lia.
Qed.

Lemma pcm_in_int16 (x : float) : -32768 <= toInteger (pcm x) <= 32767.
Proof.
  assert (Hclamped : forall s : Q, (-1 <= s <= 1)%Q ->
            -32768 <= toInteger (scale (Finite s)) <= 32767).
  { intros s [Hlo Hhi]. unfold scale.
    destruct (Qle_bool 0 s) eqn:Hs; cbn [toInteger].
    - apply Qle_bool_iff in Hs.
      assert (Hv : (0 <= s * 32767)%Q) by lra.
      apply Qle_bool_iff in Hv. rewrite Hv. apply Qle_bool_iff in Hv.
      split.
      + apply Z.le_trans with (Qfloor 0); [vm_compute; discriminate|].
        now apply Qfloor_resp_le.
      + apply Z.le_trans with (Qfloor 32767); [|vm_compute; discriminate].
        apply Qfloor_resp_le. lra.
    - assert (Hneg : (s < 0)%Q).
      { apply Qnot_le_lt. intros H. apply Qle_bool_iff in H. congruence. }
      destruct (Qle_bool 0 (s * 32768)) eqn:Hv.
      + apply Qle_bool_iff in Hv. lra.
      + split.
        * apply Z.le_trans with (Qceiling (-32768)); [vm_compute; discriminate|].
          apply Qceiling_resp_le. lra.
        * apply Z.le_trans with (Qceiling 0); [|vm_compute; discriminate].
          apply Qceiling_resp_le. lra. }
  destruct x as [q | | |]; cbn [pcm min1 maxNeg1]; try (vm_compute; split; discriminate).
  unfold pcm, min1.
  destruct (Qle_bool 1 q) eqn:H1.
  - vm_compute. split; discriminate.
  - unfold maxNeg1. destruct (Qle_bool q (-1)) eqn:H2.
    + vm_compute. split; discriminate.
    + apply Hclamped. split.
      * apply Qlt_le_weak, Qnot_le_lt. intros H. apply Qle_bool_iff in H. congruence.
      * apply Qlt_le_weak, Qnot_le_lt. intros H. apply Qle_bool_iff in H. congruence.
Qed.

Lemma dataBytes_concat (samples : list (list float)) :
  dataBytes samples = chunkBytes (List.concat samples).
Proof.
  induction samples as [|c rest IH]; [reflexivity|].
  change (dataBytes (c :: rest)) with (chunkBytes c ++ dataBytes rest).
  cbn [List.concat]. rewrite IH. unfold chunkBytes. now rewrite flat_map_app.
Qed.

Lemma sample_window (l : list float) (tail : list Z) (i : nat) (x : float) :
  nth_error l i = Some x ->
  firstn 2 (skipn (2 * i) (chunkBytes l ++ tail))
  = littleEndian 2 (toInteger (pcm x)).
Proof.
  revert i. induction l as [|y l IH]; intros i Hi.
  - destruct i; discriminate.
  - change (chunkBytes (y :: l))
      with (littleEndian 2 (toInteger (pcm y)) ++ chunkBytes l).
    destruct i as [|i].
    + inversion Hi; subst y. reflexivity.
    + replace (2 * S i)%nat with (2 + 2 * i)%nat by lia.
      rewrite <- app_assoc.
      rewrite (skipn_past _ _ 2 (2 * i)) by apply length_littleEndian.
      apply IH. exact Hi.
Qed.

Lemma int16_round_trip (v : Z) :
  -32768 <= v <= 32767 ->
  (let u := fromLittleEndian (littleEndian 2 v) in
   if u <? 32768 then u else u - 65536) = v.
Proof.
  intros Hv. cbv zeta. rewrite fromLittleEndian_littleEndian.
  change (256 ^ Z.of_nat 2) with 65536.
  destruct (Z.ltb_spec (v mod 65536) 32768) as [Hlt | Hge].
  - destruct (Z.le_gt_cases 0 v).
    + apply Z.mod_small. lia.
    + rewrite <- (Z.mod_add v 1 65536) in Hlt by lia.
      rewrite Z.mod_small in Hlt by lia. lia.
  - destruct (Z.le_gt_cases 0 v).
    + rewrite Z.mod_small in Hge by lia. lia.
    + rewrite <- (Z.mod_add v 1 65536) by lia.
      rewrite Z.mod_small by lia. lia.
Qed.


End WavFields.

Section WavHeader.
Import Wav WavRead.
Local Open Scope list_scope.

Ltac header_at z n :=
  replace (Z.to_nat z) with n by reflexivity;
  rewrite window_in_prefix by (rewrite length_headerBytes; lia);
  cbn [headerBytes codes list_ascii_of_string map app littleEndian skipn firstn].

Lemma header_fields (t r : Z) (tail : list Z) :
  let view := headerBytes t r ++ tail in
  tag view 0 = codes "RIFF"
  /\ getUint32 view 4 = (36 + t * 2) mod 2 ^ 32
  /\ tag view 8 = codes "WAVE"
  /\ tag view 12 = codes "fmt "
  /\ getUint32 view 16 = 16
  /\ getUint16 view 20 = 1
  /\ getUint16 view 22 = 1
  /\ getUint32 view 24 = r mod 2 ^ 32
  /\ getUint32 view 28 = (r * 2) mod 2 ^ 32
  /\ getUint16 view 32 = 2
  /\ getUint16 view 34 = 16
  /\ tag view 36 = codes "data"
  /\ getUint32 view 40 = (t * 2) mod 2 ^ 32.
Proof.
  cbv zeta. unfold tag, getUint32, getUint16.
  repeat match goal with |- _ /\ _ => split end.
  - header_at (0%Z) (0%nat). reflexivity.
  - header_at (4%Z) (4%nat).
    exact (fromLittleEndian_littleEndian 4 (36 + t * 2)).
  - header_at (8%Z) (8%nat). reflexivity.
  - header_at (12%Z) (12%nat). reflexivity.
  - header_at (16%Z) (16%nat). reflexivity.
  - header_at (20%Z) (20%nat). reflexivity.
  - header_at (22%Z) (22%nat). reflexivity.
  - header_at (24%Z) (24%nat).
    exact (fromLittleEndian_littleEndian 4 r).
  - header_at (28%Z) (28%nat).
    exact (fromLittleEndian_littleEndian 4 (r * 2)).
  - header_at (32%Z) (32%nat). reflexivity.
  - header_at (34%Z) (34%nat). reflexivity.
  - header_at (36%Z) (36%nat). reflexivity.
  - header_at (40%Z) (40%nat).
    exact (fromLittleEndian_littleEndian 4 (t * 2)).
Qed.

End WavHeader.

(** X1: [encodeWAV] sizes its buffer from the first chunk.  When the chunks
    together hold no more samples than (number of chunks) x (length of the
    first chunk) it returns a blob of 44 + 2 x that many bytes, whose data
    size field still counts the real samples and whose bytes after the
    samples are zero; when they hold more, it throws a [RangeError]. *)
Theorem encodeWAV_fits_the_buffer_or_throws :
  forall (first : list Wav.float) (rest : list (list Wav.float)) (sampleRate : Z),
    let samples := first :: rest in
    let room := Z.of_nat (List.length samples) * Z.of_nat (List.length first) in
    (Wav.totalSamples samples <= room ->
     exists blob,
       Wav.encodeWAV samples sampleRate = Wav.Ok blob
       /\ Wav.size blob = 44 + 2 * room
       /\ Wav.getUint32 (Wav.content blob) 40
          = (2 * Wav.totalSamples samples) mod 2 ^ 32
       /\ skipn (Z.to_nat (44 + 2 * Wav.totalSamples samples)) (Wav.content blob)
          = repeat 0 (Z.to_nat (2 * (room - Wav.totalSamples samples))))
    /\ (room < Wav.totalSamples samples ->
        Wav.encodeWAV samples sampleRate = Wav.Throw Wav.RangeError).
Proof.
  intros first rest sampleRate samples room.
  destruct (encodeWAV_cases first rest sampleRate) as [Hfit Hover].
  fold samples in Hfit, Hover. fold room in Hfit, Hover.
  split; [| exact Hover].
  intros Hroom. rewrite (Hfit Hroom). eexists. split; [reflexivity|].
  pose proof (length_dataBytes samples) as Hdata.
  assert (Htotal : 0 <= Wav.totalSamples samples)
    by (rewrite totalSamples_concat; lia).
  cbn [Wav.content]. split; [| split].
  - unfold Wav.size, Wav.byteLength. cbn [Wav.content].
    rewrite !length_app, length_headerBytes, repeat_length. lia.
  - replace (2 * Wav.totalSamples samples) with (Wav.totalSamples samples * 2) by lia.
    apply header_fields.
  - rewrite app_assoc. rewrite skipn_app.
    rewrite skipn_all2 by (rewrite length_app, length_headerBytes; lia).
    rewrite length_app, length_headerBytes.
    replace (Z.to_nat (44 + 2 * Wav.totalSamples samples)
             - (44 + List.length (Wav.dataBytes samples)))%nat with 0%nat by lia.
    reflexivity.
Qed.

Lemma encodeWAV_fits_the_buffer_or_throws_witness :
  (exists blob,
      Wav.encodeWAV Examples.shortTail 8000 = Wav.Ok blob
      /\ Wav.size blob = 52
      /\ Wav.getUint32 (Wav.content blob) 40 = 6
      /\ skipn 50 (Wav.content blob) = [0; 0]%list)
  /\ Wav.encodeWAV Examples.longTail 8000 = Wav.Throw Wav.RangeError.
Proof.
  split.
  - destruct (proj1 (encodeWAV_fits_the_buffer_or_throws
                       [Wav.Finite 1; Wav.Finite (-1)] [[Wav.Finite (1 # 2)]] 8000))
      as (blob & Hok & Hsize & Hdata & Hpad).
    + vm_compute. discriminate.
    + exists blob. repeat split; assumption.
  - apply (proj2 (encodeWAV_fits_the_buffer_or_throws
                    [Wav.Finite 1] [[Wav.Finite (1 # 2); Wav.NaN]] 8000)).
    reflexivity.
Defined.

(** X2: every blob [encodeWAV] returns starts with a canonical 44-byte PCM
    header: the tags RIFF, WAVE, "fmt " and data at offsets 0, 8, 12 and 36,
    a 16-byte format chunk, format 1 (PCM), one channel, block align 2 and
    16 bits per sample, the sample rate at offset 24 and twice the sample
    rate (the byte rate) at offset 28, both modulo 2^32. *)
Theorem encodeWAV_writes_a_mono_pcm16_header :
  forall (samples : list (list Wav.float)) (sampleRate : Z) (blob : Wav.Blob),
    Wav.encodeWAV samples sampleRate = Wav.Ok blob ->
    let view := Wav.content blob in
    Wav.type blob = "audio/wav"
    /\ WavRead.tag view 0 = Wav.codes "RIFF"
    /\ WavRead.tag view 8 = Wav.codes "WAVE"
    /\ WavRead.tag view 12 = Wav.codes "fmt "
    /\ Wav.getUint32 view 16 = 16
    /\ WavRead.getUint16 view 20 = 1
    /\ WavRead.getUint16 view 22 = 1
    /\ Wav.getUint32 view 24 = sampleRate mod 2 ^ 32
    /\ Wav.getUint32 view 28 = (2 * sampleRate) mod 2 ^ 32
    /\ WavRead.getUint16 view 32 = 2
    /\ WavRead.getUint16 view 34 = 16
    /\ WavRead.tag view 36 = Wav.codes "data".
Proof.
  intros samples sampleRate blob Hok. cbv zeta.
  destruct (encodeWAV_content samples sampleRate blob Hok) as (padding & -> & Htype).
  pose proof (header_fields (Wav.totalSamples samples) sampleRate
                (Wav.dataBytes samples ++ repeat 0 padding)%list) as H.
  cbv zeta in H. replace (2 * sampleRate) with (sampleRate * 2) by lia.
  tauto.
Qed.

Lemma encodeWAV_writes_a_mono_pcm16_header_witness :
  exists blob,
    Wav.encodeWAV Samples.fourSamples 44100 = Wav.Ok blob
    /\ Wav.getUint32 (Wav.content blob) 24 = 44100
    /\ Wav.getUint32 (Wav.content blob) 28 = 88200.
Proof.
  destruct (encodeWAV_uniform [Wav.Finite 1; Wav.Finite (-1)]
              [[Wav.Finite (1 # 2); Wav.NaN]] 44100) as (blob & Hok & _);
    [repeat constructor |].
  exists blob. split; [exact Hok|].
  pose proof (encodeWAV_writes_a_mono_pcm16_header _ _ _ Hok) as H.
  cbv zeta in H. split; apply H.
Defined.

(** X3: the samples can be read back.  In every blob [encodeWAV] returns,
    the signed 16-bit value at offset 44 + 2 i is the quantized i-th sample
    (chunks taken in order), and it lies between -32768 and 32767. *)
Theorem encodeWAV_samples_read_back :
  forall (samples : list (list Wav.float)) (sampleRate : Z) (blob : Wav.Blob)
         (i : nat) (x : Wav.float),
    Wav.encodeWAV samples sampleRate = Wav.Ok blob ->
    nth_error (List.concat samples) i = Some x ->
    WavRead.getInt16 (Wav.content blob) (44 + 2 * Z.of_nat i)
    = Wav.toInteger (Wav.pcm x)
    /\ -32768 <= WavRead.getInt16 (Wav.content blob) (44 + 2 * Z.of_nat i) <= 32767.
Proof.
  intros samples sampleRate blob i x Hok Hi.
  destruct (encodeWAV_content samples sampleRate blob Hok) as (padding & -> & _).
  assert (Hget : WavRead.getInt16
                   (Wav.headerBytes (Wav.totalSamples samples) sampleRate
                    ++ Wav.dataBytes samples ++ repeat 0 padding)%list
                   (44 + 2 * Z.of_nat i)
                 = Wav.toInteger (Wav.pcm x)).
  { unfold WavRead.getInt16, WavRead.getUint16.
    replace (Z.to_nat (44 + 2 * Z.of_nat i)) with (44 + 2 * i)%nat by lia.
    rewrite (skipn_past _ _ 44 (2 * i)) by apply length_headerBytes.
    rewrite dataBytes_concat, (sample_window _ _ _ _ Hi).
    apply int16_round_trip. apply pcm_in_int16. }
  rewrite Hget. split; [reflexivity | apply pcm_in_int16].
Qed.

Lemma encodeWAV_samples_read_back_witness :
  exists blob,
    Wav.encodeWAV Samples.fourSamples 44100 = Wav.Ok blob
    /\ WavRead.getInt16 (Wav.content blob) 46 = -32768
    /\ WavRead.getInt16 (Wav.content blob) 48 = 16383.
Proof.
  destruct (encodeWAV_uniform [Wav.Finite 1; Wav.Finite (-1)]
              [[Wav.Finite (1 # 2); Wav.NaN]] 44100) as (blob & Hok & _);
    [repeat constructor |].
  exists blob. split; [exact Hok|]. split.
  - exact (proj1 (encodeWAV_samples_read_back _ _ _ 1%nat (Wav.Finite (-1))
                    Hok eq_refl)).
  - exact (proj1 (encodeWAV_samples_read_back _ _ _ 2%nat (Wav.Finite (1 # 2))
                    Hok eq_refl)).
Defined.

(** X4: quantization saturates instead of wrapping.  Every sample, finite
    or not, becomes an integer between -32768 and 32767; samples of 1 or
    more (and +Infinity) become 32767, samples of -1 or less (and -Infinity)
    become -32768, and NaN becomes 0. *)
Theorem pcm_saturates :
  (forall x : Wav.float, -32768 <= Wav.toInteger (Wav.pcm x) <= 32767)
  /\ (forall q : Q, (1 <= q)%Q -> Wav.toInteger (Wav.pcm (Wav.Finite q)) = 32767)
  /\ (forall q : Q, (q <= -1)%Q -> Wav.toInteger (Wav.pcm (Wav.Finite q)) = -32768)
  /\ Wav.toInteger (Wav.pcm Wav.PosInfinity) = 32767
  /\ Wav.toInteger (Wav.pcm Wav.NegInfinity) = -32768
  /\ Wav.toInteger (Wav.pcm Wav.NaN) = 0.
Proof.
  split; [exact pcm_in_int16|].
  split; [| split; [| repeat split; reflexivity]].
  - intros q Hq. unfold Wav.pcm, Wav.min1.
    apply Qle_bool_iff in Hq. rewrite Hq. reflexivity.
  - intros q Hq. unfold Wav.pcm, Wav.min1.
    destruct (Qle_bool 1 q) eqn:H1.
    + apply Qle_bool_iff in H1. lra.
    + unfold Wav.maxNeg1. apply Qle_bool_iff in Hq. rewrite Hq. reflexivity.
Qed.

Lemma pcm_saturates_witness :
  Wav.toInteger (Wav.pcm (Wav.Finite 3)) = 32767
  /\ Wav.toInteger (Wav.pcm (Wav.Finite (-7))) = -32768.
Proof.
  destruct pcm_saturates as (_ & Hhigh & Hlow & _).
  split; [apply Hhigh | apply Hlow]; vm_compute; discriminate.
Defined.

(** ** Criteria grouped by category *)

Section GroupBy.
Import Grouping.
Local Open Scope list_scope.

Context {A : Type}.
Variable key : A -> string.

Lemma push_keys (k : string) (x : A) (acc : list (string * list A)) :
  map fst (push k x acc)
  = if existsb (String.eqb k) (map fst acc) then map fst acc
    else map fst acc ++ [k].
Proof.
  induction acc as [|[k' items] rest IH]; [reflexivity|].
  cbn [push map fst existsb]. destruct (String.eqb k k'); cbn [orb map fst].
  - reflexivity.
  - rewrite IH. destruct (existsb (String.eqb k) (map fst rest)); reflexivity.
Qed.

Lemma existsb_key (k : string) (ks : list string) :
  existsb (String.eqb k) ks = true <-> In k ks.
Proof.
  rewrite existsb_exists. split.
  - intros (k' & Hin & Heq). apply String.eqb_eq in Heq. now subst k'.
  - intros Hin. exists k. split; [exact Hin | apply String.eqb_refl].
Qed.

Lemma push_entries (k : string) (x : A) (acc : list (string * list A))
    (k' : string) (items' : list A) :
  NoDup (map fst acc) ->
  In (k', items') (push k x acc) ->
  (k' <> k /\ In (k', items') acc)
  \/ (k' = k /\ items' = [x] /\ ~ In k (map fst acc))
  \/ (k' = k /\ exists items, In (k, items) acc /\ items' = items ++ [x]).
Proof.
  induction acc as [|[k0 items0] rest IH]; intros Hnd Hin.
  - cbn in Hin. destruct Hin as [Heq | []]. inversion Heq; subst.
    right. left. auto.
  - cbn [push] in Hin. cbn [map fst] in Hnd. inversion Hnd as [|? ? Hnotin Hrest]; subst.
    destruct (String.eqb_spec k k0) as [-> | Hne].
    + destruct Hin as [Heq | Hin].
      * inversion Heq; subst. right. right. split; [reflexivity|].
        exists items0. split; [left; reflexivity | reflexivity].
      * left. split; [| right; exact Hin].
        intros ->. apply Hnotin. apply in_map_iff. exists (k0, items'). auto.
    + destruct Hin as [Heq | Hin].
      * inversion Heq; subst. left. split; [congruence | left; reflexivity].
      * destruct (IH Hrest Hin) as [[Hk Hold] | [(Hk & Hnew & Hfresh) | (Hk & items & Hold & Hnew)]].
        -- left. split; [exact Hk | right; exact Hold].
        -- right. left. repeat split; try assumption.
           cbn [map fst In]. intros [Heq | Hin']; [congruence | contradiction].
        -- right. right. split; [exact Hk|]. exists items. split; [right; exact Hold | exact Hnew].
Qed.

Lemma push_permutation (k : string) (x : A) (acc : list (string * list A)) :
  Permutation (List.concat (map snd (push k x acc)))
              (x :: List.concat (map snd acc)).
Proof.
  induction acc as [|[k' items] rest IH]; [reflexivity|].
  cbn [push]. destruct (String.eqb k k'); cbn [map snd List.concat].
  - rewrite <- app_assoc. cbn [app]. symmetry. apply Permutation_middle.
  - rewrite IH. symmetry. apply Permutation_middle.
Qed.

Lemma grouped_push (acc : list (string * list A)) (seen : list A) (x : A) :
  grouped key acc seen -> grouped key (push (key x) x acc) (seen ++ [x]).
Proof.
  intros (Hnd & Hitems & Hkeys).
  assert (Hsub : forall k, In k (map fst acc) -> In k (map fst (push (key x) x acc))).
  { intros k Hk. rewrite push_keys.
    destruct (existsb (String.eqb (key x)) (map fst acc)); [exact Hk|].
    apply in_or_app. now left. }
  split; [| split].
  - rewrite push_keys.
    destruct (existsb (String.eqb (key x)) (map fst acc)) eqn:Hex; [exact Hnd|].
    assert (Hfresh : ~ In (key x) (map fst acc)).
    { intros Hin. apply existsb_key in Hin. congruence. }
    apply (Permutation_NoDup (Permutation_cons_append (map fst acc) (key x))).
    now constructor.
  - intros k items Hin. rewrite filter_app. cbn [filter].
    destruct (push_entries _ _ _ _ _ Hnd Hin)
      as [[Hk Hold] | [(Hk & Hnew & Hfresh) | (Hk & items0 & Hold & Hnew)]].
    + destruct (Hitems _ _ Hold) as [Hne Heq].
      destruct (String.eqb_spec (key x) k) as [E | _]; [congruence|].
      rewrite app_nil_r. auto.
    + subst k items. rewrite String.eqb_refl. split; [discriminate|].
      assert (Hnone : filter (fun c => String.eqb (key c) (key x)) seen = []).
      { destruct (filter _ seen) as [|c rest] eqn:Hf; [reflexivity|].
        exfalso. assert (Hc : In c (filter (fun c => String.eqb (key c) (key x)) seen))
          by (rewrite Hf; left; reflexivity).
        apply filter_In in Hc. destruct Hc as [Hc Hkc].
        apply String.eqb_eq in Hkc. apply Hfresh. rewrite <- Hkc. now apply Hkeys. }
      now rewrite Hnone.
    + subst k items. rewrite String.eqb_refl.
      destruct (Hitems _ _ Hold) as [Hne Heq]. split.
      * destruct items0; discriminate.
      * now rewrite <- Heq.
  - intros c Hc. apply in_app_or in Hc. destruct Hc as [Hc | [Heq | []]].
    + apply Hsub. now apply Hkeys.
    + subst c. rewrite push_keys.
      destruct (existsb (String.eqb (key x)) (map fst acc)) eqn:Hex.
      * now apply existsb_key.
      * apply in_or_app. right. left. reflexivity.
Qed.

Lemma grouped_fold (l : list A) (acc : list (string * list A)) (seen : list A) :
  grouped key acc seen ->
  grouped key (fold_left (fun acc x => push (key x) x acc) l acc) (seen ++ l).
Proof.
  revert acc seen. induction l as [|x l IH]; intros acc seen H.
  - now rewrite app_nil_r.
  - cbn [fold_left]. replace (seen ++ x :: l) with ((seen ++ [x]) ++ l)
      by (now rewrite <- app_assoc).
    apply IH. now apply grouped_push.
Qed.

Lemma fold_permutation (l : list A) (acc : list (string * list A)) :
  Permutation
    (List.concat (map snd (fold_left (fun acc x => push (key x) x acc) l acc)))
    (List.concat (map snd acc) ++ l).
Proof.
  revert acc. induction l as [|x l IH]; intros acc.
  - now rewrite app_nil_r.
  - cbn [fold_left]. rewrite IH, push_permutation. cbn [app].
    apply Permutation_middle.
Qed.

End GroupBy.

(** X6: grouping the criteria by category (the [reduce] of
    [AnalysisDashboard] and of [generatePdfReport]) loses and repeats
    nothing: the group keys are distinct, every group is non-empty and
    holds exactly the criteria of its key in their original order, every
    criterion is in the group of its key, and the groups together are a
    rearrangement of the list. *)
Theorem criteria_are_grouped_without_loss :
  forall (key : Grouping.Criterion -> string)
         (evaluationCriteria : list Grouping.Criterion),
    let groups := Grouping.groupBy key evaluationCriteria in
    NoDup (map fst groups)
    /\ (forall k items, In (k, items) groups ->
          items <> []
          /\ items = filter (fun c => String.eqb (key c) k) evaluationCriteria)
    /\ (forall c, In c evaluationCriteria ->
          exists items, In (key c, items) groups /\ In c items)
    /\ Permutation (List.concat (map snd groups)) evaluationCriteria
    /\ List.length (List.concat (map snd groups)) = List.length evaluationCriteria.
Proof.
  intros key l groups.
  assert (Hg : Grouping.grouped key groups ([] ++ l)%list).
  { apply grouped_fold. split; [constructor | split]; intros; contradiction. }
  cbn [app] in Hg. destruct Hg as (Hnd & Hitems & Hkeys).
  assert (Hperm : Permutation (List.concat (map snd groups)) l)
    by apply (fold_permutation key l []).
  split; [exact Hnd|]. split; [exact Hitems|]. split; [| split].
  - intros c Hc. specialize (Hkeys c Hc). apply in_map_iff in Hkeys.
    destruct Hkeys as ([k items] & Hk & Hin). cbn [fst] in Hk. subst k.
    exists items. split; [exact Hin|].
    destruct (Hitems _ _ Hin) as [_ ->]. apply filter_In.
    split; [exact Hc | apply String.eqb_refl].
  - exact Hperm.
  - now apply Permutation_length.
Qed.

Lemma criteria_are_grouped_without_loss_witness :
  In ("Delivery", [Examples.fluency; Examples.pacing])
     (Grouping.dashboardGroups Examples.criteria)
  /\ [Examples.fluency; Examples.pacing]
     = filter (fun c => String.eqb (Grouping.dashboardKey c) "Delivery")
         Examples.criteria.
Proof.
  assert (Hin : In ("Delivery", [Examples.fluency; Examples.pacing])
                   (Grouping.groupBy Grouping.dashboardKey Examples.criteria))
    by (vm_compute; left; reflexivity).
  split; [exact Hin|].
  exact (proj2 (proj1 (proj2 (criteria_are_grouped_without_loss
                                Grouping.dashboardKey Examples.criteria))
                  _ _ Hin)).
Defined.

(** ** [ScoreCircle] *)

(** X7: the number [ScoreCircle] shows is always between 0 and 10; it is
    the score itself when that lies in the range, 0 for a missing or
    negative score and 10 for a larger one; the circle is red exactly below
    5, amber from 5 to below 8 and green from 8 on. *)
Theorem score_circle_shows_a_clamped_score :
  (forall score : option Q, (0 <= Grouping.normalized score <= 10)%Q)
  /\ (forall s : Q, (0 <= s <= 10)%Q -> (Grouping.normalized (Some s) == s)%Q)
  /\ (forall s : Q, (s <= 0)%Q -> (Grouping.normalized (Some s) == 0)%Q)
  /\ (forall s : Q, (10 <= s)%Q -> (Grouping.normalized (Some s) == 10)%Q)
  /\ (Grouping.normalized None == 0)%Q
  /\ (forall score : option Q,
        (Grouping.colorClass score = "text-red-500"
         <-> (Grouping.normalized score < 5)%Q)
        /\ (Grouping.colorClass score = "text-amber-500"
            <-> (5 <= Grouping.normalized score < 8)%Q)
        /\ (Grouping.colorClass score = "text-green-500"
            <-> (8 <= Grouping.normalized score)%Q)).
Proof.
  assert (Hle : forall a b, Qle_bool a b = false -> (b < a)%Q).
  { intros a b H. apply Qnot_le_lt. intros Hab. apply Qle_bool_iff in Hab. congruence. }
  assert (Hnorm : forall s : Q,
             (0 <= Grouping.normalized (Some s) <= 10)%Q
             /\ ((0 <= s <= 10)%Q -> (Grouping.normalized (Some s) == s)%Q)
             /\ ((s <= 0)%Q -> (Grouping.normalized (Some s) == 0)%Q)
             /\ ((10 <= s)%Q -> (Grouping.normalized (Some s) == 10)%Q)).
  { intros s. unfold Grouping.normalized.
    destruct (Qle_bool 10 s) eqn:H10.
    - apply Qle_bool_iff in H10. cbn. repeat split; intros; lra.
    - apply Hle in H10. destruct (Qle_bool s 0) eqn:H0.
      + apply Qle_bool_iff in H0. repeat split; intros; lra.
      + apply Hle in H0. repeat split; intros; lra. }
  split; [| split; [| split; [| split; [| split]]]].
  - intros [s|]; [apply Hnorm | split; cbn; lra].
  - intros s. apply Hnorm.
  - intros s. apply Hnorm.
  - intros s. apply Hnorm.
  - reflexivity.
  - intros score. unfold Grouping.colorClass, Grouping.lessThan.
    destruct (Qle_bool 5 (Grouping.normalized score)) eqn:H5; cbn [negb].
    + apply Qle_bool_iff in H5.
      destruct (Qle_bool 8 (Grouping.normalized score)) eqn:H8; cbn [negb].
      * apply Qle_bool_iff in H8.
        repeat split; intros; try discriminate; try lra.
      * apply Hle in H8.
        repeat split; intros; try discriminate; try lra.
    + apply Hle in H5.
      repeat split; intros; try discriminate; try lra.
Qed.

Lemma score_circle_shows_a_clamped_score_witness :
  (Grouping.normalized (Some (15 # 2)) == 15 # 2)%Q
  /\ (Grouping.normalized (Some 42) == 10)%Q
  /\ (Grouping.normalized (Some (-3)) == 0)%Q.
Proof.
  destruct score_circle_shows_a_clamped_score as (_ & Hin & Hlow & Hhigh & _).
  split; [| split].
  - apply Hin. split; vm_compute; discriminate.
  - apply Hhigh. vm_compute. discriminate.
  - apply Hlow. vm_compute. discriminate.
Defined.

(** ** The criterion cards of [Home] *)

Section HomeCards.
Import Js Zod Schemas HomeDashboard.
Local Open Scope list_scope.

Lemma accepted_is_truthy (shape : list (string * schema)) (o : option json) :
  accepts (ZObject shape) o = true -> exists v, o = Some v /\ isTruthy v = true.
Proof.
  intros H. destruct (accepts_object_inv _ _ H) as [fields ->]. eauto.
Qed.

Lemma group_cards (fields : list (string * json)) (groupKey : string)
    (shape : list (string * schema)) (criteria : list (string * string)) :
  accepts (ZObject shape) (get groupKey fields) = true ->
  Forall (fun info => In (fst info, EvaluationCriterionSchema) shape) criteria ->
  let cards := criterionCards (JObj fields) groupKey criteria in
  map fst cards = map snd criteria
  /\ Forall (fun card => accepts EvaluationCriterionSchema (Some (snd card)) = true) cards.
Proof.
  intros Hgroup Hall. cbv zeta.
  destruct (accepts_object_inv _ _ Hgroup) as [members Hget].
  rewrite Hget in Hgroup.
  assert (Hm : member groupKey (JObj fields) = Some (JObj members)).
  { unfold member. cbn [prop]. now rewrite Hget. }
  unfold criterionCards. rewrite Hm.
  induction Hall as [|info rest Hin _ IH]; [split; constructor|].
  cbn [flat_map].
  pose proof (accepts_object_key _ _ _ _ Hgroup Hin) as Hk.
  destruct (accepted_is_truthy _ _ Hk) as (c & Hc & Htruthy).
  assert (Hmc : member (fst info) (JObj members) = Some c).
  { unfold member. cbn [prop]. now rewrite Hc, Htruthy. }
  rewrite Hmc. cbn [app map fst snd]. destruct IH as [IHl IHa]. split.
  - now rewrite IHl.
  - constructor; [cbn [snd]; now rewrite <- Hc | exact IHa].
Qed.

Lemma bar_of_accepted (c : json) :
  accepts EvaluationCriterionSchema (Some c) = true ->
  exists w, barWidth c = Some w /\ (0 <= w <= 100)%Q.
Proof.
  intros H. apply criterion_accepted_iff in H.
  destruct H as (q & _ & _ & Hq & Hb & _).
  unfold barWidth. rewrite Hq. eexists. split; [reflexivity | lra].
Qed.

End HomeCards.

(** X8: for a result that passes the output schema of [schemas.ts], [Home]
    renders exactly three groups, Delivery, Language and Content, with five
    criterion cards each, in the listed order; every card holds a criterion
    that passes [EvaluationCriterionSchema], so its score bar is between 0
    and 100 percent wide; and the overall card is shown. *)
Theorem home_renders_three_groups_of_five_cards :
  forall out : Js.json,
    Zod.accepts Schemas.AnalyzeSpeechOutputSchema (Some out) = true ->
    map (fun group => (fst group, map fst (snd group))) (HomeDashboard.groupCards out)
    = [ ("Delivery",
         ["Fluency"; "Pacing"; "Clarity"; "Confidence"; "Emotional Tone"]);
        ("Language",
         ["Grammar"; "Vocabulary"; "Word Choice"; "Conciseness"; "Filler Words"]);
        ("Content",
         ["Relevance"; "Organization"; "Accuracy"; "Depth"; "Persuasiveness"]) ]
    /\ (forall label cards name criterion,
          In (label, cards) (HomeDashboard.groupCards out) ->
          In (name, criterion) cards ->
          Zod.accepts Schemas.EvaluationCriterionSchema (Some criterion) = true
          /\ exists w, HomeDashboard.barWidth criterion = Some w /\ (0 <= w <= 100)%Q)
    /\ exists total,
         HomeDashboard.overallCard out = Some total
         /\ Zod.accepts Schemas.EvaluationCriterionSchema (Some total) = true.
Proof.
  intros out H.
  unfold Schemas.AnalyzeSpeechOutputSchema, Schemas.MetadataSchema, Zod.extend in H.
  simpl app in H.
  destruct (accepts_object_inv _ _ H) as [fields Hout]. inversion Hout; subst out.
  assert (Ht : Zod.accepts Schemas.EvaluationCriterionSchema
                 (Js.get "totalScore" fields) = true)
    by (eapply accepts_object_key; [exact H | simpl; tauto]).
  assert (Hd : Zod.accepts Schemas.DeliveryCriteriaSchema
                 (Js.get "delivery" fields) = true)
    by (eapply accepts_object_key; [exact H | simpl; tauto]).
  assert (Hl : Zod.accepts Schemas.LanguageCriteriaSchema
                 (Js.get "language" fields) = true)
    by (eapply accepts_object_key; [exact H | simpl; tauto]).
  assert (Hc : Zod.accepts Schemas.ContentCriteriaSchema
                 (Js.get "content" fields) = true)
    by (eapply accepts_object_key; [exact H | simpl; tauto]).
  pose proof (fun criteria Hall =>
                group_cards fields "delivery" _ criteria Hd Hall) as Gd.
  pose proof (fun criteria Hall =>
                group_cards fields "language" _ criteria Hl Hall) as Gl.
  pose proof (fun criteria Hall =>
                group_cards fields "content" _ criteria Hc Hall) as Gc.
  unfold HomeDashboard.groupCards, HomeDashboard.analysisCriteriaGroups.
  cbn [map].
  match goal with
  | |- context [HomeDashboard.criterionCards _ "delivery" ?cs] =>
      destruct (Gd cs) as [Dl Da];
      [repeat constructor; simpl; tauto|]
  end.
  match goal with
  | |- context [HomeDashboard.criterionCards _ "language" ?cs] =>
      destruct (Gl cs) as [Ll La];
      [repeat constructor; simpl; tauto|]
  end.
  match goal with
  | |- context [HomeDashboard.criterionCards _ "content" ?cs] =>
      destruct (Gc cs) as [Cl Ca];
      [repeat constructor; simpl; tauto|]
  end.
  split; [| split].
  - cbn [fst snd]. rewrite Dl, Ll, Cl. reflexivity.
  - intros label cards name criterion Hin Hcard.
    assert (Hok : Zod.accepts Schemas.EvaluationCriterionSchema (Some criterion) = true).
    { destruct Hin as [E | [E | [E | []]]]; inversion E; subst cards;
        [ apply (proj1 (Forall_forall _ _) Da (name, criterion) Hcard)
        | apply (proj1 (Forall_forall _ _) La (name, criterion) Hcard)
        | apply (proj1 (Forall_forall _ _) Ca (name, criterion) Hcard) ]. }
    split; [exact Hok | now apply bar_of_accepted].
  - destruct (accepted_is_truthy _ _ Ht) as (total & Hget & Htruthy).
    exists total. unfold HomeDashboard.overallCard, HomeDashboard.member.
    cbn [Js.prop]. rewrite Hget, Htruthy. split; [reflexivity|].
    now rewrite <- Hget.
Qed.

Lemma home_renders_three_groups_of_five_cards_witness :
  map (fun group => (fst group, List.length (snd group)))
      (HomeDashboard.groupCards Samples.output)
  = [("Delivery", 5%nat); ("Language", 5%nat); ("Content", 5%nat)]
  /\ exists total, HomeDashboard.overallCard Samples.output = Some total.
Proof.
  destruct (home_renders_three_groups_of_five_cards Samples.output eq_refl)
    as (Hgroups & _ & total & Htotal & _).
  split; [| exists total; exact Htotal].
  apply (f_equal (map (fun g => (fst g, List.length (snd g))))) in Hgroups.
  rewrite map_map in Hgroups. cbn [map fst snd List.length] in Hgroups.
  rewrite <- Hgroups. apply map_ext. intros g. cbn [fst snd].
  now rewrite length_map.
Defined.

(** ** [ThemeToggle] *)

(** X9: the toggled theme survives a reload and toggling is its own
    inverse.  After any toggle the state, the stored value and the root
    class agree; a page load after it restores that theme and class whatever
    the system preference or the initial root class; and from such an agreed
    state two toggles lead back to it.  A load with no stored value follows
    the system preference. *)
Theorem toggled_theme_is_kept :
  (forall w : Theme.World, Theme.settled (Theme.toggleTheme w))
  /\ (forall (w : Theme.World) (root prefers : bool),
        let w' := Theme.toggleTheme w in
        Theme.theme (Theme.reload w' root prefers) = Theme.theme w'
        /\ Theme.rootDark (Theme.reload w' root prefers) = Theme.rootDark w'
        /\ Theme.stored (Theme.reload w' root prefers) = Theme.stored w')
  /\ (forall w : Theme.World,
        Theme.settled w -> Theme.toggleTheme (Theme.toggleTheme w) = w)
  /\ (forall (w : Theme.World) (root prefers : bool),
        Theme.stored w = None ->
        Theme.rootDark (Theme.reload w root prefers) = prefers
        /\ Theme.theme (Theme.reload w root prefers)
           = (if prefers then "dark" else "light")).
Proof.
  split; [| split; [| split]].
  - intros w. unfold Theme.toggleTheme, Theme.settled.
    destruct (String.eqb (Theme.theme w) "dark"); cbn; auto.
  - intros w root prefers. unfold Theme.toggleTheme.
    destruct (String.eqb (Theme.theme w) "dark"); cbn; auto.
  - intros [t s r p] ([Ht | Ht] & Hs & Hr); cbn in *; subst; reflexivity.
  - intros w root prefers Hnone. unfold Theme.reload, Theme.mount, Theme.storedIs,
      Theme.hasKey. cbn. rewrite Hnone. cbn. destruct prefers; cbn; auto.
Qed.

Lemma toggled_theme_is_kept_witness :
  let w := {| Theme.theme := "light"; Theme.stored := Some "light";
              Theme.rootDark := false; Theme.prefersDark := true |} in
  Theme.toggleTheme (Theme.toggleTheme w) = w
  /\ Theme.theme
       (Theme.reload {| Theme.theme := "dark"; Theme.stored := None;
                        Theme.rootDark := false; Theme.prefersDark := true |}
          false true) = "dark".
Proof.
  cbv zeta. destruct toggled_theme_is_kept as (_ & _ & Hback & Hfirst).
  split.
  - apply Hback. repeat split. right. reflexivity.
  - exact (proj2 (Hfirst {| Theme.theme := "dark"; Theme.stored := None;
                            Theme.rootDark := false; Theme.prefersDark := true |}
                    false true eq_refl)).
Defined.

(** ** The submission handlers: what they leave alone *)

Section HandlerFrames.
Import Js Runtime.

Lemma home_submit_frame analyze (st : Home.State) (input : Analyze.AnalyzeInput) :
  exists an res tr,
    Home.after (Home.submit analyze st input)
    = Home.set_isAnalyzing an (Home.set_analysisResult res (Home.set_transcript tr st))
    /\ (Home.transcript st <> "" -> tr = Home.transcript st)
    /\ (res = None \/ exists r, res = Some r /\ analyze input = Resolved r).
Proof.
  unfold Home.submit.
  destruct (analyze input) as [result | error] eqn:Hcall.
  - assert (Hkeep : exists an res tr,
               Home.set_isAnalyzing false
                 (Home.set_analysisResult (Some result)
                    (Home.set_analysisResult None (Home.set_isAnalyzing true st)))
               = Home.set_isAnalyzing an
                   (Home.set_analysisResult res (Home.set_transcript tr st))
               /\ (Home.transcript st <> "" -> tr = Home.transcript st)
               /\ (res = None \/ exists r, res = Some r /\ Resolved result = Resolved r)).
    { exists false, (Some result), (Home.transcript st).
      destruct st; cbn; repeat split; eauto. }
    destruct (prop "transcription" result) as [[| | | t | |]|]; cbn [Home.after];
      try exact Hkeep.
    destruct (truthy t && falsy (Home.transcript st)) eqn:Hfill; [|exact Hkeep].
    exists false, (Some result), t. apply andb_true_iff in Hfill.
    destruct Hfill as [_ Hempty].
    destruct st as [lv au an tr res sup am im q pa url blob fl mic].
    cbn in *. repeat split; eauto.
    intros Hne. destruct tr; [contradiction | discriminate].
  - exists false, None, (Home.transcript st). destruct st; cbn; auto.
Qed.

(** [handleAnalyze] of [Home] writes three cells only: the busy flag, the
    result, and the transcript (the latter only when it was empty). *)
Lemma home_handleAnalyze_frame analyze (st : Home.State) :
  exists an res tr,
    Home.after (Home.handleAnalyze analyze st)
    = Home.set_isAnalyzing an (Home.set_analysisResult res (Home.set_transcript tr st))
    /\ (Home.transcript st <> "" -> tr = Home.transcript st)
    /\ (res = Home.analysisResult st
        \/ res = None
        \/ exists input r, res = Some r /\ analyze input = Resolved r).
Proof.
  assert (Hsame : exists an res tr,
             st = Home.set_isAnalyzing an
                    (Home.set_analysisResult res (Home.set_transcript tr st))
             /\ (Home.transcript st <> "" -> tr = Home.transcript st)
             /\ res = Home.analysisResult st).
  { exists (Home.isAnalyzing st), (Home.analysisResult st), (Home.transcript st).
    destruct st; cbn; auto. }
  unfold Home.handleAnalyze, Home.readThenSubmit, Home.refused.
  repeat match goal with
         | |- context [if ?c then _ else _] => destruct c
         | |- context [match Home.inputMode st with _ => _ end] =>
             destruct (Home.inputMode st)
         | |- context [match Home.audioBlob st with _ => _ end] =>
             destruct (Home.audioBlob st)
         | |- context [match Home.audioFile st with _ => _ end] =>
             destruct (Home.audioFile st)
         | |- context [match dataUrl ?b with _ => _ end] => destruct (dataUrl b)
         end;
    cbn [Home.after];
    try (destruct Hsame as (an & res & tr & E & Ht & Hr);
         exists an, res, tr; split; [exact E | split; [exact Ht | left; exact Hr]]);
    match goal with
    | |- context [Home.submit analyze st ?i] =>
        destruct (home_submit_frame analyze st i)
          as (an & res & tr & E & Ht & [Hr | (r & Hr & Hcall)]);
        exists an, res, tr; (split; [exact E | split; [exact Ht |]]);
        [right; left; exact Hr | right; right; exists i, r; auto]
    end.
Qed.

(** [handleAnalyze] of [SpeechAnalysisClient] writes the busy flag and the
    result only. *)
Lemma client_handleAnalyze_frame analyzeSpeech (st : Client.State) :
  exists ld res,
    Client.after (Client.handleAnalyze analyzeSpeech st)
    = Client.set_isLoading ld (Client.set_analysisResult res st)
    /\ (res = Client.analysisResult st
        \/ res = None
        \/ exists input r, res = Some r /\ analyzeSpeech input = Resolved r).
Proof.
  assert (Hsame : exists ld res,
             st = Client.set_isLoading ld (Client.set_analysisResult res st)
             /\ res = Client.analysisResult st).
  { exists (Client.isLoading st), (Client.analysisResult st). destruct st; cbn; auto. }
  assert (Hsubmit : forall sample,
             exists ld res,
               Client.after (Client.submit analyzeSpeech st sample)
               = Client.set_isLoading ld (Client.set_analysisResult res st)
               /\ (res = None
                   \/ exists input r, res = Some r /\ analyzeSpeech input = Resolved r)).
  { intros sample. unfold Client.submit.
    destruct (analyzeSpeech (Client.input st sample)) as [result | error] eqn:Hcall.
    - exists false, (Some result). destruct st; cbn; split; [reflexivity|].
      right. eauto.
    - exists false, None. destruct st; cbn; auto. }
  unfold Client.handleAnalyze, Client.checkContext, Client.refused.
  repeat match goal with
         | |- context [if ?c then _ else _] => destruct c
         | |- context [match Client.currentTab st with _ => _ end] =>
             destruct (Client.currentTab st)
         | |- context [match Client.audioBlob st with _ => _ end] =>
             destruct (Client.audioBlob st)
         | |- context [match dataUrl ?b with _ => _ end] => destruct (dataUrl b)
         end;
    cbn [Client.after];
    try (destruct Hsame as (ld & res & E & Hr);
         exists ld, res; split; [exact E | left; exact Hr]);
    match goal with
    | |- context [Client.submit analyzeSpeech st ?s] =>
        destruct (Hsubmit s) as (ld & res & E & [Hr | Hr]);
        exists ld, res; (split; [exact E |]);
        [right; left; exact Hr | right; right; exact Hr]
    end.
Qed.

End HandlerFrames.



(** ** Invariants over the event sequences of the two components *)

Section FlowSuccess.
Import Js Zod Runtime.

Lemma analysisFlow_resolves generate (input : Analyze.AnalyzeInput) (r : json) :
  Analyze.analyze generate input = Resolved r ->
  accepts Schemas.AnalyzeSpeechOutputSchema (Some r) = true.
Proof.
  unfold Analyze.analyze, Analyze.analysisFlow.
  destruct (negb _); [discriminate|].
  destruct (generate _ _) as [e | [output|]]; try discriminate.
  destruct (accepts _ (Some output)) eqn:Hacc; [|discriminate].
  intros Heq. injection Heq as <-. exact Hacc.
Qed.

Lemma analyzeSpeechFlow_resolves generate (input : AnalyzeSpeech.AnalyzeSpeechInput)
    (r : json) :
  AnalyzeSpeech.analyzeSpeech generate input = Resolved r ->
  accepts AnalyzeSpeech.AnalyzeSpeechOutputSchema (Some r) = true.
Proof.
  unfold AnalyzeSpeech.analyzeSpeech, AnalyzeSpeech.analyzeSpeechFlow.
  destruct (negb _); [discriminate|].
  destruct (generate _ _) as [e | [output|]]; try discriminate.
  destruct (accepts _ (Some output)) eqn:Hacc; [|discriminate].
  intros Heq. injection Heq as <-. exact Hacc.
Qed.

End FlowSuccess.

(** Every handler but [handleAnalyze], taken apart by cases on the state. *)
Ltac by_cases_on st :=
  destruct st; cbn;
  repeat match goal with
         | |- context [if ?c then _ else _] => destruct c; cbn
         | |- context [match ?x with _ => _ end] => is_var x; destruct x; cbn
         end.

Section HomeEvents.
Import Js Runtime Home.

Variable analyze : Analyze.AnalyzeInput -> outcome json.

Lemma home_step_result (st : State) (e : Event) :
  analysisResult (fst (step analyze st e)) = analysisResult st
  \/ analysisResult (fst (step analyze st e)) = None
  \/ exists input r,
       analysisResult (fst (step analyze st e)) = Some r /\ analyze input = Resolved r.
Proof.
  destruct e;
    try (unfold step, handleToggleLiveRecording, handleToggleAudioRecording,
           microphoneGranted, microphoneDenied, onstop, handleFileSelect,
           resetStateForMode, onresult, onerror, onend, liveDisabled, recordDisabled;
         by_cases_on st; auto; fail).
  cbn [step]. destruct (analyzeDisabled st); [cbn [fst]; now auto|]. cbn [fst].
  destruct (home_handleAnalyze_frame analyze st) as (an & res & tr & E & _ & Hres).
  rewrite E.
  replace (analysisResult
             (set_isAnalyzing an (set_analysisResult res (set_transcript tr st))))
    with res by (destruct st; reflexivity).
  destruct Hres as [Hr | [Hr | (input & r & Hr & Hcall)]];
    [now left | now right; left | right; right; now exists input, r].
Qed.

Lemma home_step_preview (st : State) (e : Event) :
  audioUrl st = option_map createObjectURL (match audioBlob st with Some b => Some b | None => audioFile st end) ->
  audioUrl (fst (step analyze st e))
  = option_map createObjectURL (match audioBlob (fst (step analyze st e)) with
       | Some b => Some b
       | None => audioFile (fst (step analyze st e))
       end).
Proof.
  destruct e;
    try (unfold step, handleToggleLiveRecording, handleToggleAudioRecording,
           microphoneGranted, microphoneDenied, onstop, handleFileSelect,
           resetStateForMode, onresult, onerror, onend, liveDisabled, recordDisabled;
         by_cases_on st; auto; fail).
  cbn [step]. destruct (analyzeDisabled st); [cbn [fst]; now auto|]. cbn [fst].
  destruct (home_handleAnalyze_frame analyze st) as (an & res & tr & E & _).
  rewrite E. destruct st; exact (fun H => H).
Qed.

End HomeEvents.

Section ClientEvents.
Import Js Runtime Client.

Variable analyzeSpeech : AnalyzeSpeech.AnalyzeSpeechInput -> outcome json.

Lemma client_step_result (st : State) (e : Event) :
  analysisResult (fst (step analyzeSpeech st e)) = analysisResult st
  \/ analysisResult (fst (step analyzeSpeech st e)) = None
  \/ exists input r,
       analysisResult (fst (step analyzeSpeech st e)) = Some r
       /\ analyzeSpeech input = Resolved r.
Proof.
  destruct e;
    try (unfold step, handleToggleListening, handleToggleRecording, handleFileChange,
           onValueChange, clearAudio, stopRecording, microphoneGranted,
           microphoneDenied, onstop, onresult, onerror, onend, hasAudio;
         by_cases_on st; auto; fail).
  cbn [step]. destruct (isLoading st); [cbn [fst]; now auto|]. cbn [fst].
  destruct (client_handleAnalyze_frame analyzeSpeech st) as (ld & res & E & Hres).
  rewrite E.
  replace (analysisResult (set_isLoading ld (set_analysisResult res st)))
    with res by (destruct st; reflexivity).
  destruct Hres as [Hr | [Hr | (input & r & Hr & Hcall)]];
    [now left | now right; left | right; right; now exists input, r].
Qed.

Lemma client_step_preview (st : State) (e : Event) :
  audioURL st = option_map createObjectURL (audioBlob st) ->
  audioURL (fst (step analyzeSpeech st e))
  = option_map createObjectURL (audioBlob (fst (step analyzeSpeech st e))).
Proof.
  destruct e;
    try (unfold step, handleToggleListening, handleToggleRecording, handleFileChange,
           onValueChange, clearAudio, stopRecording, microphoneGranted,
           microphoneDenied, onstop, onresult, onerror, onend, hasAudio;
         by_cases_on st; auto; fail).
  cbn [step]. destruct (isLoading st); [cbn [fst]; now auto|]. cbn [fst].
  destruct (client_handleAnalyze_frame analyzeSpeech st) as (ld & res & E & _).
  rewrite E. destruct st; exact (fun H => H).
Qed.

Lemma fold_finals_from (rs : list RecognitionResult) (acc : string) :
  fold_left (fun acc r => if isFinal r then acc ++ alternative r else acc) rs acc
  = acc ++ fold_left (fun acc r => if isFinal r then acc ++ alternative r else acc) rs "".
Proof.
  revert acc. induction rs as [|r rs IH]; intros acc; cbn [fold_left].
  - now rewrite append_empty_r.
  - destruct (isFinal r).
    + rewrite IH, (IH ("" ++ alternative r)). cbn. now rewrite append_assoc.
    + apply IH.
Qed.

Lemma client_step_final (st : State) (e : Event) :
  exists more,
    final_transcript (fst (step analyzeSpeech st e)) = final_transcript st ++ more.
Proof.
  destruct e;
    try (exists ""; rewrite append_empty_r;
         unfold step, handleToggleListening, handleToggleRecording, handleFileChange,
           onValueChange, clearAudio, stopRecording, microphoneGranted,
           microphoneDenied, onstop, onerror, onend, hasAudio;
         by_cases_on st; auto; fail).
  - cbn [step fst]. unfold onresult.
    eexists. rewrite <- fold_finals_from. destruct st; reflexivity.
  - exists "". rewrite append_empty_r.
    cbn [step]. destruct (isLoading st); [cbn [fst]; now auto|]. cbn [fst].
    destruct (client_handleAnalyze_frame analyzeSpeech st) as (ld & res & E & _).
    rewrite E. destruct st; reflexivity.
Qed.

Lemma client_run_final (es : list Event) (st : State) :
  exists more,
    final_transcript (run analyzeSpeech st es) = final_transcript st ++ more.
Proof.
  revert st. induction es as [|e es IH]; intros st; cbn [run].
  - exists "". now rewrite append_empty_r.
  - destruct (IH (fst (step analyzeSpeech st e))) as [more2 E2].
    destruct (client_step_final st e) as [more1 E1].
    exists (more1 ++ more2). now rewrite E2, E1, append_assoc.
Qed.

End ClientEvents.

Section Runs.
Import Js Zod Runtime.

Lemma home_run_result generate (es : list Home.Event) (st : Home.State) :
  (forall r, Home.analysisResult st = Some r ->
             accepts Schemas.AnalyzeSpeechOutputSchema (Some r) = true) ->
  forall r, Home.analysisResult (Home.run (Analyze.analyze generate) st es) = Some r ->
            accepts Schemas.AnalyzeSpeechOutputSchema (Some r) = true.
Proof.
  revert st. induction es as [|e es IH]; intros st Hst; cbn [Home.run]; [exact Hst|].
  apply IH. intros r Hr.
  destruct (home_step_result (Analyze.analyze generate) st e)
    as [E | [E | (input & r' & E & Hcall)]]; rewrite E in Hr.
  - now apply Hst.
  - discriminate.
  - injection Hr as <-. now apply analysisFlow_resolves in Hcall.
Qed.

Lemma client_run_result generate (es : list Client.Event) (st : Client.State) :
  (forall r, Client.analysisResult st = Some r ->
             accepts AnalyzeSpeech.AnalyzeSpeechOutputSchema (Some r) = true) ->
  forall r,
    Client.analysisResult (Client.run (AnalyzeSpeech.analyzeSpeech generate) st es)
    = Some r ->
    accepts AnalyzeSpeech.AnalyzeSpeechOutputSchema (Some r) = true.
Proof.
  revert st. induction es as [|e es IH]; intros st Hst; cbn [Client.run]; [exact Hst|].
  apply IH. intros r Hr.
  destruct (client_step_result (AnalyzeSpeech.analyzeSpeech generate) st e)
    as [E | [E | (input & r' & E & Hcall)]]; rewrite E in Hr.
  - now apply Hst.
  - discriminate.
  - injection Hr as <-. now apply analyzeSpeechFlow_resolves in Hcall.
Qed.

Lemma home_run_preview analyze (es : list Home.Event) (st : Home.State) :
  Home.audioUrl st
  = option_map createObjectURL
      (match Home.audioBlob st with Some b => Some b | None => Home.audioFile st end) ->
  let st' := Home.run analyze st es in
  Home.audioUrl st'
  = option_map createObjectURL
      (match Home.audioBlob st' with Some b => Some b | None => Home.audioFile st' end).
Proof.
  revert st. induction es as [|e es IH]; intros st Hst; cbn [Home.run]; [exact Hst|].
  apply IH. now apply home_step_preview.
Qed.

Lemma client_run_preview analyzeSpeech (es : list Client.Event) (st : Client.State) :
  Client.audioURL st = option_map createObjectURL (Client.audioBlob st) ->
  let st' := Client.run analyzeSpeech st es in
  Client.audioURL st' = option_map createObjectURL (Client.audioBlob st').
Proof.
  revert st. induction es as [|e es IH]; intros st Hst; cbn [Client.run]; [exact Hst|].
  apply IH. now apply client_step_preview.
Qed.

End Runs.

(** X11.  Whatever the model answers and whatever the user does, a result
    that is on display has passed the output schema of its flow: in every
    state [Home] reaches from its initial state with [analyze] as the remote
    call, [analysisResult] is null or accepted by [AnalyzeSpeechOutputSchema]
    of schemas.ts, and likewise for the older client with [analyzeSpeech]
    and the schema of analyze-speech.ts. *)
Theorem a_shown_result_has_passed_the_schema :
  (forall generate supported es r,
      Home.analysisResult
        (Home.run (Analyze.analyze generate) (Home.init supported) es) = Some r ->
      Zod.accepts Schemas.AnalyzeSpeechOutputSchema (Some r) = true)
  /\ (forall generate supported es r,
         Client.analysisResult
           (Client.run (AnalyzeSpeech.analyzeSpeech generate) (Client.init supported) es)
         = Some r ->
         Zod.accepts AnalyzeSpeech.AnalyzeSpeechOutputSchema (Some r) = true).
Proof.
  split; intros generate supported es.
  - apply home_run_result. cbn. discriminate.
  - apply client_run_result. cbn. discriminate.
Qed.

Lemma a_shown_result_has_passed_the_schema_witness :
  Zod.accepts Schemas.AnalyzeSpeechOutputSchema (Some Samples.output) = true.
Proof.
  apply (proj1 a_shown_result_has_passed_the_schema
           (fun _ _ => Runtime.Response (Some Samples.output)) true
           [Home.TranscriptTyped "Good morning everyone"; Home.ClickAnalyze]).
  vm_compute. reflexivity.
Defined.

(** X12.  The player always stands for the audio that is held: in every
    state [Home] reaches, [audioUrl] is the object URL of the recorded blob
    when there is one, else of the chosen file, and null when there is
    neither; in every state the older client reaches, [audioURL] is the
    object URL of [audioBlob], and null when that is null. *)
Theorem the_preview_url_belongs_to_the_held_audio :
  (forall analyze supported es,
      let st := Home.run analyze (Home.init supported) es in
      Home.audioUrl st
      = option_map Runtime.createObjectURL
          (match Home.audioBlob st with
           | Some b => Some b
           | None => Home.audioFile st
           end))
  /\ (forall analyzeSpeech supported es,
         let st := Client.run analyzeSpeech (Client.init supported) es in
         Client.audioURL st = option_map Runtime.createObjectURL (Client.audioBlob st)).
Proof.
  split; intros f supported es.
  - now apply home_run_preview.
  - now apply client_run_preview.
Qed.

(** X13.  In the older client the text the recogniser has finalised is
    never dropped: [final_transcript] lives as long as the component, so
    whatever happens after a state [st] (listening stopped and started
    again, which empties the transcript; a change of tab; an analysis), the
    next [onresult] puts a transcript on display that begins with all that
    was final in [st]. *)
Theorem client_finalised_speech_comes_back :
  forall analyzeSpeech (st : Client.State) (es : list Client.Event)
         (rs : list Runtime.RecognitionResult),
  exists rest,
    Client.transcript (Client.onresult rs (Client.run analyzeSpeech st es))
    = Client.final_transcript st ++ rest.
Proof.
  intros analyzeSpeech st es rs.
  destruct (client_run_final analyzeSpeech es st) as [more Hmore].
  unfold Client.onresult. rewrite fold_finals_from, Hmore.
  eexists. rewrite !append_assoc.
  destruct (Client.run analyzeSpeech st es); cbn. reflexivity.
Qed.

Section HomeRecognition.
Import Js Runtime Home.

Lemma finals_app (rs1 rs2 : list RecognitionResult) :
  finals (rs1 ++ rs2) = finals rs1 ++ finals rs2.
Proof.
  unfold finals. rewrite fold_left_app. apply fold_finals_from.
Qed.

Lemma finals_interim (rs : list RecognitionResult) :
  forallb (fun r => negb (isFinal r)) rs = true -> finals rs = "".
Proof.
  unfold finals. induction rs as [|r rs IH]; cbn [forallb fold_left]; [reflexivity|].
  intros H. apply andb_true_iff in H. destruct H as [Hr Hrs].
  destruct (isFinal r); [discriminate|]. now apply IH.
Qed.

Lemma transcript_onresult (rs : list RecognitionResult) (st : State) :
  transcript (onresult rs st) = transcript st ++ finals rs.
Proof.
  unfold onresult. destruct (finals rs); cbn.
  - now rewrite append_empty_r.
  - destruct st; reflexivity.
Qed.

Lemma onresult_app (rs1 rs2 : list RecognitionResult) (st : State) :
  onresult rs2 (onresult rs1 st) = onresult (rs1 ++ rs2) st.
Proof.
  unfold onresult. rewrite finals_app.
  destruct (finals rs1) as [|c1 f1]; cbn; [reflexivity|].
  destruct (finals rs2) as [|c2 f2]; cbn.
  - now rewrite append_empty_r.
  - destruct st; cbn. now rewrite append_assoc.
Qed.

End HomeRecognition.

(** X14.  [recognition.onresult] of [Home] appends to the transcript the
    final alternatives of the event, in order, and nothing else: two events
    in a row do what one event with both lists of results does, and an event
    with interim results only leaves the state as it is. *)
Theorem home_transcript_grows_by_final_results :
  forall (rs1 rs2 : list Runtime.RecognitionResult) (st : Home.State),
    Home.transcript (Home.onresult rs1 st) = Home.transcript st ++ Home.finals rs1
    /\ Home.onresult rs2 (Home.onresult rs1 st) = Home.onresult (rs1 ++ rs2) st
    /\ (forallb (fun r => negb (Runtime.isFinal r)) rs1 = true ->
        Home.onresult rs1 st = st).
Proof.
  intros rs1 rs2 st. split; [apply transcript_onresult | split].
  - apply onresult_app.
  - intros H. unfold Home.onresult. now rewrite (finals_interim rs1 H).
Qed.

Lemma home_transcript_grows_by_final_results_witness :
  let heard := [ {| Runtime.isFinal := false; Runtime.alternative := "good mor" |} ] in
  forallb (fun r => negb (Runtime.isFinal r)) heard = true
  /\ Home.onresult heard (Home.init true) = Home.init true.
Proof.
  split; [reflexivity|].
  apply (home_transcript_grows_by_final_results
           [ {| Runtime.isFinal := false; Runtime.alternative := "good mor" |} ]
           [] (Home.init true)).
  reflexivity.
Defined.

(** ** What a request carries *)

Section HomeRequests.
Import Js Runtime Analyze Home.

Variable analyze : AnalyzeInput -> outcome json.

Lemma home_invoked_lacks_nothing (st : State) (input : AnalyzeInput) :
  In (Invoke input) (effects (handleAnalyze analyze st)) ->
  forall k, lacks st k = false.
Proof.
  intros Hin k. destruct (lacks st k) eqn:E; [|reflexivity].
  destruct (home_missing_refused analyze st k E) as [t Ht].
  rewrite Ht in Hin. cbn in Hin. destruct Hin as [H | []]. discriminate H.
Qed.

Lemma falsy_false (s : string) : falsy s = false -> s <> "".
Proof. destruct s; [discriminate | intros _; discriminate]. Qed.

Lemma trimmed_truthy (s : string) : falsy (trim s) = false -> truthy s = true.
Proof. destruct s; [discriminate | reflexivity]. Qed.

(** Which tab a request comes from, and what it carries from there. *)
Lemma home_invoked_by_tab (st : State) (input : AnalyzeInput) :
  In (Invoke input) (effects (handleAnalyze analyze st)) ->
  match inputMode st with
  | live => input = withTranscription (transcript st) (inputData st)
  | audio =>
      exists b uri, audioBlob st = Some b /\ dataUrl b = Some uri
                    /\ input = withAudioDataUri uri (inputData st)
  | upload =>
      exists f uri, audioFile st = Some f /\ dataUrl f = Some uri
                    /\ input = withAudioDataUri uri (inputData st)
  end.
Proof.
  unfold handleAnalyze, readThenSubmit, refused.
  destruct (inputMode st);
    repeat match goal with
           | |- context [if ?c then _ else _] => destruct c
           | |- context [match audioBlob st with _ => _ end] =>
               destruct (audioBlob st) as [b|]
           | |- context [match audioFile st with _ => _ end] =>
               destruct (audioFile st) as [f|]
           | |- context [match dataUrl ?b with _ => _ end] =>
               destruct (dataUrl b) as [uri|] eqn:Huri
           end;
    cbn [effects In]; intros Hin;
    try (decompose [or] Hin; try discriminate; contradiction);
    apply submit_invoked in Hin; eauto 8.
Qed.

End HomeRequests.

(** X15.  A request of [Home] carries the context of its mode and no more:
    in presentation mode neither a question nor a perfect answer, even when
    the fields still hold text typed in another mode; in interview mode the
    question, which is not blank, and no perfect answer; in practice mode
    both, neither blank. *)
Theorem home_request_carries_the_context_of_its_mode :
  forall analyze (st : Home.State) (input : Analyze.AnalyzeInput),
    In (Runtime.Invoke input) (Home.effects (Home.handleAnalyze analyze st)) ->
    Analyze.mode input = Home.analysisMode st
    /\ match Home.analysisMode st with
       | Analyze.presentation =>
           Analyze.question input = None /\ Analyze.perfectAnswer input = None
       | Analyze.interview =>
           Analyze.question input = Some (Home.question st)
           /\ Js.trim (Home.question st) <> ""
           /\ Analyze.perfectAnswer input = None
       | Analyze.practice =>
           Analyze.question input = Some (Home.question st)
           /\ Js.trim (Home.question st) <> ""
           /\ Analyze.perfectAnswer input = Some (Home.perfectAnswer st)
           /\ Js.trim (Home.perfectAnswer st) <> ""
       end.
Proof.
  intros analyze st input Hin.
  pose proof (home_invoked_lacks_nothing analyze st input Hin Runtime.Question) as Hq.
  pose proof (home_invoked_lacks_nothing analyze st input Hin Runtime.PerfectAnswer) as Hp.
  destruct (home_invoked analyze st input Hin) as [_ [-> | [uri ->]]];
    unfold Home.lacks in Hq, Hp; cbn;
    destruct (Home.analysisMode st); repeat split;
    try (now apply falsy_false).
Qed.

Lemma home_request_carries_the_context_of_its_mode_witness :
  let st := Home.set_transcript "Good morning everyone"
              (Home.set_question "Tell me about yourself" (Home.init true)) in
  let input := Home.withTranscription (Home.transcript st) (Home.inputData st) in
  In (Runtime.Invoke input)
     (Home.effects (Home.handleAnalyze (fun _ => Runtime.Rejected Samples.offline) st))
  /\ Analyze.question input = None.
Proof.
  assert (Hin :
    In (Runtime.Invoke
          (Home.withTranscription "Good morning everyone"
             (Home.inputData
                (Home.set_transcript "Good morning everyone"
                   (Home.set_question "Tell me about yourself" (Home.init true))))))
       (Home.effects
          (Home.handleAnalyze (fun _ => Runtime.Rejected Samples.offline)
             (Home.set_transcript "Good morning everyone"
                (Home.set_question "Tell me about yourself" (Home.init true))))))
    by (vm_compute; left; reflexivity).
  split; [exact Hin|].
  exact (proj1 (proj2 (home_request_carries_the_context_of_its_mode _ _ _ Hin))).
Defined.

(** X16.  The prompt [analysisFlow] builds for a request of [Home] has one
    part, the sample of the tab the request was made in: the transcript in
    quotes for the live tab, the data URL of the recorded blob for the
    record tab, of the chosen file for the upload tab (a media part, unless
    the data URL is the empty string, which leaves the prompt empty). *)
Theorem home_prompt_is_the_sample_of_the_tab :
  forall analyze (st : Home.State) (input : Analyze.AnalyzeInput),
    In (Runtime.Invoke input) (Home.effects (Home.handleAnalyze analyze st)) ->
    match Home.inputMode st with
    | Home.live =>
        Analyze.promptParts input
        = [Runtime.Text ("Transcription: " ++ Runtime.quote ++ Home.transcript st
                         ++ Runtime.quote)]
    | Home.audio =>
        exists b uri,
          Home.audioBlob st = Some b /\ Runtime.dataUrl b = Some uri
          /\ Analyze.promptParts input
             = if Js.truthy uri then [Runtime.Media uri] else []
    | Home.upload =>
        exists f uri,
          Home.audioFile st = Some f /\ Runtime.dataUrl f = Some uri
          /\ Analyze.promptParts input
             = if Js.truthy uri then [Runtime.Media uri] else []
    end.
Proof.
  intros analyze st input Hin.
  pose proof (home_invoked_lacks_nothing analyze st input Hin Runtime.Transcript) as Ht.
  pose proof (home_invoked_by_tab analyze st input Hin) as Htab.
  unfold Home.lacks in Ht. destruct (Home.inputMode st).
  - subst input. unfold Analyze.promptParts. cbn.
    now rewrite (trimmed_truthy _ Ht).
  - destruct Htab as (b & uri & Hb & Huri & ->). exists b, uri.
    repeat split; auto. unfold Analyze.promptParts. cbn.
    destruct (Js.truthy uri); reflexivity.
  - destruct Htab as (f & uri & Hf & Huri & ->). exists f, uri.
    repeat split; auto. unfold Analyze.promptParts. cbn.
    destruct (Js.truthy uri); reflexivity.
Qed.

Lemma home_prompt_is_the_sample_of_the_tab_witness :
  let st := Home.onstop Samples.recording (Home.resetStateForMode Home.audio (Home.init true)) in
  exists input,
    In (Runtime.Invoke input)
       (Home.effects (Home.handleAnalyze (fun _ => Runtime.Rejected Samples.offline) st))
    /\ exists b uri,
         Home.audioBlob st = Some b /\ Runtime.dataUrl b = Some uri
         /\ Analyze.promptParts input = if Js.truthy uri then [Runtime.Media uri] else [].
Proof.
  eexists. split.
  - vm_compute. left. reflexivity.
  - refine (home_prompt_is_the_sample_of_the_tab
              (fun _ => Runtime.Rejected Samples.offline)
              (Home.onstop Samples.recording
                 (Home.resetStateForMode Home.audio (Home.init true))) _ _).
    vm_compute. left. reflexivity.
Defined.

Section ClientRequests.
Import Js Runtime AnalyzeSpeech Client.

Variable analyzeSpeech : AnalyzeSpeechInput -> outcome json.

Lemma client_invoked_context (st : State) (i : AnalyzeSpeechInput) :
  In (Invoke i) (effects (handleAnalyze analyzeSpeech st)) ->
  lacks st Question = false /\ lacks st PerfectAnswer = false.
Proof.
  intros Hin. split.
  - destruct (lacks st Question) eqn:E; [|reflexivity].
    destruct (client_missing_refused analyzeSpeech st Question E) as (Hnone & _).
    assert (Hi : In i (invoked (effects (handleAnalyze analyzeSpeech st)))).
    { unfold invoked. apply in_flat_map. exists (Invoke i). split; [exact Hin | now left]. }
    rewrite Hnone in Hi. contradiction.
  - destruct (lacks st PerfectAnswer) eqn:E; [|reflexivity].
    destruct (client_missing_refused analyzeSpeech st PerfectAnswer E) as (Hnone & _).
    assert (Hi : In i (invoked (effects (handleAnalyze analyzeSpeech st)))).
    { unfold invoked. apply in_flat_map. exists (Invoke i). split; [exact Hin | now left]. }
    rewrite Hnone in Hi. contradiction.
Qed.

(** The context fields of the request [input st sample] builds. *)
Lemma client_input_context (st : State) (sample : string) :
  lacks st Question = false -> lacks st PerfectAnswer = false ->
  let i := input st sample in
  AnalyzeSpeech.mode i = mode st
  /\ match mode st with
     | PresentationMode =>
         AnalyzeSpeech.perfectAnswer i = None
         /\ (question st = "" -> AnalyzeSpeech.question i = None)
         /\ (question st <> "" ->
             AnalyzeSpeech.question i = Some (question st)
             /\ contextText i
                = "Context: Presentation Mode" ++ newline ++ "Question: " ++ question st)
     | InterviewMode =>
         AnalyzeSpeech.question i = Some (question st) /\ question st <> ""
         /\ AnalyzeSpeech.perfectAnswer i = None
     | PracticeMode =>
         AnalyzeSpeech.question i = Some (question st) /\ question st <> ""
         /\ AnalyzeSpeech.perfectAnswer i = Some (perfectAnswer st)
         /\ perfectAnswer st <> ""
     end.
Proof.
  unfold lacks, input, contextText, labelled. cbn.
  destruct (mode st); cbn; intros Hq Hp.
  - rewrite andb_false_r. repeat split.
    + now intros ->.
    + destruct (question st); [contradiction | reflexivity].
    + destruct (question st) as [|c q]; [contradiction|]. cbn.
      now rewrite append_empty_r.
  - rewrite andb_false_r.
    destruct (question st); [discriminate|]. cbn. repeat split. discriminate.
  - destruct (question st); [discriminate|].
    destruct (perfectAnswer st); [discriminate|]. cbn. repeat split; discriminate.
Qed.

End ClientRequests.

(** X17.  A request of the older client carries the question whenever the
    question field is not empty, whatever the mode: in interview and
    practice mode it is there and not empty, and in presentation mode a
    question left over from another mode is sent and named in the prompt's
    context line.  The perfect answer goes out in practice mode only. *)
Theorem client_request_carries_a_leftover_question :
  forall analyzeSpeech (st : Client.State) (i : AnalyzeSpeech.AnalyzeSpeechInput),
    In (Runtime.Invoke i) (Client.effects (Client.handleAnalyze analyzeSpeech st)) ->
    AnalyzeSpeech.mode i = Client.mode st
    /\ match Client.mode st with
       | AnalyzeSpeech.PresentationMode =>
           AnalyzeSpeech.perfectAnswer i = None
           /\ (Client.question st = "" -> AnalyzeSpeech.question i = None)
           /\ (Client.question st <> "" ->
               AnalyzeSpeech.question i = Some (Client.question st)
               /\ AnalyzeSpeech.contextText i
                  = "Context: Presentation Mode" ++ Runtime.newline
                    ++ "Question: " ++ Client.question st)
       | AnalyzeSpeech.InterviewMode =>
           AnalyzeSpeech.question i = Some (Client.question st)
           /\ Client.question st <> ""
           /\ AnalyzeSpeech.perfectAnswer i = None
       | AnalyzeSpeech.PracticeMode =>
           AnalyzeSpeech.question i = Some (Client.question st)
           /\ Client.question st <> ""
           /\ AnalyzeSpeech.perfectAnswer i = Some (Client.perfectAnswer st)
           /\ Client.perfectAnswer st <> ""
       end.
Proof.
  intros analyzeSpeech st i Hin.
  destruct (client_invoked_context analyzeSpeech st i Hin) as [Hq Hp].
  destruct (client_invoked analyzeSpeech st i Hin) as (sample & _ & -> & _).
  now apply client_input_context.
Qed.

Lemma client_request_carries_a_leftover_question_witness :
  let st := Client.run (fun _ => Runtime.Rejected Samples.offline) (Client.init true)
              [ Client.ModeChosen AnalyzeSpeech.InterviewMode;
                Client.QuestionTyped "Why this company?";
                Client.ModeChosen AnalyzeSpeech.PresentationMode;
                Client.TranscriptTyped "Good morning everyone" ] in
  let i := Client.input st "Good morning everyone" in
  In (Runtime.Invoke i)
     (Client.effects (Client.handleAnalyze (fun _ => Runtime.Rejected Samples.offline) st))
  /\ Client.mode st = AnalyzeSpeech.PresentationMode
  /\ AnalyzeSpeech.question i = Some "Why this company?".
Proof.
  assert (Hin :
    In (Runtime.Invoke
          (Client.input
             (Client.run (fun _ => Runtime.Rejected Samples.offline) (Client.init true)
                [ Client.ModeChosen AnalyzeSpeech.InterviewMode;
                  Client.QuestionTyped "Why this company?";
                  Client.ModeChosen AnalyzeSpeech.PresentationMode;
                  Client.TranscriptTyped "Good morning everyone" ])
             "Good morning everyone"))
       (Client.effects
          (Client.handleAnalyze (fun _ => Runtime.Rejected Samples.offline)
             (Client.run (fun _ => Runtime.Rejected Samples.offline) (Client.init true)
                [ Client.ModeChosen AnalyzeSpeech.InterviewMode;
                  Client.QuestionTyped "Why this company?";
                  Client.ModeChosen AnalyzeSpeech.PresentationMode;
                  Client.TranscriptTyped "Good morning everyone" ]))))
    by (vm_compute; left; reflexivity).
  split; [exact Hin | split; [reflexivity|]].
  pose proof (client_request_carries_a_leftover_question _ _ _ Hin) as [_ H].
  cbn in H. destruct H as (_ & _ & H). apply H. discriminate.
Defined.

(** X18.  The older client tells audio from text by the first five
    characters of the sample alone: a request made in the live tab with a
    transcript that begins with [data:] hands the transcript to the model as
    the URL of a media part, and no part of the prompt carries it as the
    speech sample text. *)
Theorem client_transcript_beginning_with_data_goes_as_media :
  forall analyzeSpeech (st : Client.State) (i : AnalyzeSpeech.AnalyzeSpeechInput),
    In (Runtime.Invoke i) (Client.effects (Client.handleAnalyze analyzeSpeech st)) ->
    Client.currentTab st = Client.live ->
    Js.startsWith (Client.transcript st) "data:" = true ->
    AnalyzeSpeech.promptParts i
    = [ Runtime.Text (AnalyzeSpeech.contextText i);
        Runtime.Media (Client.transcript st) ].
Proof.
  intros analyzeSpeech st i Hin Htab Hdata.
  destruct (client_invoked analyzeSpeech st i Hin)
    as (sample & _ & -> & [[_ ->] | [Hne _]]); [|contradiction].
  unfold AnalyzeSpeech.promptParts, AnalyzeSpeech.samplePart. cbn [Client.input AnalyzeSpeech.speechSample].
  now rewrite Hdata.
Qed.

Lemma client_transcript_beginning_with_data_goes_as_media_witness :
  let st := Client.set_transcript "data: sales grew by a third" (Client.init true) in
  let i := Client.input st "data: sales grew by a third" in
  AnalyzeSpeech.promptParts i
  = [ Runtime.Text "Context: Presentation Mode";
      Runtime.Media "data: sales grew by a third" ].
Proof.
  refine (client_transcript_beginning_with_data_goes_as_media
            (fun _ => Runtime.Rejected Samples.offline)
            (Client.set_transcript "data: sales grew by a third" (Client.init true))
            _ _ _ _).
  - vm_compute. left. reflexivity.
  - reflexivity.
  - reflexivity.
Defined.

(** ** The PDF report: where it draws *)

Section PdfLayout.
Import Pdf.
Local Open Scope Q_scope.

Variable splitTextToSize : string * string * Z -> string -> Q -> list string.
Variable str : Q -> string.
Variable toFixed : Q -> nat -> string.
Variables pageHeight pageWidth : Q.

(** The page holds the fixed part of the first page, which ends with the
    assessment at [y = 55]. *)
Hypothesis tall : 70 <= pageHeight.

Local Abbreviation room := (Pdf.room pageHeight).
Local Abbreviation placed := (Pdf.placed pageHeight).
Local Abbreviation inside := (Pdf.inside pageHeight).
Local Abbreviation checkY := (Pdf.checkY pageHeight).
Local Abbreviation heading := (Pdf.heading pageWidth).

Lemma between_iff (v : Q) :
  between pageHeight v = true <-> margin <= v /\ v <= pageHeight - margin.
Proof.
  unfold between. rewrite andb_true_iff, !Qle_bool_iff. reflexivity.
Qed.

Lemma count_nonneg {A} (l : list A) : 0 <= count l.
Proof.
  unfold count. change 0 with (inject_Z 0). rewrite <- Zle_Qle. apply Nat2Z.is_nonneg.
Qed.

Lemma room_less (k k' : Q) (d : Doc) : room k d -> k' <= k -> room k' d.
Proof.
  unfold Pdf.room. intros (Htop & Hbot & Hcalls) Hk. repeat split; auto. lra.
Qed.

Lemma room_font (k : Q) (name style : string) (d : Doc) :
  room k d -> room k (doSetFont name style d).
Proof.
  unfold Pdf.room. cbn [y calls doSetFont]. intros (Htop & Hbot & Hcalls).
  repeat split; auto. rewrite forallb_app, Hcalls. reflexivity.
Qed.

Lemma room_size (k : Q) (size : Z) (d : Doc) :
  room k d -> room k (doSetFontSize size d).
Proof.
  unfold Pdf.room. cbn [y calls doSetFontSize]. intros (Htop & Hbot & Hcalls).
  repeat split; auto. rewrite forallb_app, Hcalls. reflexivity.
Qed.

Lemma room_colour (k : Q) (ch1 : Z) (d : Doc) :
  room k d -> room k (call (setDrawColor ch1) d).
Proof.
  unfold Pdf.room. cbn [y calls call]. intros (Htop & Hbot & Hcalls).
  repeat split; auto. rewrite forallb_app, Hcalls. reflexivity.
Qed.

Lemma room_text (k : Q) (c : Content) (x : Q) (align : option string) (d : Doc) :
  room k d -> 0 <= k -> room k (call (text c x (y d) align) d).
Proof.
  unfold Pdf.room. cbn [y calls call]. intros (Htop & Hbot & Hcalls) Hk.
  repeat split; auto. rewrite forallb_app, Hcalls. cbn [forallb Pdf.inside andb].
  rewrite andb_true_r. apply between_iff. split; [exact Htop | lra].
Qed.

Lemma room_line (k x1 x2 : Q) (d : Doc) :
  room k d -> 0 <= k -> room k (call (line x1 (y d) x2 (y d)) d).
Proof.
  unfold Pdf.room. cbn [y calls call]. intros (Htop & Hbot & Hcalls) Hk.
  repeat split; auto. rewrite forallb_app, Hcalls. cbn [forallb Pdf.inside andb].
  rewrite andb_true_r, andb_diag. apply between_iff. split; [exact Htop | lra].
Qed.

Lemma room_advance (k dy : Q) (d : Doc) :
  room k d -> 0 <= dy -> room (k - dy) (advance dy d).
Proof.
  unfold Pdf.room. cbn [y calls advance]. intros (Htop & Hbot & Hcalls) Hdy.
  repeat split; auto; lra.
Qed.

Lemma room_placed (k : Q) (d : Doc) : room k d -> placed d.
Proof. unfold Pdf.room, Pdf.placed. tauto. Qed.

Lemma placed_advance (dy : Q) (d : Doc) : placed d -> 0 <= dy -> placed (advance dy d).
Proof.
  unfold Pdf.placed. cbn [y calls advance]. intros [Htop Hcalls] Hdy. split; [lra | auto].
Qed.

(** [checkY(increment)] makes room for [increment], as long as a fresh page
    has that much; for a larger increment the next line at least starts
    inside. *)
Lemma checkY_room (increment : Q) (d : Doc) :
  placed d -> increment <= 40 -> room increment (checkY increment d).
Proof.
  unfold Pdf.placed, Pdf.room, Pdf.checkY. intros [Htop Hcalls] Hinc.
  destruct (Qle_bool (y d + increment) (pageHeight - margin)) eqn:Hfits; cbn [negb].
  - apply Qle_bool_iff in Hfits. auto.
  - cbn [y calls]. unfold margin in *. repeat split; try lra.
    rewrite forallb_app, Hcalls. reflexivity.
Qed.

Lemma checkY_start (increment : Q) (d : Doc) :
  placed d -> 0 <= increment -> room 0 (checkY increment d).
Proof.
  unfold Pdf.placed, Pdf.room, Pdf.checkY. intros [Htop Hcalls] Hinc.
  destruct (Qle_bool (y d + increment) (pageHeight - margin)) eqn:Hfits; cbn [negb].
  - apply Qle_bool_iff in Hfits. repeat split; auto. lra.
  - cbn [y calls]. unfold margin in *. repeat split; try lra.
    rewrite forallb_app, Hcalls. reflexivity.
Qed.

Lemma placed_fold {A} (f : Doc -> A -> Doc) (l : list A) (d : Doc) :
  (forall d x, placed d -> placed (f d x)) -> placed d -> placed (fold_left f l d).
Proof.
  intros Hf. revert d. induction l as [|x l IH]; intros d Hd; cbn [fold_left]; auto.
Qed.

Lemma heading_room (k : Q) (title : string) (d : Doc) :
  room k d -> line_height * 2 <= k ->
  room (k - line_height - line_height) (heading title d).
Proof.
  intros Hd Hk. unfold Pdf.heading. cbv zeta. unfold line_height in *.
  apply room_advance; [|lra].
  apply room_line; [|lra].
  apply room_advance; [|lra].
  apply room_text; [|lra].
  now apply room_size, room_font.
Qed.

(** The height of a block of lines is not negative. *)
Lemma block_nonneg {A} (l : list A) (extra : Q) :
  0 <= extra -> 0 <= count l * line_height + extra.
Proof.
  intros He. pose proof (count_nonneg l) as Hn. unfold line_height.
  generalize dependent (count l). intros n Hn. lra.
Qed.

Lemma lines_nonneg {A} (l : list A) : 0 <= count l * line_height.
Proof.
  pose proof (count_nonneg l) as Hn. unfold line_height.
  generalize dependent (count l). intros n Hn. lra.
Qed.

Ltac block_height :=
  first [ apply lines_nonneg
        | apply block_nonneg; unfold line_height;
          first [lra | vm_compute; discriminate] ].

Ltac enough_room := unfold line_height; lra.

(** What is known of the document after one more statement, from what was
    known before it. *)
Ltac after_statement v e :=
  lazymatch e with
  | doSetFont ?n ?s ?d =>
      match goal with
      | H : Pdf.room _ ?k d |- _ =>
          pose proof (room_font k n s d H : Pdf.room pageHeight k v); clear H
      end
  | doSetFontSize ?n ?d =>
      match goal with
      | H : Pdf.room _ ?k d |- _ =>
          pose proof (room_size k n d H : Pdf.room pageHeight k v); clear H
      end
  | call (setDrawColor ?c) ?d =>
      match goal with
      | H : Pdf.room _ ?k d |- _ =>
          pose proof (room_colour k c d H : Pdf.room pageHeight k v); clear H
      end
  | call (text ?c ?x (y ?d) ?a) ?d =>
      match goal with
      | H : Pdf.room _ ?k d |- _ =>
          let Hk := fresh "Hk" in
          assert (Hk : 0 <= k) by enough_room;
          pose proof (room_text k c x a d H Hk : Pdf.room pageHeight k v);
          clear H Hk
      end
  | call (line ?x1 (y ?d) ?x2 (y ?d)) ?d =>
      match goal with
      | H : Pdf.room _ ?k d |- _ =>
          let Hk := fresh "Hk" in
          assert (Hk : 0 <= k) by enough_room;
          pose proof (room_line k x1 x2 d H Hk : Pdf.room pageHeight k v);
          clear H Hk
      end
  | Pdf.heading _ ?title ?d =>
      match goal with
      | H : Pdf.room _ ?k d |- _ =>
          let Hk := fresh "Hk" in
          assert (Hk : line_height * 2 <= k) by enough_room;
          pose proof (heading_room k title d H Hk
                      : Pdf.room pageHeight (k - line_height - line_height) v);
          clear H Hk
      end
  | advance ?dy ?d =>
      match goal with
      | H : Pdf.room _ ?k d |- _ =>
          let Hk := fresh "Hk" in
          first
            [ assert (Hk : 0 <= dy) by enough_room;
              pose proof (room_advance k dy d H Hk : Pdf.room pageHeight (k - dy) v)
            | assert (Hk : 0 <= dy) by block_height;
              pose proof (placed_advance dy d (room_placed k d H) Hk
                          : Pdf.placed pageHeight v) ];
          clear H Hk
      end
  | Pdf.checkY _ ?h ?d =>
      let Hd := fresh "Hd" in
      match goal with
      | H : Pdf.room _ ?k d |- _ => pose proof (room_placed k d H) as Hd; clear H
      | H : Pdf.placed _ d |- _ => rename H into Hd
      end;
      let Hh := fresh "Hh" in
      first
        [ assert (Hh : h <= 40) by enough_room;
          pose proof (checkY_room h d Hd Hh : Pdf.room pageHeight h v)
        | assert (Hh : 0 <= h) by block_height;
          pose proof (checkY_start h d Hd Hh : Pdf.room pageHeight 0 v) ];
      clear Hd Hh
  | _ => idtac
  end.

Ltac statement :=
  lazymatch goal with
  | |- ?P (let x := ?e in @?b x) =>
      let v := fresh "v" in
      pose (v := e); change (P (b v)); cbv beta;
      after_statement v e; clearbody v
  end.

Ltac last_statement :=
  lazymatch goal with
  | |- Pdf.placed _ (advance ?dy ?d) =>
      apply placed_advance; [|first [enough_room | block_height]]
  | _ => idtac
  end;
  lazymatch goal with
  | H : Pdf.room _ ?k ?d |- Pdf.placed _ ?d => exact (room_placed k d H)
  | H : Pdf.placed _ ?d |- Pdf.placed _ ?d => exact H
  end.

Lemma overall_placed (data : AnalyzeSpeechOutput) :
  placed (overall splitTextToSize str pageWidth data blank).
Proof.
  assert (Hblank : room 35 blank).
  { unfold Pdf.room, blank, margin. cbn [y calls forallb]. repeat split; lra. }
  cbv beta delta [overall]. generalize dependent blank. intros d Hd.
  repeat statement. last_statement.
Qed.

Lemma transcription_placed (data : AnalyzeSpeechOutput) (d : Doc) :
  placed d -> placed (transcription splitTextToSize pageHeight pageWidth data d).
Proof.
  intros Hd. cbv beta delta [transcription].
  destruct (Report.transcriptionSection _) as [fullText|]; [|exact Hd].
  repeat statement. last_statement.
Qed.

Lemma metricLine_placed (d : Doc) (metric : string) :
  placed d -> placed (metricLine pageHeight d metric).
Proof.
  intros Hd. cbv beta delta [metricLine]. repeat statement. last_statement.
Qed.

Lemma keyMetrics_placed (data : AnalyzeSpeechOutput) (d : Doc) :
  placed d -> placed (keyMetrics str toFixed pageHeight pageWidth data d).
Proof.
  intros Hd. cbv beta delta [keyMetrics]. do 4 statement.
  match goal with H : Pdf.room _ ?k ?v |- _ => apply room_placed in H end.
  apply placed_advance; [|enough_room].
  now apply placed_fold; [exact metricLine_placed|].
Qed.

Lemma itemBlock_placed (d : Doc) (item : Grouping.Criterion) :
  placed d -> placed (itemBlock splitTextToSize str pageHeight pageWidth d item).
Proof.
  intros Hd. cbv beta delta [itemBlock]. repeat statement. last_statement.
Qed.

Lemma categoryBlock_placed (d : Doc) (entry : string * list Grouping.Criterion) :
  placed d -> placed (categoryBlock splitTextToSize str pageHeight pageWidth d entry).
Proof.
  intros Hd. destruct entry as [category items]. cbv beta iota delta [categoryBlock].
  repeat statement.
  match goal with H : Pdf.room _ ?k ?v |- _ => apply room_placed in H end.
  now apply placed_fold; [exact itemBlock_placed|].
Qed.

Lemma detailedFeedback_placed (data : AnalyzeSpeechOutput) (d : Doc) :
  placed d -> placed (detailedFeedback splitTextToSize str pageHeight pageWidth data d).
Proof.
  intros Hd. cbv beta delta [detailedFeedback]. repeat statement.
  match goal with H : Pdf.room _ ?k ?v |- _ => apply room_placed in H end.
  now apply placed_fold; [exact categoryBlock_placed|].
Qed.

Lemma suggestion_placed (data : AnalyzeSpeechOutput) (d : Doc) :
  placed d -> placed (suggestion splitTextToSize pageHeight pageWidth data d).
Proof.
  intros Hd. cbv beta delta [suggestion].
  destruct (suggestedSpeech data) as [suggested|]; [|exact Hd].
  destruct (Js.truthy suggested); [|exact Hd].
  repeat statement. last_statement.
Qed.

Lemma report_placed (data : AnalyzeSpeechOutput) :
  forallb inside
    (generatePdfReport splitTextToSize str toFixed pageHeight pageWidth data) = true.
Proof.
  unfold generatePdfReport. cbv zeta. cbn [calls call].
  rewrite forallb_app. cbn [forallb Pdf.inside andb]. rewrite andb_true_r.
  apply suggestion_placed, detailedFeedback_placed, keyMetrics_placed,
    transcription_placed, overall_placed.
Qed.

End PdfLayout.

(** X19.  On a page at least 70 units tall the PDF report starts every text
    and every rule between the margins: each [doc.text] and [doc.line] call
    of [generatePdfReport] has its [y] coordinate between [margin] (15) and
    [pageHeight - margin], whatever the analysis holds and however
    [splitTextToSize] breaks the lines.  (A text of several lines may still
    run on below; the statement is about where it starts.) *)
Theorem report_starts_every_block_between_the_margins :
  forall (splitTextToSize : string * string * Z -> string -> Q -> list string)
         (str : Q -> string) (toFixed : Q -> nat -> string)
         (pageHeight pageWidth : Q) (data : Pdf.AnalyzeSpeechOutput),
    (70 <= pageHeight)%Q ->
    forallb (Pdf.inside pageHeight)
      (Pdf.generatePdfReport splitTextToSize str toFixed pageHeight pageWidth data)
    = true.
Proof.
  intros splitTextToSize str toFixed pageHeight pageWidth data tall.
  now apply report_placed.
Qed.

Lemma report_starts_every_block_between_the_margins_witness :
  (70 <= 297)%Q
  /\ forallb (Pdf.inside 297)
       (Pdf.generatePdfReport Examples.oneLine Examples.digits Examples.fixed
          297 210 Examples.analysis)
     = true.
Proof.
  assert (tall : (70 <= 297)%Q) by (unfold Qle; cbn; lia).
  split; [exact tall|].
  exact (report_starts_every_block_between_the_margins
           Examples.oneLine Examples.digits Examples.fixed 297 210
           Examples.analysis tall).
Defined.
